(** * Soniox transcription model: a shallow embedding and its properties

    The repository holds two revisions of the transcription model
    [SonioxTranscriptionModel], next to the provider-option schema of
    [soniox-transcription-options.ts] and the API types of
    [soniox-api-types.ts]:

    - [Module Model] embeds [packages/soniox/src/soniox-transcription-model.ts]:
      the audio source is chosen by [audioUrl] / [fileId]; there is no
      language detection, no poll timeout and no cleanup;
    - [Module Part003] embeds the revision kept as [unnamed/part_003]:
      language detection, a poll timeout and best-effort deletion in a
      [finally] block; the audio is always uploaded.

    JavaScript numbers are IEEE 754 binary64 values and are modelled by
    Rocq's primitive floats.  [doGenerate] is store-passing code over the
    call's store; network calls, the clock and the abort signal are the
    environment, a record of handlers over an abstract world.  The poll
    loop [while (true)] is cut off after a number of turns ([fuel]); a run
    that needs more turns is [Diverge]. *)

From Stdlib Require Import List String Ascii ZArith Bool Arith Lia Floats.
From Stdlib Require Import DecimalString.
Import ListNotations.
Local Open Scope string_scope.

Set Implicit Arguments.
Set Warnings "-inexact-float".

(** ** JavaScript values *)

(** A field typed [T | null | undefined] (zod's [.nullish()]). *)
Inductive nullish (A : Type) : Type :=
| Undefined : nullish A
| Null : nullish A
| Val : A -> nullish A.
Arguments Undefined {A}.
Arguments Null {A}.
Arguments Val {A} _.

(** [x ?? undefined] *)
Definition coalesce {A : Type} (x : nullish A) : option A :=
  match x with
  | Val a => Some a
  | _ => None
  end.

(** [x ?? d] *)
Definition coalesce_or {A : Type} (x : nullish A) (d : A) : A :=
  match x with
  | Val a => a
  | _ => d
  end.

(** [typeof x === 'number'] on a nullish number field. *)
Definition is_number (x : nullish float) : bool :=
  match x with
  | Val _ => true
  | _ => false
  end.

(** Truthiness of a string: only the empty string is falsy. *)
Definition truthy (s : string) : bool :=
  match s with
  | EmptyString => false
  | String _ _ => true
  end.

(** Truthiness of [string | undefined]. *)
Definition truthy_opt (s : option string) : bool :=
  match s with
  | Some s => truthy s
  | None => false
  end.

(** ** API types ([soniox-api-types.ts]) *)

Inductive Speaker : Type :=
| SpeakerNumber (n : float)
| SpeakerString (s : string).

Record SonioxTranscriptToken : Type := {
  text : string;
  start_ms : nullish float;
  end_ms : nullish float;
  confidence : nullish float;
  speaker : nullish Speaker;
  language : nullish string;
  translation_status : nullish string
}.

Record Segment : Type := {
  seg_text : string;
  startSecond : float;
  endSecond : float
}.

(** ** Result mapping *)

Definition has_times (token : SonioxTranscriptToken) : bool :=
  is_number (start_ms token) && is_number (end_ms token).

(** [token.start_ms!]: the non-null assertion is erased at run time; on a
    token that passed the filter the value is the number itself. *)
Definition unwrap_number (x : nullish float) : float :=
  match x with
  | Val v => v
  | _ => PrimFloat.nan
  end.

Definition to_segment (token : SonioxTranscriptToken) : Segment :=
  {| seg_text := text token;
     startSecond := PrimFloat.div (unwrap_number (start_ms token)) 1000%float;
     endSecond := PrimFloat.div (unwrap_number (end_ms token)) 1000%float |}.

(** [buildSegments(tokens)], identical in both revisions. *)
Definition buildSegments (tokens : option (list SonioxTranscriptToken))
  : list Segment :=
  match tokens with
  | None => []
  | Some tokens => map to_segment (filter has_times tokens)
  end.


(** *** Primary language *)

(** A JavaScript [Map<string, number>]: iteration follows insertion order,
    and [set] on an existing key keeps the key's position. *)
Definition JsMap : Type := list (string * nat).

Fixpoint map_get (k : string) (m : JsMap) : option nat :=
  match m with
  | [] => None
  | (k', v) :: m' => if String.eqb k' k then Some v else map_get k m'
  end.

Fixpoint map_set (k : string) (v : nat) (m : JsMap) : JsMap :=
  match m with
  | [] => [(k, v)]
  | (k', v') :: m' =>
      if String.eqb k' k then (k', v) :: m' else (k', v') :: map_set k v m'
  end.

(** Body of the first loop of [getLanguageFromTokens]. *)
Definition count_language (counts : JsMap) (token : SonioxTranscriptToken)
  : JsMap :=
  match coalesce (language token) with
  | None => counts
  | Some language =>
      if truthy language
      then map_set language
             (match map_get language counts with Some n => n | None => 0 end + 1)%nat
             counts
      else counts
  end.

(** Body of the second loop: [(bestLanguage, bestCount)]. *)
Definition pick_best (best : option string * nat) (entry : string * nat)
  : option string * nat :=
  let '(language, count) := entry in
  if Nat.ltb (snd best) count then (Some language, count) else best.

(** [getLanguageFromTokens(tokens)] of [part_003]. *)
Definition getLanguageFromTokens
  (tokens : option (list SonioxTranscriptToken)) : option string :=
  match tokens with
  | None => None
  | Some tokens =>
      let counts := fold_left count_language tokens [] in
      fst (fold_left pick_best counts (None, 0))
  end.

(** The non-empty language tags of a token sequence, in token order. *)
Fixpoint language_tags (tokens : list SonioxTranscriptToken) : list string :=
  match tokens with
  | [] => []
  | t :: ts =>
      match language t with
      | Val l => if truthy l then l :: language_tags ts else language_tags ts
      | _ => language_tags ts
      end
  end.

(** Number of tokens tagged [l]. *)
Definition occurrences (l : string) (tokens : list SonioxTranscriptToken)
  : nat :=
  count_occ string_dec (language_tags tokens) l.

(** ** Provider options ([soniox-transcription-options.ts]) *)

Record SonioxContextObject : Type := {
  general : nullish (list (string * string));
  context_text : nullish string;
  terms : nullish (list string);
  translationTerms : nullish (list (string * string))
}.

Inductive SonioxContextOption : Type :=
| ContextString (s : string)
| ContextObject (o : SonioxContextObject).

Inductive SonioxTranslationOption : Type :=
| OneWay (targetLanguage : string)
| TwoWay (languageA languageB : string).

(** [z.infer<typeof sonioxTranscriptionProviderOptionsSchema>] *)
Record SonioxOptions : Type := {
  audioUrl : nullish string;
  fileId : nullish string;
  languageHints : nullish (list string);
  enableLanguageIdentification : nullish bool;
  enableSpeakerDiarization : nullish bool;
  context : nullish SonioxContextOption;
  clientReferenceId : nullish string;
  webhookUrl : nullish string;
  webhookAuthHeaderName : nullish string;
  webhookAuthHeaderValue : nullish string;
  translation : nullish SonioxTranslationOption;
  autoDeleteTranscription : nullish bool;
  autoDeleteFile : nullish bool
}.

(** [z.boolean().nullish().default(true)]: the default replaces [undefined]
    only. *)
Definition default_true (x : nullish bool) : nullish bool :=
  match x with
  | Undefined => Val true
  | _ => x
  end.

(** The schema applied to a well-typed options object. *)
Definition sonioxTranscriptionProviderOptionsSchema (o : SonioxOptions)
  : SonioxOptions :=
  {| audioUrl := audioUrl o;
     fileId := fileId o;
     languageHints := languageHints o;
     enableLanguageIdentification := enableLanguageIdentification o;
     enableSpeakerDiarization := enableSpeakerDiarization o;
     context := context o;
     clientReferenceId := clientReferenceId o;
     webhookUrl := webhookUrl o;
     webhookAuthHeaderName := webhookAuthHeaderName o;
     webhookAuthHeaderValue := webhookAuthHeaderValue o;
     translation := translation o;
     autoDeleteTranscription := default_true (autoDeleteTranscription o);
     autoDeleteFile := default_true (autoDeleteFile o) |}.

(** ** Requests, responses and thrown values *)

Record StatusResponse : Type := {
  status_id : string;
  status : string;
  audio_duration_ms : nullish float;
  error_message : nullish string
}.

(** A thrown JavaScript value: an [Error] instance (plain [Error],
    [AISDKError], an API call error, an abort error) or anything else, of
    which only [String(value)] is observed. *)
Inductive JsThrown : Type :=
| ErrorObject (name message : string) (cause : option StatusResponse)
| NonError (as_string : string).

(** [new Error(message)] *)
Definition new_Error (message : string) : JsThrown :=
  ErrorObject "Error" message None.

(** [new AISDKError({ message, name, cause })] *)
Definition new_AISDKError (message name : string)
  (cause : option StatusResponse) : JsThrown :=
  ErrorObject name message cause.

(** [error instanceof Error ? error.message : String(error)] *)
Definition thrown_message (error : JsThrown) : string :=
  match error with
  | ErrorObject _ message _ => message
  | NonError s => s
  end.

Definition Headers : Type := list (string * option string).

Definition AbortSignal : Type := nat.

Inductive Audio : Type :=
| AudioBytes (bytes : list Byte.byte)
| AudioBase64 (encoded : string).

(** The [options] argument of [doGenerate]; [providerOptions] is given by
    what [parseProviderOptions] finds under the [soniox] key. *)
Inductive ProviderOptions : Type :=
| NoSonioxOptions
| InvalidSonioxOptions (error : JsThrown)
| SonioxOptionsObject (o : SonioxOptions).

Record CallOptions : Type := {
  audio : Audio;
  mediaType : string;
  headers : option Headers;
  abortSignal : option AbortSignal;
  providerOptions : ProviderOptions
}.

(** [parseProviderOptions({ provider: 'soniox', providerOptions, schema })] *)
Definition parseProviderOptions (po : ProviderOptions)
  : JsThrown + option SonioxOptions :=
  match po with
  | NoSonioxOptions => inr None
  | InvalidSonioxOptions e => inl e
  | SonioxOptionsObject o =>
      inr (Some (sonioxTranscriptionProviderOptionsSchema o))
  end.

Inductive SonioxTranslation : Type :=
| one_way (target_language : string)
| two_way (language_a language_b : string).

Record SonioxContextBody : Type := {
  body_general : option (list (string * string));
  body_text : option string;
  body_terms : option (list string);
  translation_terms : option (list (string * string))
}.

Inductive SonioxContext : Type :=
| BodyContextString (s : string)
| BodyContextObject (o : SonioxContextBody).

Record SonioxCreateTranscriptionRequest : Type := {
  model : string;
  audio_url : option string;
  file_id : option string;
  language_hints : option (list string);
  enable_language_identification : option bool;
  enable_speaker_diarization : option bool;
  body_context : option SonioxContext;
  client_reference_id : option string;
  webhook_url : option string;
  webhook_auth_header_name : option string;
  webhook_auth_header_value : option string;
  body_translation : option SonioxTranslation
}.

(** The multipart form of the upload: one [file] entry. *)
Record FormData : Type := {
  file_name : string;
  file_type : string;
  file_bytes : list Byte.byte
}.

(** Argument of the provider-utils helpers ([postFormDataToApi],
    [postJsonToApi], [getFromApi]). *)
Record ApiRequest (B : Type) : Type := {
  url : string;
  req_headers : Headers;
  req_body : B;
  req_abortSignal : option AbortSignal
}.

(** Second argument of the raw [fetch]. *)
Record RequestInit : Type := {
  method : string;
  init_headers : list (string * string);
  signal : option AbortSignal
}.

Record FetchResponse : Type := {
  ok : bool;
  response_status : N;
  statusText : string;
  response_text : JsThrown + string
}.

Record UploadResponse : Type := { upload_id : string }.

Record CreateResponse : Type := {
  create_id : string;
  create_status : nullish string
}.

Record TranscriptResponse : Type := {
  transcript_id : string;
  transcript_text : nullish string;
  tokens : nullish (list SonioxTranscriptToken)
}.

(** What [getFromApi] resolves to for the transcript request. *)
Record TranscriptReply : Type := {
  value : TranscriptResponse;
  responseHeaders : option (list (string * string));
  rawValue : string
}.

(** Every network request the call issues, in order. *)
Inductive Call : Type :=
| CallUpload (r : ApiRequest FormData)
| CallSubmit (r : ApiRequest SonioxCreateTranscriptionRequest)
| CallStatus (r : ApiRequest unit)
| CallTranscript (r : ApiRequest unit)
| CallFetch (url : string) (init : RequestInit).

Record SharedV3Warning : Type := {
  warning_type : string;
  warning_message : string
}.

Record ResponseMetadata : Type := {
  timestamp : Z;
  response_modelId : string;
  response_headers : option (list (string * string));
  response_body : string
}.

(** The [warnings] array is allocated once per call and shared by
    reference: the returned object and [tryDeleteResource] hold the same
    array.  It lives in the call's store; the result holds the reference. *)
Inductive WarningsRef : Type := warnings_array.

Record TranscriptionResult : Type := {
  result_text : string;
  segments : list Segment;
  result_language : option string;
  durationInSeconds : option float;
  result_warnings : WarningsRef;
  response : ResponseMetadata;
  providerMetadata_soniox_tokens : list SonioxTranscriptToken
}.

(** ** The environment and the call's store *)

(** How a computation completes: normally, by throwing, or not at all
    within the iterations granted to the poll loop. *)
Inductive Outcome (A : Type) : Type :=
| Ret (a : A)
| Throw (e : JsThrown)
| Diverge.
Arguments Ret {A} _.
Arguments Throw {A} _.
Arguments Diverge {A}.

Section Effects.

Variable W : Type.

(** The model instance ([modelId], [config]) and the outside world.  Each
    handler takes the world before the operation and returns the world
    after it; a helper either resolves ([inr]) or rejects ([inl]). *)
Record Env : Type := {
  modelId : string;
  config_url : string -> string -> string;
  config_headers : W -> JsThrown + Headers;
  config_pollingIntervalMs : option Z;
  currentDate : W -> Z;
  combineHeaders : Headers -> option Headers -> Headers;
  convertBase64ToUint8Array : string -> JsThrown + list Byte.byte;
  mediaTypeToExtension : string -> string;
  postFormDataToApi :
    ApiRequest FormData -> W -> (JsThrown + UploadResponse) * W;
  postJsonToApi :
    ApiRequest SonioxCreateTranscriptionRequest -> W ->
    (JsThrown + CreateResponse) * W;
  getFromApi_status : ApiRequest unit -> W -> (JsThrown + StatusResponse) * W;
  getFromApi_transcript :
    ApiRequest unit -> W -> (JsThrown + TranscriptReply) * W;
  fetch : string -> RequestInit -> W -> (JsThrown + FetchResponse) * W;
  Date_now : W -> Z;
  aborted : AbortSignal -> W -> bool;
  delay : Z -> W -> W
}.

(** The store of one [doGenerate] call: the world, the requests issued so
    far, the contents of the [warnings] array, and the [let] variables that
    outlive the statement assigning them. *)
Record State : Type := {
  world : W;
  calls : list Call;
  warnings : list SharedV3Warning;
  var_fileId : option string;
  var_transcriptionId : option string;
  var_statusResponse : option StatusResponse
}.

Definition init_state (w : W) : State :=
  {| world := w; calls := []; warnings := [];
     var_fileId := None; var_transcriptionId := None;
     var_statusResponse := None |}.

(** What the caller observes in [result.warnings]. *)
Definition deref (s : State) (r : WarningsRef) : list SharedV3Warning :=
  match r with warnings_array => warnings s end.

Definition M (A : Type) : Type := State -> Outcome A * State.

Definition ret {A : Type} (a : A) : M A := fun s => (Ret a, s).

Definition throw {A : Type} (e : JsThrown) : M A := fun s => (Throw e, s).

Definition bind {A B : Type} (m : M A) (k : A -> M B) : M B :=
  fun s =>
    match m s with
    | (Ret a, s') => k a s'
    | (Throw e, s') => (Throw e, s')
    | (Diverge, s') => (Diverge, s')
    end.

(** A synchronous helper that returns or throws. *)
Definition lift {A : Type} (r : JsThrown + A) : M A :=
  match r with
  | inl e => throw e
  | inr a => ret a
  end.

(** Read something off the world without changing it. *)
Definition observe {A : Type} (f : W -> A) : M A :=
  fun s => (Ret (f (world s)), s).

(** Issue a network request: it is recorded, then the handler runs. *)
Definition perform {A : Type} (c : Call) (h : W -> (JsThrown + A) * W)
  : M A :=
  fun s =>
    let (r, w') := h (world s) in
    let s' := {| world := w'; calls := calls s ++ [c];
                 warnings := warnings s;
                 var_fileId := var_fileId s;
                 var_transcriptionId := var_transcriptionId s;
                 var_statusResponse := var_statusResponse s |} in
    match r with
    | inl e => (Throw e, s')
    | inr a => (Ret a, s')
    end.

(** [await delay(ms)] *)
Definition sleep (E : Env) (ms : Z) : M unit :=
  fun s =>
    (Ret tt,
     {| world := delay E ms (world s); calls := calls s;
        warnings := warnings s;
        var_fileId := var_fileId s;
        var_transcriptionId := var_transcriptionId s;
        var_statusResponse := var_statusResponse s |}).

(** [warnings.push(w)] *)
Definition push_warning (w : SharedV3Warning) : M unit :=
  fun s =>
    (Ret tt,
     {| world := world s; calls := calls s;
        warnings := warnings s ++ [w];
        var_fileId := var_fileId s;
        var_transcriptionId := var_transcriptionId s;
        var_statusResponse := var_statusResponse s |}).

Definition set_fileId (v : option string) : M unit :=
  fun s =>
    (Ret tt,
     {| world := world s; calls := calls s; warnings := warnings s;
        var_fileId := v;
        var_transcriptionId := var_transcriptionId s;
        var_statusResponse := var_statusResponse s |}).

Definition set_transcriptionId (v : option string) : M unit :=
  fun s =>
    (Ret tt,
     {| world := world s; calls := calls s; warnings := warnings s;
        var_fileId := var_fileId s;
        var_transcriptionId := v;
        var_statusResponse := var_statusResponse s |}).

Definition set_statusResponse (v : option StatusResponse) : M unit :=
  fun s =>
    (Ret tt,
     {| world := world s; calls := calls s; warnings := warnings s;
        var_fileId := var_fileId s;
        var_transcriptionId := var_transcriptionId s;
        var_statusResponse := v |}).

Definition get_fileId : M (option string) :=
  fun s => (Ret (var_fileId s), s).

Definition get_transcriptionId : M (option string) :=
  fun s => (Ret (var_transcriptionId s), s).

Definition get_statusResponse : M (option StatusResponse) :=
  fun s => (Ret (var_statusResponse s), s).

(** [try { body } catch (error) { handler }] *)
Definition try_catch {A : Type} (body : M A) (handler : JsThrown -> M A)
  : M A :=
  fun s =>
    match body s with
    | (Throw e, s') => handler e s'
    | other => other
    end.

(** [try { body } finally { cleanup }]: the completion of [body] is kept
    unless [cleanup] throws itself. *)
Definition try_finally {A : Type} (body : M A) (cleanup : M unit) : M A :=
  fun s =>
    match body s with
    | (Diverge, s') => (Diverge, s')
    | (completion, s') =>
        match cleanup s' with
        | (Ret _, s'') => (completion, s'')
        | (Throw e, s'') => (Throw e, s'')
        | (Diverge, s'') => (Diverge, s'')
        end
    end.

End Effects.

Arguments ret {W A} _ _.
Arguments throw {W A} _ _.
Arguments lift {W A} _ _.
Arguments push_warning {W} _ _.
Arguments set_fileId {W} _ _.
Arguments set_transcriptionId {W} _ _.
Arguments set_statusResponse {W} _ _.
Arguments get_fileId {W} _.
Arguments get_transcriptionId {W} _.
Arguments get_statusResponse {W} _.

Declare Scope js_scope.
Delimit Scope js_scope with js.
Notation "x <- m ;; k" := (bind m (fun x => k))
  (at level 61, m at next level, right associativity) : js_scope.
Notation "m ;; k" := (bind m (fun _ => k))
  (at level 61, right associativity) : js_scope.

Local Open Scope js_scope.

(** ** Request building shared by both revisions *)

(** [sonioxOptions?.field ?? undefined] *)
Definition option_field {A : Type} (field : SonioxOptions -> nullish A)
  (sonioxOptions : option SonioxOptions) : option A :=
  match sonioxOptions with
  | Some o => coalesce (field o)
  | None => None
  end.

Definition mapContext (context : option SonioxContextOption)
  : option SonioxContext :=
  match context with
  | None => None
  | Some (ContextString s) =>
      if truthy s then Some (BodyContextString s) else None
  | Some (ContextObject o) =>
      Some (BodyContextObject
              {| body_general := coalesce (general o);
                 body_text := coalesce (context_text o);
                 body_terms := coalesce (terms o);
                 translation_terms := coalesce (translationTerms o) |})
  end.

Definition mapTranslation (translation : option SonioxTranslationOption)
  : option SonioxTranslation :=
  match translation with
  | None => None
  | Some (OneWay targetLanguage) => Some (one_way targetLanguage)
  | Some (TwoWay languageA languageB) => Some (two_way languageA languageB)
  end.

(** The bytes of the [Blob] built from [options.audio]. *)
Definition audio_blob {W : Type} (E : Env W) (a : Audio)
  : JsThrown + list Byte.byte :=
  match a with
  | AudioBytes bytes => inr bytes
  | AudioBase64 encoded => convertBase64ToUint8Array E encoded
  end.

(** The [FormData] with its single [file] entry. *)
Definition upload_form {W : Type} (E : Env W) (options : CallOptions)
  (blob : list Byte.byte) : FormData :=
  {| file_name := "audio." ++ mediaTypeToExtension E (mediaType options);
     file_type := mediaType options;
     file_bytes := blob |}.

(** [combineHeaders(this.config.headers(), options.headers)] *)
Definition combined_headers {W : Type} (E : Env W) (options : CallOptions)
  : M W Headers :=
  r <- observe (config_headers E) ;;
  h <- lift r ;;
  ret (combineHeaders E h (headers options)).

(** [options.abortSignal?.aborted] *)
Definition signal_aborted {W : Type} (E : Env W) (options : CallOptions)
  : M W bool :=
  observe (fun w =>
             match abortSignal options with
             | Some sig => aborted E sig w
             | None => false
             end).

(** [audio_duration_ms] in seconds, when it is a number. *)
Definition duration_seconds (sr : StatusResponse) : option float :=
  match audio_duration_ms sr with
  | Val ms => Some (PrimFloat.div ms 1000%float)
  | _ => None
  end.

(** Outcome of one turn of the poll loop. *)
Inductive LoopControl : Type :=
| Continue
| Break.

(** * Revision [packages/soniox/src/soniox-transcription-model.ts] *)

Module Model.

Section WithEnv.

Variable W : Type.
Variable E : Env W.

Definition POLLING_INTERVAL_MS : Z := 1000.

(** The upload branch: [if (!audioUrl && !fileId) { ... }]. *)
Definition upload (options : CallOptions) : M W unit :=
  blob <- lift (audio_blob E (audio options)) ;;
  let formData := upload_form E options blob in
  requestHeaders <- combined_headers E options ;;
  let request :=
    {| url := config_url E "/v1/files" (modelId E);
       req_headers := requestHeaders;
       req_body := formData;
       req_abortSignal := abortSignal options |} in
  uploadResponse <- perform (CallUpload request) (postFormDataToApi E request) ;;
  set_fileId (Some (upload_id uploadResponse)).

Definition request_body (sonioxOptions : option SonioxOptions)
  (audioUrl fileId : option string) : SonioxCreateTranscriptionRequest :=
  {| model := modelId E;
     audio_url := audioUrl;
     file_id := fileId;
     language_hints := option_field languageHints sonioxOptions;
     enable_language_identification :=
       option_field enableLanguageIdentification sonioxOptions;
     enable_speaker_diarization :=
       option_field enableSpeakerDiarization sonioxOptions;
     body_context := mapContext (option_field context sonioxOptions);
     client_reference_id := option_field clientReferenceId sonioxOptions;
     webhook_url := option_field webhookUrl sonioxOptions;
     webhook_auth_header_name :=
       option_field webhookAuthHeaderName sonioxOptions;
     webhook_auth_header_value :=
       option_field webhookAuthHeaderValue sonioxOptions;
     body_translation := mapTranslation (option_field translation sonioxOptions)
  |}.

Definition submit (options : CallOptions)
  (body : SonioxCreateTranscriptionRequest) : M W CreateResponse :=
  requestHeaders <- combined_headers E options ;;
  let request :=
    {| url := config_url E "/v1/transcriptions" (modelId E);
       req_headers := requestHeaders;
       req_body := body;
       req_abortSignal := abortSignal options |} in
  perform (CallSubmit request) (postJsonToApi E request).

(** One turn of [while (true) { ... }]. *)
Definition poll_iteration (options : CallOptions) (id : string)
  (pollingInterval : Z) : M W LoopControl :=
  is_aborted <- signal_aborted E options ;;
  if is_aborted
  then throw (new_Error "Transcription request was aborted")
  else
    requestHeaders <- combined_headers E options ;;
    let request :=
      {| url := config_url E ("/v1/transcriptions/" ++ id) (modelId E);
         req_headers := requestHeaders;
         req_body := tt;
         req_abortSignal := abortSignal options |} in
    value <- perform (CallStatus request) (getFromApi_status E request) ;;
    set_statusResponse (Some value) ;;
    if String.eqb (status value) "completed" then ret Break
    else if String.eqb (status value) "error"
    then throw (new_Error ("Transcription failed: "
                           ++ coalesce_or (error_message value) "Unknown error"))
    else sleep E pollingInterval ;; ret Continue.

(** The loop, cut off after [fuel] turns. *)
Fixpoint poll_loop (fuel : nat) (options : CallOptions) (id : string)
  (pollingInterval : Z) : M W unit :=
  match fuel with
  | O => fun s => (Diverge, s)
  | S fuel' =>
      control <- poll_iteration options id pollingInterval ;;
      match control with
      | Break => ret tt
      | Continue => poll_loop fuel' options id pollingInterval
      end
  end.

(** The transcript request and the mapping of its reply. *)
Definition fetch_transcript (options : CallOptions) (id : string)
  (currentDate : Z) : M W TranscriptionResult :=
  requestHeaders <- combined_headers E options ;;
  let request :=
    {| url := config_url E ("/v1/transcriptions/" ++ id ++ "/transcript")
                (modelId E);
       req_headers := requestHeaders;
       req_body := tt;
       req_abortSignal := abortSignal options |} in
  reply <- perform (CallTranscript request) (getFromApi_transcript E request) ;;
  let transcriptResponse := value reply in
  let tokens := coalesce_or (tokens transcriptResponse) [] in
  let segments := buildSegments (Some tokens) in
  statusResponse <- get_statusResponse ;;
  ret {| result_text := coalesce_or (transcript_text transcriptResponse) "";
         segments := segments;
         result_language := None;
         durationInSeconds :=
           match statusResponse with
           | Some sr => duration_seconds sr
           | None => None
           end;
         result_warnings := warnings_array;
         response :=
           {| timestamp := currentDate;
              response_modelId := modelId E;
              response_headers := responseHeaders reply;
              response_body := rawValue reply |};
         providerMetadata_soniox_tokens := tokens |}.

(** Everything up to the first turn of the poll loop; returns what the
    rest needs: [currentDate], [submitResponse.id], [pollingInterval]. *)
Definition start_job (options : CallOptions) : M W (Z * string * Z) :=
  currentDate <- observe (currentDate E) ;;
  sonioxOptions <- lift (parseProviderOptions (providerOptions options)) ;;
  let audioUrl := option_field audioUrl sonioxOptions in
  let fileIdOverride := option_field fileId sonioxOptions in
  if truthy_opt audioUrl && truthy_opt fileIdOverride
  then throw (new_Error "Provide either audioUrl or fileId, not both.")
  else
    set_fileId fileIdOverride ;;
    (if negb (truthy_opt audioUrl) && negb (truthy_opt fileIdOverride)
     then upload options
     else ret tt) ;;
    fileId <- get_fileId ;;
    let body := request_body sonioxOptions audioUrl fileId in
    submitResponse <- submit options body ;;
    let pollingInterval :=
      match config_pollingIntervalMs E with
      | Some ms => ms
      | None => POLLING_INTERVAL_MS
      end in
    ret (currentDate, create_id submitResponse, pollingInterval).

Definition doGenerate (fuel : nat) (options : CallOptions)
  : M W TranscriptionResult :=
  job <- start_job options ;;
  let '(currentDate, id, pollingInterval) := job in
  poll_loop fuel options id pollingInterval ;;
  fetch_transcript options id currentDate.

End WithEnv.

End Model.

(** * Revision [unnamed/part_003] *)

Module Part003.

Section WithEnv.

Variable W : Type.
Variable E : Env W.

Definition POLLING_INTERVAL_MS : Z := 1000.

(** [const timeoutMs = 3 * 60 * 1000] *)
Definition timeoutMs : Z := 3 * 60 * 1000.

(** Template-literal rendering of [response.status]. *)
Definition status_to_string (n : N) : string :=
  NilZero.string_of_uint (N.to_uint n).

(** [Object.fromEntries(Object.entries(headers).filter(([, value]) =>
    value !== undefined))] *)
Fixpoint filteredHeaders (headers : Headers) : list (string * string) :=
  match headers with
  | [] => []
  | (k, Some v) :: rest => (k, v) :: filteredHeaders rest
  | (_, None) :: rest => filteredHeaders rest
  end.

(** The message of the error thrown for a response that is not [ok]. *)
Definition http_failure_message (response : FetchResponse) : string :=
  let responseText :=
    match response_text response with
    | inr t => t
    | inl _ => ""
    end in
  "HTTP " ++ status_to_string (response_status response) ++ " "
  ++ statusText response
  ++ (if truthy responseText then ": " ++ responseText else "").

Definition delete_init (headers : Headers) : RequestInit :=
  {| method := "DELETE";
     init_headers := filteredHeaders headers;
     signal := None |}.

Definition delete_warning (description : string) (error : JsThrown)
  : SharedV3Warning :=
  {| warning_type := "other";
     warning_message :=
       "Failed to auto-delete " ++ description ++ ": " ++ thrown_message error |}.

Definition tryDeleteResource (path : string) (headers : Headers)
  (description : string) : M W unit :=
  try_catch
    (let target := config_url E path (modelId E) in
     let init := delete_init headers in
     response <- perform (CallFetch target init) (fetch E target init) ;;
     if negb (ok response)
     then throw (new_Error (http_failure_message response))
     else ret tt)
    (fun error => push_warning (delete_warning description error)).

Definition request_body (sonioxOptions : option SonioxOptions)
  (fileId : string) : SonioxCreateTranscriptionRequest :=
  {| model := modelId E;
     audio_url := None;
     file_id := Some fileId;
     language_hints := option_field languageHints sonioxOptions;
     enable_language_identification :=
       option_field enableLanguageIdentification sonioxOptions;
     enable_speaker_diarization :=
       option_field enableSpeakerDiarization sonioxOptions;
     body_context := mapContext (option_field context sonioxOptions);
     client_reference_id := option_field clientReferenceId sonioxOptions;
     webhook_url := option_field webhookUrl sonioxOptions;
     webhook_auth_header_name :=
       option_field webhookAuthHeaderName sonioxOptions;
     webhook_auth_header_value :=
       option_field webhookAuthHeaderValue sonioxOptions;
     body_translation := mapTranslation (option_field translation sonioxOptions)
  |}.

(** Before the [try]: option parsing and [requestHeaders]. *)
Definition prepare (options : CallOptions)
  : M W (Z * option SonioxOptions * Headers) :=
  currentDate <- observe (currentDate E) ;;
  sonioxOptions <- lift (parseProviderOptions (providerOptions options)) ;;
  set_fileId None ;;
  set_transcriptionId None ;;
  requestHeaders <- combined_headers E options ;;
  ret (currentDate, sonioxOptions, requestHeaders).

(** Inside the [try], up to the first turn of the poll loop: upload and
    submission; returns [submitResponse.id], [pollingInterval] and
    [startTime]. *)
Definition start_job (options : CallOptions)
  (sonioxOptions : option SonioxOptions) (requestHeaders : Headers)
  : M W (string * Z * Z) :=
  blob <- lift (audio_blob E (audio options)) ;;
  let formData := upload_form E options blob in
  let uploadRequest :=
    {| url := config_url E "/v1/files" (modelId E);
       req_headers := requestHeaders;
       req_body := formData;
       req_abortSignal := abortSignal options |} in
  uploadResponse <-
    perform (CallUpload uploadRequest) (postFormDataToApi E uploadRequest) ;;
  set_fileId (Some (upload_id uploadResponse)) ;;
  let body := request_body sonioxOptions (upload_id uploadResponse) in
  let submitRequest :=
    {| url := config_url E "/v1/transcriptions" (modelId E);
       req_headers := requestHeaders;
       req_body := body;
       req_abortSignal := abortSignal options |} in
  submitResponse <-
    perform (CallSubmit submitRequest) (postJsonToApi E submitRequest) ;;
  set_transcriptionId (Some (create_id submitResponse)) ;;
  let pollingInterval :=
    match config_pollingIntervalMs E with
    | Some ms => ms
    | None => POLLING_INTERVAL_MS
    end in
  startTime <- observe (Date_now E) ;;
  set_statusResponse None ;;
  ret (create_id submitResponse, pollingInterval, startTime).

Definition timeout_error (cause : option StatusResponse) : JsThrown :=
  new_AISDKError "Transcription job polling timed out"
    "TranscriptionJobPollingTimedOut" cause.

Definition aborted_error : JsThrown :=
  new_Error "Transcription request was aborted".

Definition job_failed_error (statusResponse : StatusResponse) : JsThrown :=
  new_AISDKError
    ("Transcription failed: "
     ++ coalesce_or (error_message statusResponse) "Unknown error")
    "TranscriptionJobFailed" (Some statusResponse).

(** One turn of [while (true) { ... }]. *)
Definition poll_iteration (options : CallOptions) (requestHeaders : Headers)
  (id : string) (pollingInterval startTime : Z) : M W LoopControl :=
  now <- observe (Date_now E) ;;
  if (timeoutMs <? now - startTime)%Z
  then
    statusResponse <- get_statusResponse ;;
    throw (timeout_error statusResponse)
  else
    is_aborted <- signal_aborted E options ;;
    if is_aborted
    then throw aborted_error
    else
      let request :=
        {| url := config_url E ("/v1/transcriptions/" ++ id) (modelId E);
           req_headers := requestHeaders;
           req_body := tt;
           req_abortSignal := abortSignal options |} in
      value <- perform (CallStatus request) (getFromApi_status E request) ;;
      set_statusResponse (Some value) ;;
      if String.eqb (status value) "completed" then ret Break
      else if String.eqb (status value) "error"
      then throw (job_failed_error value)
      else sleep E pollingInterval ;; ret Continue.

(** The loop, cut off after [fuel] turns. *)
Fixpoint poll_loop (fuel : nat) (options : CallOptions)
  (requestHeaders : Headers) (id : string) (pollingInterval startTime : Z)
  : M W unit :=
  match fuel with
  | O => fun s => (Diverge, s)
  | S fuel' =>
      control <- poll_iteration options requestHeaders id pollingInterval
                   startTime ;;
      match control with
      | Break => ret tt
      | Continue =>
          poll_loop fuel' options requestHeaders id pollingInterval startTime
      end
  end.

(** The transcript request and the mapping of its reply. *)
Definition fetch_transcript (options : CallOptions) (requestHeaders : Headers)
  (id : string) (currentDate : Z) : M W TranscriptionResult :=
  let request :=
    {| url := config_url E ("/v1/transcriptions/" ++ id ++ "/transcript")
                (modelId E);
       req_headers := requestHeaders;
       req_body := tt;
       req_abortSignal := abortSignal options |} in
  reply <- perform (CallTranscript request) (getFromApi_transcript E request) ;;
  let transcriptResponse := value reply in
  let tokens := coalesce_or (tokens transcriptResponse) [] in
  let segments := buildSegments (Some tokens) in
  let language := getLanguageFromTokens (Some tokens) in
  statusResponse <- get_statusResponse ;;
  ret {| result_text := coalesce_or (transcript_text transcriptResponse) "";
         segments := segments;
         result_language := language;
         durationInSeconds :=
           match statusResponse with
           | Some sr => duration_seconds sr
           | None => None
           end;
         result_warnings := warnings_array;
         response :=
           {| timestamp := currentDate;
              response_modelId := modelId E;
              response_headers := responseHeaders reply;
              response_body := rawValue reply |};
         providerMetadata_soniox_tokens := tokens |}.

(** The [try] block. *)
Definition try_block (fuel : nat) (options : CallOptions) (currentDate : Z)
  (sonioxOptions : option SonioxOptions) (requestHeaders : Headers)
  : M W TranscriptionResult :=
  job <- start_job options sonioxOptions requestHeaders ;;
  let '(id, pollingInterval, startTime) := job in
  poll_loop fuel options requestHeaders id pollingInterval startTime ;;
  fetch_transcript options requestHeaders id currentDate.

Definition delete_transcription (requestHeaders : Headers) : M W unit :=
  transcriptionId <- get_transcriptionId ;;
  match transcriptionId with
  | Some id =>
      if truthy id
      then tryDeleteResource ("/v1/transcriptions/" ++ id) requestHeaders
             ("transcription " ++ id)
      else ret tt
  | None => ret tt
  end.

Definition delete_file (requestHeaders : Headers) : M W unit :=
  fileId <- get_fileId ;;
  match fileId with
  | Some id =>
      if truthy id
      then tryDeleteResource ("/v1/files/" ++ id) requestHeaders
             ("file " ++ id)
      else ret tt
  | None => ret tt
  end.

(** The [finally] block. *)
Definition finally_block (requestHeaders : Headers) : M W unit :=
  delete_transcription requestHeaders ;;
  delete_file requestHeaders.

Definition doGenerate (fuel : nat) (options : CallOptions)
  : M W TranscriptionResult :=
  prepared <- prepare options ;;
  let '(currentDate, sonioxOptions, requestHeaders) := prepared in
  try_finally
    (try_block fuel options currentDate sonioxOptions requestHeaders)
    (finally_block requestHeaders).

End WithEnv.

End Part003.

(** ** Auxiliary notions used in the statements *)

Definition keys (m : JsMap) : list string := List.map fst m.

(** The first loop only looks at the non-empty tags. *)
Definition tally (tags : list string) (m : JsMap) : JsMap :=
  fold_left
    (fun counts l =>
       map_set l
         (match map_get l counts with Some n => n | None => 0 end + 1)%nat
         counts)
    tags m.

(** The states the poll loop passes through: the store at the top of turn
    [k], provided the first [k] turns all ended in the delay. *)
Fixpoint model_after_polls {W : Type} (E : Env W) (options : CallOptions)
  (id : string) (pollingInterval : Z) (k : nat) (s : State W)
  : option (State W) :=
  match k with
  | O => Some s
  | S k' =>
      match Model.poll_iteration E options id pollingInterval s with
      | (Ret Continue, s') =>
          model_after_polls E options id pollingInterval k' s'
      | _ => None
      end
  end.

Fixpoint part003_after_polls {W : Type} (E : Env W) (options : CallOptions)
  (requestHeaders : Headers) (id : string) (pollingInterval startTime : Z)
  (k : nat) (s : State W) : option (State W) :=
  match k with
  | O => Some s
  | S k' =>
      match Part003.poll_iteration E options requestHeaders id pollingInterval
              startTime s with
      | (Ret Continue, s') =>
          part003_after_polls E options requestHeaders id pollingInterval
            startTime k' s'
      | _ => None
      end
  end.

(** A deletion fails when [fetch] rejects or the response is not [ok];
    the value is then the error caught in [tryDeleteResource]. *)
Definition deletion_failure (r : JsThrown + FetchResponse) : option JsThrown :=
  match r with
  | inl e => Some e
  | inr response =>
      if ok response then None
      else Some (new_Error (Part003.http_failure_message response))
  end.

(** The resources the [finally] block considers: path and description. *)
Definition cleanup_targets {W : Type} (s : State W) : list (string * string) :=
  List.app
    match var_transcriptionId s with
    | Some id =>
        if truthy id
        then [("/v1/transcriptions/" ++ id, "transcription " ++ id)] else []
    | None => []
    end
    match var_fileId s with
    | Some id => if truthy id then [("/v1/files/" ++ id, "file " ++ id)] else []
    | None => []
    end.

Definition delete_call {W : Type} (E : Env W) (requestHeaders : Headers)
  (target : string * string) : Call :=
  CallFetch (config_url E (fst target) (modelId E))
    (Part003.delete_init requestHeaders).

(** The deletions of [targets] run one after the other from world [w]:
    the failure (if any) of each, and the world afterwards. *)
Fixpoint deletion_failures {W : Type} (E : Env W) (requestHeaders : Headers)
  (targets : list (string * string)) (w : W)
  : list (string * option JsThrown) * W :=
  match targets with
  | [] => ([], w)
  | target :: rest =>
      let (r, w1) :=
        fetch E (config_url E (fst target) (modelId E))
          (Part003.delete_init requestHeaders) w in
      let (failures, w2) := deletion_failures E requestHeaders rest w1 in
      ((snd target, deletion_failure r) :: failures, w2)
  end.

(** One warning per failed deletion, none for a successful one. *)
Fixpoint failure_warnings (failures : list (string * option JsThrown))
  : list SharedV3Warning :=
  match failures with
  | [] => []
  | (description, Some e) :: rest =>
      Part003.delete_warning description e :: failure_warnings rest
  | (_, None) :: rest => failure_warnings rest
  end.

Definition failed_count (failures : list (string * option JsThrown)) : nat :=
  List.length (filter (fun f => match snd f with Some _ => true | None => false end)
                 failures).

Definition is_fetch (c : Call) : bool :=
  match c with CallFetch _ _ => true | _ => false end.

Definition is_upload (c : Call) : bool :=
  match c with CallUpload _ => true | _ => false end.

Definition is_status (c : Call) : bool :=
  match c with CallStatus _ => true | _ => false end.

Definition is_transcript (c : Call) : bool :=
  match c with CallTranscript _ => true | _ => false end.

(** The abort signal carried by a request, if any. *)
Definition call_signal (c : Call) : option AbortSignal :=
  match c with
  | CallUpload r => req_abortSignal r
  | CallSubmit r => req_abortSignal r
  | CallStatus r => req_abortSignal r
  | CallTranscript r => req_abortSignal r
  | CallFetch _ init => signal init
  end.

(** The status query of [part_003]'s poll loop. *)
Definition part003_status_request {W : Type} (E : Env W)
  (options : CallOptions) (requestHeaders : Headers) (id : string)
  : ApiRequest unit :=
  {| url := config_url E ("/v1/transcriptions/" ++ id) (modelId E);
     req_headers := requestHeaders;
     req_body := tt;
     req_abortSignal := abortSignal options |}.

(** Whether the caller's signal, if there is one, is aborted in world [w]. *)
Definition options_aborted {W : Type} (E : Env W) (options : CallOptions)
  (w : W) : bool :=
  match abortSignal options with
  | Some sig => aborted E sig w
  | None => false
  end.

(** The other requests of [part_003]. *)
Definition part003_upload_request {W : Type} (E : Env W)
  (options : CallOptions) (requestHeaders : Headers)
  (blob : list Byte.byte) : ApiRequest FormData :=
  {| url := config_url E "/v1/files" (modelId E);
     req_headers := requestHeaders;
     req_body := upload_form E options blob;
     req_abortSignal := abortSignal options |}.

Definition part003_submit_request {W : Type} (E : Env W)
  (options : CallOptions) (sonioxOptions : option SonioxOptions)
  (requestHeaders : Headers) (fileId : string)
  : ApiRequest SonioxCreateTranscriptionRequest :=
  {| url := config_url E "/v1/transcriptions" (modelId E);
     req_headers := requestHeaders;
     req_body := Part003.request_body E sonioxOptions fileId;
     req_abortSignal := abortSignal options |}.

Definition part003_transcript_request {W : Type} (E : Env W)
  (options : CallOptions) (requestHeaders : Headers) (id : string)
  : ApiRequest unit :=
  {| url := config_url E ("/v1/transcriptions/" ++ id ++ "/transcript")
              (modelId E);
     req_headers := requestHeaders;
     req_body := tt;
     req_abortSignal := abortSignal options |}.

(** The requests and errors of the poll loop of
    [soniox-transcription-model.ts]. *)
Definition model_status_request {W : Type} (E : Env W)
  (options : CallOptions) (h : Headers) (id : string) : ApiRequest unit :=
  {| url := config_url E ("/v1/transcriptions/" ++ id) (modelId E);
     req_headers := combineHeaders E h (headers options);
     req_body := tt;
     req_abortSignal := abortSignal options |}.

Definition model_transcript_request {W : Type} (E : Env W)
  (options : CallOptions) (h : Headers) (id : string) : ApiRequest unit :=
  {| url := config_url E ("/v1/transcriptions/" ++ id ++ "/transcript")
              (modelId E);
     req_headers := combineHeaders E h (headers options);
     req_body := tt;
     req_abortSignal := abortSignal options |}.

Definition model_aborted_error : JsThrown :=
  new_Error "Transcription request was aborted".

Definition model_job_failed_error (statusResponse : StatusResponse)
  : JsThrown :=
  new_Error ("Transcription failed: "
             ++ coalesce_or (error_message statusResponse) "Unknown error").

Definition model_configuration_error : JsThrown :=
  new_Error "Provide either audioUrl or fileId, not both.".

(** What the [finally] block deletes once both identifiers are recorded. *)
Definition created_targets (transcriptionId fileId : string)
  : list (string * string) :=
  List.app
    (if truthy transcriptionId
     then [("/v1/transcriptions/" ++ transcriptionId,
            "transcription " ++ transcriptionId)]
     else [])
    (if truthy fileId
     then [("/v1/files/" ++ fileId, "file " ++ fileId)]
     else []).

(** Turn [k] of the poll loop begins in store [sk]: the call got as far as
    the loop and the first [k] status replies were neither [completed] nor
    [error]. *)
Definition model_turn_begins {W : Type} (E : Env W) (options : CallOptions)
  (w : W) (currentDate : Z) (id : string) (pollingInterval : Z) (k : nat)
  (sk : State W) : Prop :=
  exists s1,
    Model.start_job E options (init_state w)
    = (Ret (currentDate, id, pollingInterval), s1) /\
    model_after_polls E options id pollingInterval k s1 = Some sk.

Definition part003_turn_begins {W : Type} (E : Env W) (options : CallOptions)
  (w : W) (currentDate : Z) (sonioxOptions : option SonioxOptions)
  (requestHeaders : Headers) (id fileId : string)
  (pollingInterval startTime : Z) (k : nat) (sk : State W) : Prop :=
  exists s0 s1,
    Part003.prepare E options (init_state w)
    = (Ret (currentDate, sonioxOptions, requestHeaders), s0) /\
    Part003.start_job E options sonioxOptions requestHeaders s0
    = (Ret (id, pollingInterval, startTime), s1) /\
    var_fileId s1 = Some fileId /\
    part003_after_polls E options requestHeaders id pollingInterval startTime
      k s1 = Some sk.

(** The two [DELETE] requests for a transcription and a file. *)
Definition delete_transcription_call {W : Type} (E : Env W)
  (requestHeaders : Headers) (id : string) : Call :=
  delete_call E requestHeaders
    ("/v1/transcriptions/" ++ id, "transcription " ++ id).

Definition delete_file_call {W : Type} (E : Env W)
  (requestHeaders : Headers) (fileId : string) : Call :=
  delete_call E requestHeaders ("/v1/files/" ++ fileId, "file " ++ fileId).

(** [o] with the four options that [part_003] never reads replaced. *)
Definition replace_unread (o : SonioxOptions) (url file : nullish string)
  (deleteTranscription deleteFile : nullish bool) : SonioxOptions :=
  {| audioUrl := url;
     fileId := file;
     languageHints := languageHints o;
     enableLanguageIdentification := enableLanguageIdentification o;
     enableSpeakerDiarization := enableSpeakerDiarization o;
     context := context o;
     clientReferenceId := clientReferenceId o;
     webhookUrl := webhookUrl o;
     webhookAuthHeaderName := webhookAuthHeaderName o;
     webhookAuthHeaderValue := webhookAuthHeaderValue o;
     translation := translation o;
     autoDeleteTranscription := deleteTranscription;
     autoDeleteFile := deleteFile |}.

(** [o] with its two auto-delete options replaced. *)
Definition set_auto_delete (o : SonioxOptions)
  (deleteTranscription deleteFile : nullish bool) : SonioxOptions :=
  replace_unread o (audioUrl o) (fileId o) deleteTranscription deleteFile.

(** Unfolds the operations of the store-passing code. *)
Ltac unfold_monad :=
  unfold combined_headers, signal_aborted in *;
  unfold lift in *;
  unfold bind, ret, throw, observe, perform, sleep, push_warning,
    set_fileId, set_transcriptionId, set_statusResponse, get_fileId,
    get_transcriptionId, get_statusResponse, try_catch, try_finally in *.

(** ** A scripted world for concrete runs

    The server of the repository's test file: upload yields [file-123],
    submission yields [transcription-123], the transcript is [Hello].  The
    status replies and the outcomes of the [DELETE] requests are scripted;
    the clock advances by the poll delay and by a fixed cost per status
    request; the abort signal fires at a given time. *)
Module Scenario.

Record World : Type := {
  now : Z;
  abort_at : option Z;
  poll_cost : Z;
  statuses : list StatusResponse;
  deletions : list (JsThrown + FetchResponse)
}.

Definition queued : StatusResponse :=
  {| status_id := "transcription-123"; status := "queued";
     audio_duration_ms := Undefined; error_message := Undefined |}.

Definition processing : StatusResponse :=
  {| status_id := "transcription-123"; status := "processing";
     audio_duration_ms := Undefined; error_message := Undefined |}.

Definition completed : StatusResponse :=
  {| status_id := "transcription-123"; status := "completed";
     audio_duration_ms := Val 16079%float; error_message := Undefined |}.

Definition failed : StatusResponse :=
  {| status_id := "transcription-123"; status := "error";
     audio_duration_ms := Undefined;
     error_message := Val "Audio is too long." |}.

Definition token (t : string) (s e : nullish float) (l : nullish string)
  : SonioxTranscriptToken :=
  {| text := t; start_ms := s; end_ms := e; confidence := Undefined;
     speaker := Undefined; language := l; translation_status := Undefined |}.

Definition hello_tokens : list SonioxTranscriptToken :=
  [ token "Hel" (Val 10%float) (Val 90%float) (Val "en");
    token "lo" (Val 110%float) (Val 160%float) (Val "en");
    token "Bonjour" Undefined Null (Val "fr") ].

Definition transcript : TranscriptReply :=
  {| value := {| transcript_id := "transcription-123";
                 transcript_text := Val "Hello";
                 tokens := Val hello_tokens |};
     responseHeaders := Some [("content-type", "application/json")];
     rawValue := "{}" |}.

Definition ok_response : FetchResponse :=
  {| ok := true; response_status := 204; statusText := "No Content";
     response_text := inr "" |}.

Definition not_found : FetchResponse :=
  {| ok := false; response_status := 404; statusText := "Not Found";
     response_text := inr "no such resource" |}.

Definition next_status (w : World) : (JsThrown + StatusResponse) * World :=
  match statuses w with
  | [] =>
      (inr queued,
       {| now := now w + poll_cost w; abort_at := abort_at w;
          poll_cost := poll_cost w; statuses := [];
          deletions := deletions w |})
  | s :: rest =>
      (inr s,
       {| now := now w + poll_cost w; abort_at := abort_at w;
          poll_cost := poll_cost w; statuses := rest;
          deletions := deletions w |})
  end.

Definition next_deletion (w : World) : (JsThrown + FetchResponse) * World :=
  match deletions w with
  | [] => (inr ok_response, w)
  | d :: rest =>
      (d,
       {| now := now w; abort_at := abort_at w; poll_cost := poll_cost w;
          statuses := statuses w; deletions := rest |})
  end.

Definition env : Env World :=
  {| modelId := "stt-async-v3";
     config_url := fun path _ => "https://api.soniox.com" ++ path;
     config_headers :=
       fun _ => inr [("authorization", Some "Bearer test-api-key")];
     config_pollingIntervalMs := None;
     currentDate := fun _ => 0%Z;
     combineHeaders :=
       fun h extra =>
         match extra with Some x => List.app h x | None => h end;
     convertBase64ToUint8Array := fun _ => inr [];
     mediaTypeToExtension := fun _ => "wav";
     postFormDataToApi := fun _ w => (inr {| upload_id := "file-123" |}, w);
     postJsonToApi :=
       fun _ w =>
         (inr {| create_id := "transcription-123";
                 create_status := Val "queued" |}, w);
     getFromApi_status := fun _ w => next_status w;
     getFromApi_transcript := fun _ w => (inr transcript, w);
     fetch := fun _ _ w => next_deletion w;
     Date_now := now;
     aborted :=
       fun _ w =>
         match abort_at w with Some t => (t <=? now w)%Z | None => false end;
     delay :=
       fun ms w =>
         {| now := now w + ms; abort_at := abort_at w;
            poll_cost := poll_cost w; statuses := statuses w;
            deletions := deletions w |} |}.

Definition call (po : ProviderOptions) (sig : option AbortSignal)
  : CallOptions :=
  {| audio := AudioBytes []; mediaType := "audio/wav"; headers := None;
     abortSignal := sig; providerOptions := po |}.

(** A world that answers [queued], [processing], [completed]. *)
Definition happy : World :=
  {| now := 0; abort_at := None; poll_cost := 10;
     statuses := [queued; processing; completed]; deletions := [] |}.

End Scenario.

(** Concrete calls used to exercise the statements. *)
Module Runs.

Import Scenario.

(** Both deletions fail: the first by a network error, the second by a
    404 response. *)
Definition failing_cleanup : World :=
  {| now := 0; abort_at := None; poll_cost := 10;
     statuses := [queued; processing; completed];
     deletions := [inl (NonError "network down"); inr not_found] |}.

Definition plain_call : CallOptions := call NoSonioxOptions None.

Definition test_headers : Headers :=
  [("authorization", Some "Bearer test-api-key")].

Definition failing_cleanup_prepared : State World :=
  Eval vm_compute in
    snd (Part003.prepare env plain_call (init_state failing_cleanup)).

(** The [try] block of that call: its completion and the store it leaves. *)
Definition failing_cleanup_tried
  : Outcome TranscriptionResult * State World :=
  Eval vm_compute in
    Part003.try_block env 5 plain_call 0%Z None test_headers
      failing_cleanup_prepared.

Definition no_result : TranscriptionResult :=
  {| result_text := ""; segments := []; result_language := None;
     durationInSeconds := None; result_warnings := warnings_array;
     response := {| timestamp := 0%Z; response_modelId := "";
                    response_headers := None; response_body := "" |};
     providerMetadata_soniox_tokens := [] |}.

(** The result a run returned ([no_result] if it returned none). *)
Definition result_of (run : Outcome TranscriptionResult * State World)
  : TranscriptionResult :=
  match fst run with
  | Ret r => r
  | _ => no_result
  end.

Definition failing_cleanup_result : TranscriptionResult :=
  Eval vm_compute in result_of failing_cleanup_tried.

(** Provider options that set only the audio source and the auto-delete
    flags. *)
Definition soniox_options (url file : nullish string)
  (deleteTranscription deleteFile : nullish bool) : SonioxOptions :=
  {| audioUrl := url; fileId := file; languageHints := Undefined;
     enableLanguageIdentification := Undefined;
     enableSpeakerDiarization := Undefined; context := Undefined;
     clientReferenceId := Undefined; webhookUrl := Undefined;
     webhookAuthHeaderName := Undefined; webhookAuthHeaderValue := Undefined;
     translation := Undefined;
     autoDeleteTranscription := deleteTranscription;
     autoDeleteFile := deleteFile |}.

Definition coffee_shop : string :=
  "https://soniox.com/media/examples/coffee_shop.mp3".

Definition url_and_file : SonioxOptions :=
  soniox_options (Val coffee_shop) (Val "file-9") Undefined Undefined.

Definition url_only : SonioxOptions :=
  soniox_options (Val coffee_shop) Undefined Undefined Undefined.

Definition url_only_model : Outcome TranscriptionResult * State World :=
  Eval vm_compute in
    Model.doGenerate env 5 (call (SonioxOptionsObject url_only) None)
      (init_state happy).

(** The store in which turn [k] of [part_003]'s poll loop begins. *)
Definition part003_turn (w : World) (options : CallOptions) (k : nat)
  : State World :=
  match Part003.prepare env options (init_state w) with
  | (Ret (_, sonioxOptions, requestHeaders), s0) =>
      match Part003.start_job env options sonioxOptions requestHeaders s0 with
      | (Ret (id, pollingInterval, startTime), s1) =>
          match part003_after_polls env options requestHeaders id
                  pollingInterval startTime k s1 with
          | Some sk => sk
          | None => init_state w
          end
      | _ => init_state w
      end
  | _ => init_state w
  end.

(** The same for [soniox-transcription-model.ts]. *)
Definition model_turn (w : World) (options : CallOptions) (k : nat)
  : State World :=
  match Model.start_job env options (init_state w) with
  | (Ret (_, id, pollingInterval), s1) =>
      match model_after_polls env options id pollingInterval k s1 with
      | Some sk => sk
      | None => init_state w
      end
  | _ => init_state w
  end.



(** The job fails: [queued], then [error]. *)
Definition failing_job : World :=
  {| now := 0; abort_at := None; poll_cost := 10;
     statuses := [queued; failed]; deletions := [] |}.

Definition failing_job_model_turn1 : State World :=
  Eval vm_compute in model_turn failing_job plain_call 1.

Definition failing_job_part003_turn1 : State World :=
  Eval vm_compute in part003_turn failing_job plain_call 1.

(** A call with an abort signal. *)
Definition abortable_call : CallOptions := call NoSonioxOptions (Some 0).

(** The signal fires after half a second; the job stays queued. *)
Definition early_abort : World :=
  {| now := 0; abort_at := Some 500%Z; poll_cost := 10;
     statuses := [queued]; deletions := [] |}.

Definition early_abort_model_turn1 : State World :=
  Eval vm_compute in model_turn early_abort abortable_call 1.

Definition early_abort_part003_turn1 : State World :=
  Eval vm_compute in part003_turn early_abort abortable_call 1.

(** The signal fires after 100 seconds, during a status request that takes
    200 seconds. *)
Definition late_abort : World :=
  {| now := 0; abort_at := Some 100000%Z; poll_cost := 200000;
     statuses := [queued]; deletions := [] |}.

Definition late_abort_turn1 : State World :=
  Eval vm_compute in part003_turn late_abort abortable_call 1.

(** Both auto-delete options switched off. *)
Definition keep_everything : SonioxOptions :=
  soniox_options Undefined Undefined (Val false) (Val false).

Definition keep_everything_part003
  : Outcome TranscriptionResult * State World :=
  Eval vm_compute in
    Part003.doGenerate env 5 (call (SonioxOptionsObject keep_everything) None)
      (init_state happy).

(** The test-file scenario run through both revisions. *)
Definition happy_model : Outcome TranscriptionResult * State World :=
  Eval vm_compute in Model.doGenerate env 5 plain_call (init_state happy).

Definition happy_part003 : Outcome TranscriptionResult * State World :=
  Eval vm_compute in Part003.doGenerate env 5 plain_call (init_state happy).

End Runs.

(** ** Stores after a step, and the result built from a reply *)

(** The store after a request [c] that left the world as [w']. *)
Definition after_call {W : Type} (s : State W) (w' : W) (c : Call) : State W :=
  {| world := w'; calls := calls s ++ [c]; warnings := warnings s;
     var_fileId := var_fileId s;
     var_transcriptionId := var_transcriptionId s;
     var_statusResponse := var_statusResponse s |}.

Definition with_fileId {W : Type} (s : State W) (v : option string)
  : State W :=
  {| world := world s; calls := calls s; warnings := warnings s;
     var_fileId := v;
     var_transcriptionId := var_transcriptionId s;
     var_statusResponse := var_statusResponse s |}.

Definition with_transcriptionId {W : Type} (s : State W) (v : option string)
  : State W :=
  {| world := world s; calls := calls s; warnings := warnings s;
     var_fileId := var_fileId s;
     var_transcriptionId := v;
     var_statusResponse := var_statusResponse s |}.

Definition with_statusResponse {W : Type} (s : State W)
  (v : option StatusResponse) : State W :=
  {| world := world s; calls := calls s; warnings := warnings s;
     var_fileId := var_fileId s;
     var_transcriptionId := var_transcriptionId s;
     var_statusResponse := v |}.

(** The object [doGenerate] returns, from the transcript reply, the last
    status and the language it reports. *)
Definition result_from {W : Type} (E : Env W) (currentDate : Z)
  (statusResponse : option StatusResponse) (reply : TranscriptReply)
  (language : option string) : TranscriptionResult :=
  {| result_text := coalesce_or (transcript_text (value reply)) "";
     segments := buildSegments (Some (coalesce_or (tokens (value reply)) []));
     result_language := language;
     durationInSeconds :=
       match statusResponse with
       | Some sr => duration_seconds sr
       | None => None
       end;
     result_warnings := warnings_array;
     response :=
       {| timestamp := currentDate;
          response_modelId := modelId E;
          response_headers := responseHeaders reply;
          response_body := rawValue reply |};
     providerMetadata_soniox_tokens := coalesce_or (tokens (value reply)) [] |}.

(** [config.pollingIntervalMs ?? POLLING_INTERVAL_MS] *)
Definition polling_interval {W : Type} (E : Env W) : Z :=
  match config_pollingIntervalMs E with
  | Some ms => ms
  | None => 1000%Z
  end.

(** The upload and submission requests of [soniox-transcription-model.ts],
    for request headers [h]. *)
Definition model_upload_request {W : Type} (E : Env W)
  (options : CallOptions) (h : Headers) (blob : list Byte.byte)
  : ApiRequest FormData :=
  {| url := config_url E "/v1/files" (modelId E);
     req_headers := combineHeaders E h (headers options);
     req_body := upload_form E options blob;
     req_abortSignal := abortSignal options |}.

Definition model_submit_request {W : Type} (E : Env W)
  (options : CallOptions) (h : Headers)
  (body : SonioxCreateTranscriptionRequest)
  : ApiRequest SonioxCreateTranscriptionRequest :=
  {| url := config_url E "/v1/transcriptions" (modelId E);
     req_headers := combineHeaders E h (headers options);
     req_body := body;
     req_abortSignal := abortSignal options |}.

(** A request of the pipeline proper (not a deletion) and what it
    carries. *)
Definition call_url (c : Call) : string :=
  match c with
  | CallUpload r => url r
  | CallSubmit r => url r
  | CallStatus r => url r
  | CallTranscript r => url r
  | CallFetch target _ => target
  end.

Definition is_submit (c : Call) : bool :=
  match c with CallSubmit _ => true | _ => false end.

(** The submission stage of [soniox-transcription-model.ts]: request
    headers, then the request; [currentDate] is only passed through. *)
Definition model_submit_stage {W : Type} (E : Env W) (options : CallOptions)
  (currentDate : Z) (sonioxOptions : option SonioxOptions)
  (audioUrl fileId : option string) (s : State W)
  : Outcome (Z * string * Z) * State W :=
  match config_headers E (world s) with
  | inl e => (Throw e, s)
  | inr h =>
      let submit :=
        model_submit_request E options h
          (Model.request_body E sonioxOptions audioUrl fileId) in
      let (r, w') := postJsonToApi E submit (world s) in
      let s' := after_call s w' (CallSubmit submit) in
      match r with
      | inl e => (Throw e, s')
      | inr submitResponse =>
          (Ret (currentDate, create_id submitResponse, polling_interval E), s')
      end
  end.

(** Variants of the scenario in which one of the requests is rejected, or
    the request headers cannot be built. *)
Module Faults.

Import Scenario.

(** The error a rejected request throws. *)
Definition unavailable : JsThrown :=
  ErrorObject "AI_APICallError" "Service Unavailable" None.

(** [Scenario.env] with other handlers for the four API requests and for
    [config.headers()]. *)
Definition env_with
  (request_headers : World -> JsThrown + Headers)
  (upload : ApiRequest FormData -> World -> (JsThrown + UploadResponse) * World)
  (submit : ApiRequest SonioxCreateTranscriptionRequest -> World ->
            (JsThrown + CreateResponse) * World)
  (poll : ApiRequest unit -> World -> (JsThrown + StatusResponse) * World)
  (fetch_result : ApiRequest unit -> World ->
                  (JsThrown + TranscriptReply) * World)
  : Env World :=
  {| modelId := modelId env;
     config_url := config_url env;
     config_headers := request_headers;
     config_pollingIntervalMs := config_pollingIntervalMs env;
     currentDate := currentDate env;
     combineHeaders := combineHeaders env;
     convertBase64ToUint8Array := convertBase64ToUint8Array env;
     mediaTypeToExtension := mediaTypeToExtension env;
     postFormDataToApi := upload;
     postJsonToApi := submit;
     getFromApi_status := poll;
     getFromApi_transcript := fetch_result;
     fetch := fetch env;
     Date_now := Date_now env;
     aborted := aborted env;
     delay := delay env |}.

Definition rejected {A B : Type} (_ : A) (w : World)
  : (JsThrown + B) * World :=
  (inl unavailable, w).

Definition no_upload : Env World :=
  env_with (config_headers env) rejected (postJsonToApi env)
    (getFromApi_status env) (getFromApi_transcript env).

Definition no_submission : Env World :=
  env_with (config_headers env) (postFormDataToApi env) rejected
    (getFromApi_status env) (getFromApi_transcript env).

(** The status endpoint answers what the world has queued up and rejects
    every request after that. *)
Definition no_status : Env World :=
  env_with (config_headers env) (postFormDataToApi env) (postJsonToApi env)
    (fun request w =>
       match statuses w with
       | [] => rejected request w
       | _ => next_status w
       end)
    (getFromApi_transcript env).

(** One status reply, [queued]. *)
Definition one_answer : World :=
  {| now := 0; abort_at := None; poll_cost := 10; statuses := [queued];
     deletions := [] |}.

Definition no_transcript : Env World :=
  env_with (config_headers env) (postFormDataToApi env) (postJsonToApi env)
    (getFromApi_status env) rejected.

(** [config.headers()] throws: no API key can be loaded. *)
Definition missing_key : JsThrown :=
  ErrorObject "AI_LoadAPIKeyError" "Soniox API key is missing." None.

Definition no_headers : Env World :=
  env_with (fun _ => inl missing_key) (postFormDataToApi env)
    (postJsonToApi env) (getFromApi_status env) (getFromApi_transcript env).

(** The store in which turn [k] of the poll loop begins, in environment
    [E]. *)
Definition part003_turn (E : Env World) (w : World) (options : CallOptions)
  (k : nat) : State World :=
  match Part003.prepare E options (init_state w) with
  | (Ret (_, sonioxOptions, requestHeaders), s0) =>
      match Part003.start_job E options sonioxOptions requestHeaders s0 with
      | (Ret (id, pollingInterval, startTime), s1) =>
          match part003_after_polls E options requestHeaders id
                  pollingInterval startTime k s1 with
          | Some sk => sk
          | None => init_state w
          end
      | _ => init_state w
      end
  | _ => init_state w
  end.

Definition model_turn (E : Env World) (w : World) (options : CallOptions)
  (k : nat) : State World :=
  match Model.start_job E options (init_state w) with
  | (Ret (_, id, pollingInterval), s1) =>
      match model_after_polls E options id pollingInterval k s1 with
      | Some sk => sk
      | None => init_state w
      end
  | _ => init_state w
  end.

Definition no_status_part003_turn1 : State World :=
  Eval vm_compute in part003_turn no_status one_answer Runs.plain_call 1.

Definition no_status_model_turn1 : State World :=
  Eval vm_compute in model_turn no_status one_answer Runs.plain_call 1.

Definition no_transcript_turn2 : State World :=
  Eval vm_compute in part003_turn no_transcript happy Runs.plain_call 2.

Definition happy_part003_turn2 : State World :=
  Eval vm_compute in part003_turn env happy Runs.plain_call 2.

Definition happy_model_turn2 : State World :=
  Eval vm_compute in model_turn env happy Runs.plain_call 2.

(** The job never leaves the queue, and nobody cancels. *)
Definition stuck : World :=
  {| now := 0; abort_at := None; poll_cost := 10; statuses := [];
     deletions := [] |}.

Definition stuck_part003_turn0 : State World :=
  Eval vm_compute in part003_turn env stuck Runs.plain_call 0.

Definition stuck_model_turn0 : State World :=
  Eval vm_compute in model_turn env stuck Runs.plain_call 0.

(** The API key disappears once the world has no status reply left. *)
Definition key_lost : Env World :=
  env_with
    (fun w =>
       match statuses w with
       | [] => inl missing_key
       | _ => config_headers env w
       end)
    (postFormDataToApi env) (postJsonToApi env) (getFromApi_status env)
    (getFromApi_transcript env).

Definition key_lost_model_turn1 : State World :=
  Eval vm_compute in model_turn key_lost one_answer Runs.plain_call 1.

(** Audio given as a base64 string that cannot be decoded. *)
Definition bad_base64 : JsThrown :=
  ErrorObject "InvalidCharacterError" "The string is not correctly encoded."
    None.

Definition no_decoder : Env World :=
  {| modelId := modelId env;
     config_url := config_url env;
     config_headers := config_headers env;
     config_pollingIntervalMs := config_pollingIntervalMs env;
     currentDate := currentDate env;
     combineHeaders := combineHeaders env;
     convertBase64ToUint8Array := fun _ => inl bad_base64;
     mediaTypeToExtension := mediaTypeToExtension env;
     postFormDataToApi := postFormDataToApi env;
     postJsonToApi := postJsonToApi env;
     getFromApi_status := getFromApi_status env;
     getFromApi_transcript := getFromApi_transcript env;
     fetch := fetch env;
     Date_now := Date_now env;
     aborted := aborted env;
     delay := delay env |}.

Definition base64_call : CallOptions :=
  {| audio := AudioBase64 "%%%"; mediaType := "audio/wav"; headers := None;
     abortSignal := None; providerOptions := NoSonioxOptions |}.

(** A status the code does not know. *)
Definition transcribing : StatusResponse :=
  {| status_id := "transcription-123"; status := "transcribing";
     audio_duration_ms := Undefined; error_message := Undefined |}.

Definition unknown_status : World :=
  {| now := 0; abort_at := None; poll_cost := 10;
     statuses := [transcribing; completed]; deletions := [] |}.

Definition unknown_status_model_turn0 : State World :=
  Eval vm_compute in model_turn env unknown_status Runs.plain_call 0.

Definition unknown_status_part003_turn0 : State World :=
  Eval vm_compute in part003_turn env unknown_status Runs.plain_call 0.

(** A file that is already uploaded. *)
Definition file_only : SonioxOptions :=
  Runs.soniox_options Undefined (Val "file-9") Undefined Undefined.

Definition file_call : CallOptions :=
  call (SonioxOptionsObject file_only) None.

Definition file_only_model : Outcome TranscriptionResult * State World :=
  Eval vm_compute in Model.doGenerate env 5 file_call (init_state happy).

(** [part_003] called with an audio URL. *)
Definition url_call : CallOptions :=
  call (SonioxOptionsObject Runs.url_only) None.

Definition url_only_part003 : Outcome TranscriptionResult * State World :=
  Eval vm_compute in Part003.doGenerate env 5 url_call (init_state happy).

(** The cancellable call, cancelled after half a second. *)
Definition early_abort_part003 : Outcome TranscriptionResult * State World :=
  Eval vm_compute in
    Part003.doGenerate env 5 Runs.abortable_call (init_state Runs.early_abort).

(** The call whose two deletions fail. *)
Definition failing_cleanup_part003
  : Outcome TranscriptionResult * State World :=
  Eval vm_compute in
    Part003.doGenerate env 5 Runs.plain_call (init_state Runs.failing_cleanup).






(** A call that names an audio URL and a file id. *)
Definition both_call : CallOptions :=
  call (SonioxOptionsObject Runs.url_and_file) None.

Definition both_part003 : Outcome TranscriptionResult * State World :=
  Eval vm_compute in Part003.doGenerate env 5 both_call (init_state happy).

Definition both_model : Outcome TranscriptionResult * State World :=
  Eval vm_compute in Model.doGenerate env 5 both_call (init_state happy).

(** A call whose provider options do not match the schema. *)
Definition invalid_options : JsThrown :=
  ErrorObject "AI_InvalidArgumentError" "invalid soniox provider options" None.

Definition invalid_call : CallOptions :=
  call (InvalidSonioxOptions invalid_options) None.

End Faults.

(** * Properties *)

(** ** Segments *)

(** The tokens of the repository's test file. *)
Example buildSegments_hello :
  buildSegments
    (Some [ {| text := "Hel"; start_ms := Val 10%float; end_ms := Val 90%float;
               confidence := Val 0.95%float; speaker := Undefined;
               language := Val "en"; translation_status := Undefined |};
            {| text := "lo"; start_ms := Val 110%float; end_ms := Val 160%float;
               confidence := Val 0.98%float; speaker := Undefined;
               language := Val "en"; translation_status := Undefined |} ])
  = [ {| seg_text := "Hel"; startSecond := 0.01%float; endSecond := 0.09%float |};
      {| seg_text := "lo"; startSecond := 0.11%float; endSecond := 0.16%float |} ].
Proof. vm_compute. reflexivity. Qed.





(** ** Primary language *)

Lemma map_get_None (k : string) (m : JsMap) :
  map_get k m = None <-> ~ In k (keys m).
Proof.
  induction m as [|[k' v] m IH]; simpl.
  - tauto.
  - destruct (String.eqb_spec k' k) as [->|Hne].
    + split; [discriminate|]. intros H. exfalso. apply H. now left.
    + rewrite IH. tauto.
Qed.

Lemma map_get_In (k : string) (v : nat) (m : JsMap) :
  NoDup (keys m) -> In (k, v) m -> map_get k m = Some v.
Proof.
  induction m as [|[k' v'] m IH]; simpl; [tauto|].
  intros Hnd [Heq|Hin].
  - inversion Heq; subst. now rewrite String.eqb_refl.
  - inversion Hnd as [|? ? Hnotin Hnd']; subst.
    destruct (String.eqb_spec k' k) as [->|Hne].
    + exfalso. apply Hnotin. change k with (fst (k, v)). now apply in_map.
    + now apply IH.
Qed.

Lemma map_get_Some_In (k : string) (v : nat) (m : JsMap) :
  map_get k m = Some v -> In (k, v) m.
Proof.
  induction m as [|[k' v'] m IH]; simpl; [discriminate|].
  destruct (String.eqb_spec k' k) as [->|Hne].
  - intros H. inversion H. now left.
  - intros H. right. now apply IH.
Qed.

Lemma keys_map_set (k : string) (v : nat) (m : JsMap) :
  keys (map_set k v m) = if in_dec string_dec k (keys m) then keys m
                         else (keys m ++ [k])%list.
Proof.
  induction m as [|[k' v'] m IH].
  - reflexivity.
  - cbn [map_set]. destruct (String.eqb_spec k' k) as [->|Hne].
    + cbn [keys List.map fst].
      destruct (in_dec string_dec k (k :: List.map fst m)) as [Hi|Hn];
        [reflexivity|]. elim Hn. now left.
    + cbn [keys List.map fst]. fold (keys (map_set k v m)). rewrite IH.
      fold (keys m).
      destruct (in_dec string_dec k (keys m)) as [Hi|Hn];
        destruct (in_dec string_dec k (k' :: keys m)) as [Hi'|Hn'];
        try reflexivity.
      * elim Hn'. now right.
      * destruct Hi' as [Heq|Hi']; [now elim Hne | now elim Hn].
Qed.

Lemma map_get_map_set (k k' : string) (v : nat) (m : JsMap) :
  map_get k' (map_set k v m) = if String.eqb k k' then Some v
                               else map_get k' m.
Proof.
  induction m as [|[k0 v0] m IH]; simpl.
  - destruct (String.eqb k k'); reflexivity.
  - destruct (String.eqb_spec k0 k) as [->|Hne]; simpl.
    + destruct (String.eqb k k'); reflexivity.
    + rewrite IH. destruct (String.eqb_spec k0 k') as [->|Hne'].
      * destruct (String.eqb_spec k k') as [->|_]; [now elim Hne|reflexivity].
      * reflexivity.
Qed.

Lemma count_language_tally (tokens : list SonioxTranscriptToken) (m : JsMap) :
  fold_left count_language tokens m = tally (language_tags tokens) m.
Proof.
  revert m. induction tokens as [|t ts IH]; intros m; simpl.
  - reflexivity.
  - unfold count_language at 2. unfold coalesce.
    destruct (language t) as [| |l]; try apply IH.
    destruct (truthy l); simpl; apply IH.
Qed.

Lemma language_tags_truthy (tokens : list SonioxTranscriptToken) (l : string) :
  In l (language_tags tokens) -> truthy l = true.
Proof.
  induction tokens as [|t ts IH]; simpl; [tauto|].
  destruct (language t) as [| |l']; auto.
  destruct (truthy l') eqn:Hl; auto.
  intros [<-|Hin]; auto.
Qed.

Lemma tally_snoc (tags : list string) (x : string) (m : JsMap) :
  tally (tags ++ [x]) m =
  map_set x
    (match map_get x (tally tags m) with Some n => n | None => 0 end + 1)%nat
    (tally tags m).
Proof.
  unfold tally. now rewrite fold_left_app.
Qed.

(** The map after the first loop: one entry per distinct tag, holding its
    number of occurrences, in order of first appearance. *)
Lemma tally_invariant (tags : list string) :
  NoDup (keys (tally tags [])) /\
  (forall l, map_get l (tally tags []) =
             if in_dec string_dec l tags
             then Some (count_occ string_dec tags l) else None) /\
  (forall pre l post,
      keys (tally tags []) = (pre ++ l :: post)%list ->
      exists pre' post',
        tags = (pre' ++ l :: post')%list /\ incl pre' pre).
Proof.
  induction tags as [|x tags IH] using rev_ind.
  - simpl. split; [constructor|]. split; [reflexivity|].
    intros pre l post H. destruct pre; discriminate.
  - destruct IH as (Hnd & Hget & Hord).
    rewrite tally_snoc.
    set (m := tally tags []) in *.
    assert (Hkeys : forall l, In l (keys m) <-> In l tags).
    { intros l. split; intros H.
      - destruct (in_dec string_dec l tags) as [Hi|Hn]; [exact Hi|].
        exfalso. specialize (Hget l).
        destruct (in_dec string_dec l tags); [contradiction|].
        apply map_get_None in Hget. contradiction.
      - destruct (in_dec string_dec l (keys m)) as [Hi|Hn]; [exact Hi|].
        exfalso. apply map_get_None in Hn. rewrite Hget in Hn.
        destruct (in_dec string_dec l tags); [discriminate|contradiction]. }
    assert (Hn : match map_get x m with Some n => n | None => 0 end
                 = count_occ string_dec tags x).
    { rewrite Hget. destruct (in_dec string_dec x tags) as [Hi|Hni];
        [reflexivity|]. symmetry. now apply count_occ_not_In. }
    rewrite Hn. split; [|split].
    + rewrite keys_map_set.
      destruct (in_dec string_dec x (keys m)) as [Hi|Hni]; [exact Hnd|].
      apply (NoDup_Add (a := x) (l := keys m)).
      * rewrite <- (app_nil_r (keys m)) at 1. apply Add_app.
      * split; assumption.
    + intros l. rewrite map_get_map_set, count_occ_app. simpl.
      destruct (String.eqb_spec x l) as [->|Hne].
      * destruct (string_dec l l) as [_|Hc]; [|now elim Hc].
        destruct (in_dec string_dec l (tags ++ [l])) as [_|Hc].
        -- reflexivity.
        -- elim Hc. apply in_or_app. right. now left.
      * destruct (string_dec x l) as [Hc|_]; [now elim Hne|].
        rewrite Hget, Nat.add_0_r.
        destruct (in_dec string_dec l tags) as [Hi|Hni];
          destruct (in_dec string_dec l (tags ++ [x])) as [Hi'|Hni'];
          try reflexivity.
        -- elim Hni'. apply in_or_app. now left.
        -- apply in_app_or in Hi'. destruct Hi' as [Hi'|[Heq|[]]];
             [now elim Hni | now elim Hne].
    + intros pre l post Hsplit. rewrite keys_map_set in Hsplit.
      destruct (in_dec string_dec x (keys m)) as [Hi|Hni].
      * destruct (Hord _ _ _ Hsplit) as (pre' & post' & -> & Hincl).
        exists pre', (post' ++ [x])%list. split; [|exact Hincl].
        now rewrite <- app_assoc.
      * destruct post as [|p post] using rev_ind.
        -- apply app_inj_tail in Hsplit. destruct Hsplit as [Hk ->].
           exists tags, []. split; [reflexivity|].
           intros y Hy. rewrite <- Hk. now apply Hkeys.
        -- clear IHpost.
           change (pre ++ l :: post ++ [p])%list
             with (pre ++ (l :: post) ++ [p])%list in Hsplit.
           rewrite app_assoc in Hsplit.
           apply app_inj_tail in Hsplit. destruct Hsplit as [Hk _].
           destruct (Hord _ _ _ Hk) as (pre' & post' & -> & Hincl).
           exists pre', (post' ++ [x])%list. split; [|exact Hincl].
           now rewrite <- app_assoc.
Qed.

(** The second loop keeps the first entry that reaches the largest count. *)
Lemma pick_best_spec (entries : JsMap) :
  forall (b : option string) (c : nat) (b' : option string) (c' : nat),
    fold_left pick_best entries (b, c) = (b', c') ->
    (b' = b /\ c' = c /\ forall l n, In (l, n) entries -> n <= c) \/
    (exists pre l post,
        entries = (pre ++ (l, c') :: post)%list /\ b' = Some l /\ c < c' /\
        (forall l' n, In (l', n) pre -> n < c') /\
        (forall l' n, In (l', n) post -> n <= c')).
Proof.
  induction entries as [|[l n] es IH]; intros b c b' c' H; simpl in H.
  - inversion H; subst. left. repeat split. intros ? ? [].
  - destruct (Nat.ltb_spec c n) as [Hlt|Hge].
    + apply IH in H. destruct H as [(-> & -> & Hall)|
                                    (pre & l2 & post & -> & -> & Hc & Hpre & Hpost)].
      * right. exists [], l, es. simpl. repeat split; auto. intros ? ? [].
      * right. exists ((l, n) :: pre), l2, post. simpl.
        repeat split; auto; [lia|].
        intros l' n' [Heq|Hin]; [inversion Heq; subst; lia|eauto].
    + apply IH in H. destruct H as [(-> & -> & Hall)|
                                    (pre & l2 & post & -> & -> & Hc & Hpre & Hpost)].
      * left. repeat split.
        intros l' n' [Heq|Hin]; [inversion Heq; subst; lia|eauto].
      * right. exists ((l, n) :: pre), l2, post. simpl.
        repeat split; auto.
        intros l' n' [Heq|Hin]; [inversion Heq; subst; lia|eauto].
Qed.

Lemma tally_keys (tags : list string) (l : string) :
  In l (keys (tally tags [])) <-> In l tags.
Proof.
  destruct (tally_invariant tags) as (_ & Hget & _).
  specialize (Hget l). split; intros H.
  - destruct (in_dec string_dec l tags) as [Hi|Hn]; [exact Hi|].
    apply map_get_None in Hget. contradiction.
  - destruct (in_dec string_dec l (keys (tally tags []))) as [Hi|Hn];
      [exact Hi|].
    apply map_get_None in Hn. rewrite Hget in Hn.
    destruct (in_dec string_dec l tags); [discriminate|contradiction].
Qed.

Lemma tally_entry (tags : list string) (l : string) (n : nat) :
  In (l, n) (tally tags []) -> In l tags /\ n = count_occ string_dec tags l.
Proof.
  intros Hin. destruct (tally_invariant tags) as (Hnd & Hget & _).
  pose proof (map_get_In _ _ _ Hnd Hin) as Hg. rewrite Hget in Hg.
  destruct (in_dec string_dec l tags) as [Hi|Hn]; [|discriminate].
  inversion Hg. now split.
Qed.

(** No tagged token: the language is [undefined]. *)
Lemma getLanguageFromTokens_None (tokens : list SonioxTranscriptToken) :
  getLanguageFromTokens (Some tokens) = None <-> language_tags tokens = [].
Proof.
  unfold getLanguageFromTokens. rewrite count_language_tally.
  split.
  - intros H.
    destruct (fold_left pick_best (tally (language_tags tokens) []) (None, 0))
      as [b' c'] eqn:Hfold.
    simpl in H. subst b'.
    apply pick_best_spec in Hfold.
    destruct Hfold as [(_ & -> & Hall)|(pre & l & post & _ & Hb & _)];
      [|discriminate].
    destruct (language_tags tokens) as [|l tags] eqn:Htags; [reflexivity|].
    exfalso.
    assert (Hl : In l (l :: tags)) by now left.
    apply tally_keys in Hl. unfold keys in Hl. apply in_map_iff in Hl.
    destruct Hl as ([l' n] & Hfst & Hin). simpl in Hfst. subst l'.
    pose proof (Hall _ _ Hin) as Hle.
    apply tally_entry in Hin. destruct Hin as [Hin ->].
    apply (count_occ_In string_dec) in Hin. lia.
  - intros ->. reflexivity.
Qed.

(** The chosen tag: it occurs, every tag seen before its first occurrence
    is strictly less frequent, and no tag is more frequent. *)
Lemma getLanguageFromTokens_Some (tokens : list SonioxTranscriptToken)
  (l : string) :
  getLanguageFromTokens (Some tokens) = Some l ->
  exists pre post,
    language_tags tokens = (pre ++ l :: post)%list /\
    (forall l', In l' pre -> occurrences l' tokens < occurrences l tokens) /\
    (forall l', In l' post -> occurrences l' tokens <= occurrences l tokens) /\
    l <> "".
Proof.
  unfold getLanguageFromTokens, occurrences. rewrite count_language_tally.
  set (tags := language_tags tokens).
  destruct (fold_left pick_best (tally tags []) (None, 0)) as [b' c'] eqn:Hfold.
  simpl. intros ->.
  apply pick_best_spec in Hfold.
  destruct Hfold as [(Hb & _)|(pre & l2 & post & Hsplit & Hb & Hc & Hpre & Hpost)];
    [discriminate|].
  inversion Hb; subst l2. clear Hb.
  assert (Hin_l : In (l, c') (tally tags []))
    by (rewrite Hsplit; apply in_or_app; right; now left).
  destruct (tally_entry _ _ _ Hin_l) as [Hl_tags Hc'].
  destruct (tally_invariant tags) as (_ & _ & Hord).
  assert (Hkeys : keys (tally tags []) =
                  (List.map fst pre ++ l :: List.map fst post)%list).
  { unfold keys. rewrite Hsplit, map_app. reflexivity. }
  destruct (Hord _ _ _ Hkeys) as (pre' & post' & Htags & Hincl).
  exists pre', post'. split; [exact Htags|]. split; [|split].
  - intros l' Hl'. apply Hincl in Hl'. apply in_map_iff in Hl'.
    destruct Hl' as ([l'' n] & Hfst & Hin). simpl in Hfst. subst l''.
    pose proof (Hpre _ _ Hin) as Hlt.
    assert (Hin' : In (l', n) (tally tags []))
      by (rewrite Hsplit; apply in_or_app; now left).
    apply tally_entry in Hin'. destruct Hin' as [_ ->]. lia.
  - intros l' Hl'.
    assert (Hl'_tags : In l' tags)
      by (rewrite Htags; apply in_or_app; right; now right).
    apply tally_keys in Hl'_tags. unfold keys in Hl'_tags.
    apply in_map_iff in Hl'_tags.
    destruct Hl'_tags as ([l'' n] & Hfst & Hin). simpl in Hfst. subst l''.
    destruct (tally_entry _ _ _ Hin) as [_ Hn].
    rewrite Hsplit in Hin. apply in_app_or in Hin.
    destruct Hin as [Hin|[Heq|Hin]].
    + apply Hpre in Hin. lia.
    + inversion Heq; subst. lia.
    + apply Hpost in Hin. lia.
  - apply language_tags_truthy in Hl_tags. intros ->. discriminate.
Qed.

(** A tie: [fr] and [en] both occur twice, [fr] is seen first. *)
Example getLanguageFromTokens_tie :
  getLanguageFromTokens
    (Some [ Scenario.token "a" Undefined Undefined (Val "fr");
            Scenario.token "b" Undefined Undefined (Val "en");
            Scenario.token "c" Undefined Undefined (Val "");
            Scenario.token "d" Undefined Undefined (Val "en");
            Scenario.token "e" Undefined Undefined Null;
            Scenario.token "f" Undefined Undefined (Val "fr") ])
  = Some "fr".
Proof. reflexivity. Qed.

(** The description above determines the tag. *)
Lemma earliest_most_frequent_unique (tags : list string)
  (count : string -> nat) (l1 l2 : string)
  (pre1 post1 pre2 post2 : list string) :
  tags = (pre1 ++ l1 :: post1)%list ->
  (forall l', In l' pre1 -> count l' < count l1) ->
  (forall l', In l' post1 -> count l' <= count l1) ->
  tags = (pre2 ++ l2 :: post2)%list ->
  (forall l', In l' pre2 -> count l' < count l2) ->
  (forall l', In l' post2 -> count l' <= count l2) ->
  l1 = l2.
Proof.
  revert pre2 tags.
  induction pre1 as [|a pre1 IH]; intros pre2 tags H1 Hpre1 Hpost1 H2 Hpre2 Hpost2.
  - destruct pre2 as [|b pre2]; subst tags; simpl in H2.
    + now inversion H2.
    + inversion H2; subst b.
      assert (count l1 < count l2) by (apply Hpre2; now left).
      assert (count l2 <= count l1).
      { apply Hpost1. match goal with H : post1 = _ |- _ => rewrite H end.
        apply in_or_app. right. now left. }
      lia.
  - destruct pre2 as [|b pre2]; subst tags; simpl in H2.
    + inversion H2; subst a.
      assert (count l2 < count l1) by (apply Hpre1; now left).
      assert (count l1 <= count l2).
      { apply Hpost2. match goal with H : _ = post2 |- _ => rewrite <- H end.
        apply in_or_app. right. now left. }
      lia.
    + inversion H2; subst b.
      apply (IH pre2 (pre1 ++ l1 :: post1)%list); auto.
      * intros l' Hl'. apply Hpre1. now right.
      * intros l' Hl'. apply Hpre2. now right.
Qed.


(** ** Running the store-passing code *)

#[local] Arguments String.append : simpl never.

(** ** Best-effort deletion ([part_003]) *)

Section Cleanup.

Variable W : Type.
Variable E : Env W.

(** [tryDeleteResource] completes normally whatever [fetch] does: it issues
    one [DELETE] without a signal and pushes one warning exactly when the
    deletion failed. *)
Lemma tryDeleteResource_spec (path description : string) (hdrs : Headers)
  (s : State W) :
  Part003.tryDeleteResource E path hdrs description s =
  let (r, w') :=
    fetch E (config_url E path (modelId E)) (Part003.delete_init hdrs)
      (world s) in
  (Ret tt,
   {| world := w';
      calls := calls s ++ [CallFetch (config_url E path (modelId E))
                             (Part003.delete_init hdrs)];
      warnings :=
        warnings s ++ failure_warnings [(description, deletion_failure r)];
      var_fileId := var_fileId s;
      var_transcriptionId := var_transcriptionId s;
      var_statusResponse := var_statusResponse s |}).
Proof.
  unfold Part003.tryDeleteResource. unfold_monad.
  destruct (fetch E _ _ (world s)) as [[e|resp] w']; simpl.
  - reflexivity.
  - destruct (ok resp); simpl.
    + now rewrite app_nil_r.
    + reflexivity.
Qed.

Lemma finally_block_spec (hdrs : Headers) (s : State W) :
  Part003.finally_block E hdrs s =
  let (failures, w') :=
    deletion_failures E hdrs (cleanup_targets s) (world s) in
  (Ret tt,
   {| world := w';
      calls := calls s ++ List.map (delete_call E hdrs) (cleanup_targets s);
      warnings := warnings s ++ failure_warnings failures;
      var_fileId := var_fileId s;
      var_transcriptionId := var_transcriptionId s;
      var_statusResponse := var_statusResponse s |}).
Proof.
  destruct s as [w cs ws fid tid sr].
  unfold Part003.finally_block, Part003.delete_transcription,
    Part003.delete_file, cleanup_targets, delete_call.
  unfold bind, get_transcriptionId, get_fileId, ret.
  cbn [var_transcriptionId var_fileId world calls warnings var_statusResponse].
  destruct tid as [tid|]; [destruct (truthy tid)|];
    rewrite ?tryDeleteResource_spec;
    cbn [var_transcriptionId var_fileId world calls warnings
         var_statusResponse List.app List.map deletion_failures fst snd];
    try (destruct (fetch E (config_url E ("/v1/transcriptions/" ++ tid)
                              (modelId E)) (Part003.delete_init hdrs) w)
          as [r1 w1]);
    cbn [var_transcriptionId var_fileId world calls warnings
         var_statusResponse];
    (destruct fid as [fid|]; [destruct (truthy fid)|]);
    rewrite ?tryDeleteResource_spec;
    cbn [var_transcriptionId var_fileId world calls warnings
         var_statusResponse List.app List.map deletion_failures fst snd];
    try (match goal with
         | |- context [fetch E ?u ?i ?w0] =>
             destruct (fetch E u i w0) as [r2 w2]
         end);
    cbn [failure_warnings List.app];
    rewrite <- ?app_assoc, ?app_nil_r;
    cbn [failure_warnings List.app];
    try reflexivity;
    repeat match goal with
      | |- context [deletion_failure ?r] => destruct (deletion_failure r)
      end; reflexivity.
Qed.

End Cleanup.

(** ** The poll loop of [part_003] *)

Section Part003Loop.

Variable W : Type.
Variable E : Env W.
Variable options : CallOptions.
Variable requestHeaders : Headers.
Variable id : string.
Variable pollingInterval startTime : Z.

Local Abbreviation iteration :=
  (Part003.poll_iteration E options requestHeaders id pollingInterval
     startTime).
Local Abbreviation loop fuel :=
  (Part003.poll_loop E fuel options requestHeaders id pollingInterval
     startTime).
Local Abbreviation after :=
  (part003_after_polls E options requestHeaders id pollingInterval startTime).

Local Abbreviation part003_status_request :=
  (part003_status_request E options requestHeaders id).
Local Abbreviation options_aborted := (options_aborted E options).

(** The deadline is looked at first. *)
Lemma part003_iteration_timeout (s : State W) :
  (Part003.timeoutMs < Date_now E (world s) - startTime)%Z ->
  iteration s = (Throw (Part003.timeout_error (var_statusResponse s)), s).
Proof.
  intros H. apply Z.ltb_lt in H.
  unfold Part003.poll_iteration. unfold_monad. simpl.
  rewrite H. reflexivity.
Qed.

(** Then the abort signal. *)
Lemma part003_iteration_aborted (s : State W) :
  (Date_now E (world s) - startTime <= Part003.timeoutMs)%Z ->
  options_aborted (world s) = true ->
  iteration s = (Throw Part003.aborted_error, s).
Proof.
  intros H Ha. apply Z.ltb_ge in H.
  unfold Part003.poll_iteration. unfold_monad. simpl.
  rewrite H. unfold options_aborted in Ha. rewrite Ha. reflexivity.
Qed.

(** Only then is the status requested; what follows depends on the reply
    alone. *)
Lemma part003_iteration_query (s : State W) :
  (Date_now E (world s) - startTime <= Part003.timeoutMs)%Z ->
  options_aborted (world s) = false ->
  iteration s =
  let (r, w') := getFromApi_status E part003_status_request (world s) in
  let queried v :=
    {| world := w';
       calls := calls s ++ [CallStatus part003_status_request];
       warnings := warnings s;
       var_fileId := var_fileId s;
       var_transcriptionId := var_transcriptionId s;
       var_statusResponse := v |} in
  match r with
  | inl e => (Throw e, queried (var_statusResponse s))
  | inr value =>
      if String.eqb (status value) "completed"
      then (Ret Break, queried (Some value))
      else if String.eqb (status value) "error"
      then (Throw (Part003.job_failed_error value), queried (Some value))
      else (Ret Continue,
            {| world := delay E pollingInterval w';
               calls := calls s ++ [CallStatus part003_status_request];
               warnings := warnings s;
               var_fileId := var_fileId s;
               var_transcriptionId := var_transcriptionId s;
               var_statusResponse := Some value |})
  end.
Proof.
  intros H Ha. apply Z.ltb_ge in H.
  unfold Part003.poll_iteration. unfold_monad. simpl.
  rewrite H. unfold options_aborted in Ha. rewrite Ha.
  fold part003_status_request.
  destruct (getFromApi_status E part003_status_request (world s))
    as [[e|value] w']; simpl; [reflexivity|].
  destruct (String.eqb (status value) "completed"); [reflexivity|].
  destruct (String.eqb (status value) "error"); reflexivity.
Qed.

(** The three cases are exhaustive. *)
Lemma part003_iteration_cases (s : State W) :
  (Part003.timeoutMs < Date_now E (world s) - startTime)%Z \/
  ((Date_now E (world s) - startTime <= Part003.timeoutMs)%Z /\
   options_aborted (world s) = true) \/
  ((Date_now E (world s) - startTime <= Part003.timeoutMs)%Z /\
   options_aborted (world s) = false).
Proof.
  destruct (Z.ltb_spec Part003.timeoutMs (Date_now E (world s) - startTime));
    [now left|].
  right. destruct (options_aborted (world s)); [left|right]; now split.
Qed.

(** A turn touches neither the warnings nor the recorded identifiers, and
    issues at most one request, a status query carrying the caller's
    signal. *)
Lemma part003_iteration_frame (s s' : State W) (o : Outcome LoopControl) :
  iteration s = (o, s') ->
  o <> Diverge /\
  warnings s' = warnings s /\
  var_fileId s' = var_fileId s /\
  var_transcriptionId s' = var_transcriptionId s /\
  (calls s' = calls s \/
   calls s' = (calls s ++ [CallStatus part003_status_request])%list).
Proof.
  destruct (part003_iteration_cases s) as [Ht|[[Ht Ha]|[Ht Ha]]].
  - rewrite (part003_iteration_timeout _ Ht). intros H. inversion H; subst.
    repeat split; auto. discriminate.
  - rewrite (part003_iteration_aborted _ Ht Ha). intros H. inversion H; subst.
    repeat split; auto. discriminate.
  - rewrite (part003_iteration_query _ Ht Ha).
    destruct (getFromApi_status E part003_status_request (world s))
      as [[e|value] w'].
    + intros H. inversion H; subst. simpl. repeat split; auto. discriminate.
    + destruct (String.eqb (status value) "completed");
        [|destruct (String.eqb (status value) "error")];
        intros H; inversion H; subst; simpl; repeat split; auto; discriminate.
Qed.

Lemma part003_loop_unroll (k fuel : nat) (s s' : State W) :
  after k s = Some s' -> loop (k + fuel) s = loop fuel s'.
Proof.
  revert s. induction k as [|k IH]; intros s; simpl.
  - intros H. now inversion H.
  - cbn [part003_after_polls model_after_polls Part003.poll_loop
         Model.poll_loop Nat.add]. unfold bind.
    destruct (iteration s) as [[[|]| |] s1]; try discriminate.
    apply IH.
Qed.

Lemma part003_after_frame (k : nat) (s s' : State W) :
  after k s = Some s' ->
  warnings s' = warnings s /\
  var_fileId s' = var_fileId s /\
  var_transcriptionId s' = var_transcriptionId s /\
  exists cs, calls s' = (calls s ++ cs)%list /\ forallb is_status cs = true.
Proof.
  revert s. induction k as [|k IH]; intros s; simpl.
  - intros H. inversion H; subst. repeat split; auto.
    exists []. now rewrite app_nil_r.
  - cbn [part003_after_polls model_after_polls].
    destruct (iteration s) as [[[|]| |] s1] eqn:Hit; try discriminate.
    intros H. apply IH in H. destruct H as (Hw & Hf & Ht & cs & Hc & Hall).
    apply part003_iteration_frame in Hit.
    destruct Hit as (_ & Hw1 & Hf1 & Ht1 & Hc1).
    repeat split; try congruence.
    destruct Hc1 as [Hc1|Hc1]; rewrite Hc, Hc1.
    + now exists cs.
    + exists (CallStatus part003_status_request :: cs). split.
      * now rewrite <- app_assoc.
      * exact Hall.
Qed.

Lemma part003_loop_frame (fuel : nat) (s s' : State W) (o : Outcome unit) :
  loop fuel s = (o, s') ->
  warnings s' = warnings s /\
  var_fileId s' = var_fileId s /\
  var_transcriptionId s' = var_transcriptionId s /\
  exists cs, calls s' = (calls s ++ cs)%list /\ forallb is_status cs = true.
Proof.
  revert s. induction fuel as [|fuel IH]; intros s; simpl.
  - intros H. inversion H; subst. repeat split; auto.
    exists []. now rewrite app_nil_r.
  - cbn [Part003.poll_loop Model.poll_loop]. unfold bind.
    destruct (iteration s) as [o1 s1] eqn:Hit.
    apply part003_iteration_frame in Hit.
    destruct Hit as (_ & Hw1 & Hf1 & Ht1 & Hc1).
    assert (Hhere : warnings s1 = warnings s /\
                    var_fileId s1 = var_fileId s /\
                    var_transcriptionId s1 = var_transcriptionId s /\
                    exists cs, calls s1 = (calls s ++ cs)%list /\
                               forallb is_status cs = true).
    { repeat split; auto. destruct Hc1 as [Hc1|Hc1]; rewrite Hc1.
      - exists []. now rewrite app_nil_r.
      - now exists [CallStatus part003_status_request]. }
    destruct o1 as [[|]| |].
    + intros H. apply IH in H. destruct H as (Hw & Hf & Ht & cs & Hc & Hall).
      destruct Hhere as (_ & _ & _ & cs1 & Hc1' & Hall1).
      repeat split; try congruence.
      exists (cs1 ++ cs)%list. split.
      * rewrite Hc, Hc1'. now rewrite <- app_assoc.
      * rewrite forallb_app, Hall1, Hall. reflexivity.
    + intros H. inversion H; subst. exact Hhere.
    + intros H. inversion H; subst. exact Hhere.
    + intros H. inversion H; subst. exact Hhere.
Qed.

End Part003Loop.

(** ** The rest of [part_003]'s [doGenerate] *)

Section Part003Call.

Variable W : Type.
Variable E : Env W.
Variable options : CallOptions.

(** Nothing is requested before the [try]. *)
Lemma part003_prepare_spec (s s' : State W)
  (o : Outcome (Z * option SonioxOptions * Headers)) :
  Part003.prepare E options s = (o, s') ->
  o <> Diverge /\ calls s' = calls s /\ warnings s' = warnings s /\
  world s' = world s /\
  (forall v, o = Ret v ->
             var_fileId s' = None /\ var_transcriptionId s' = None /\
             parseProviderOptions (providerOptions options) = inr (snd (fst v))).
Proof.
  unfold Part003.prepare. unfold_monad. simpl.
  destruct (parseProviderOptions (providerOptions options)) as [e|so]; simpl.
  - intros H. inversion H; subst. repeat split; auto; discriminate.
  - destruct (config_headers E (world s)) as [e|h]; simpl;
      intros H; inversion H; subst; simpl; repeat split; auto;
      try discriminate.
    match goal with Hv : Ret _ = Ret _ |- _ => inversion Hv end.
    reflexivity.
Qed.

(** Upload and submission: the identifiers are recorded as soon as each
    request has succeeded. *)
Lemma part003_start_job_spec (sonioxOptions : option SonioxOptions)
  (requestHeaders : Headers) (s s' : State W) (o : Outcome (string * Z * Z)) :
  Part003.start_job E options sonioxOptions requestHeaders s = (o, s') ->
  o <> Diverge /\
  warnings s' = warnings s /\
  (exists cs, calls s' = (calls s ++ cs)%list /\
              forallb (fun c => negb (is_fetch c) && negb (is_transcript c)
                                && negb (is_status c)) cs = true) /\
  (forall id pollingInterval startTime,
      o = Ret (id, pollingInterval, startTime) ->
      exists blob fileId,
        calls s' =
          (calls s ++ [CallUpload (part003_upload_request E options requestHeaders blob);
                       CallSubmit (part003_submit_request E options sonioxOptions
                                     requestHeaders fileId)])%list /\
        var_fileId s' = Some fileId /\
        var_transcriptionId s' = Some id /\
        var_statusResponse s' = None /\
        startTime = Date_now E (world s')).
Proof.
  unfold Part003.start_job. unfold_monad.
  destruct (audio_blob E (audio options)) as [e|blob]; simpl.
  - intros H. inversion H; subst. repeat split; try discriminate; auto.
    exists []. now rewrite app_nil_r.
  - fold (part003_upload_request E options requestHeaders blob).
    destruct (postFormDataToApi E _ (world s)) as [[e|up] w1]; simpl.
    + intros H. inversion H; subst. simpl.
      repeat split; try discriminate; auto. eexists. split; reflexivity.
    + fold (part003_submit_request E options sonioxOptions requestHeaders (upload_id up)).
      destruct (postJsonToApi E _ w1) as [[e|cr] w2]; simpl.
      * intros H. inversion H; subst. simpl.
        repeat split; try discriminate; auto.
        eexists. split; [now rewrite <- app_assoc|reflexivity].
      * intros H. inversion H; subst. simpl.
        repeat split; try discriminate; auto.
        -- eexists. split; [now rewrite <- app_assoc|reflexivity].
        -- intros id pi st Heq. inversion Heq; subst.
           exists blob, (upload_id up). rewrite <- app_assoc.
           repeat split; reflexivity.
Qed.

(** The transcript request: the result is a function of the reply. *)
Lemma part003_fetch_transcript_spec (requestHeaders : Headers) (id : string)
  (currentDate : Z) (s s' : State W) (o : Outcome TranscriptionResult) :
  Part003.fetch_transcript E options requestHeaders id currentDate s = (o, s') ->
  o <> Diverge /\
  warnings s' = warnings s /\
  var_fileId s' = var_fileId s /\
  var_transcriptionId s' = var_transcriptionId s /\
  calls s' =
    (calls s ++ [CallTranscript
                   (part003_transcript_request E options requestHeaders id)])%list /\
  (forall r, o = Ret r ->
     exists reply w',
       getFromApi_transcript E
         (part003_transcript_request E options requestHeaders id) (world s)
       = (inr reply, w') /\
       let tokens := coalesce_or (tokens (value reply)) [] in
       providerMetadata_soniox_tokens r = tokens /\
       segments r = buildSegments (Some tokens) /\
       result_language r = getLanguageFromTokens (Some tokens) /\
       result_warnings r = warnings_array).
Proof.
  unfold Part003.fetch_transcript. unfold_monad.
  fold (part003_transcript_request E options requestHeaders id).
  destruct (getFromApi_transcript E _ (world s)) as [[e|reply] w1];
    cbv beta iota; intros H; inversion H; subst; clear H;
    (split; [discriminate|]);
    cbn [warnings var_fileId var_transcriptionId calls world];
    repeat (split; [reflexivity|]).
  - intros r Hr. discriminate.
  - intros r Hr. inversion Hr; subst. exists reply, w1.
    cbn [providerMetadata_soniox_tokens segments result_language
         result_warnings].
    repeat split; reflexivity.
Qed.

End Part003Call.

Section Part003Whole.

Variable W : Type.
Variable E : Env W.
Variable options : CallOptions.

(** The [try] block never touches the warnings and issues no raw [fetch]. *)
Lemma part003_try_block_frame (fuel : nat) (currentDate : Z)
  (sonioxOptions : option SonioxOptions) (requestHeaders : Headers)
  (s s' : State W) (o : Outcome TranscriptionResult) :
  Part003.try_block E fuel options currentDate sonioxOptions requestHeaders s
  = (o, s') ->
  warnings s' = warnings s /\
  exists cs, calls s' = (calls s ++ cs)%list /\
             forallb (fun c => negb (is_fetch c)) cs = true.
Proof.
  unfold Part003.try_block. unfold bind at 1.
  destruct (Part003.start_job E options sonioxOptions requestHeaders s)
    as [o1 s1] eqn:Hstart.
  apply part003_start_job_spec in Hstart.
  destruct Hstart as (_ & Hw1 & (cs1 & Hc1 & Hall1) & _).
  assert (Hall1' : forallb (fun c => negb (is_fetch c)) cs1 = true).
  { rewrite forallb_forall in *. intros c Hc. apply Hall1 in Hc.
    destruct (is_fetch c); [discriminate|reflexivity]. }
  destruct o1 as [[[id pollingInterval] startTime]| |].
  - unfold bind at 1.
    destruct (Part003.poll_loop E fuel options requestHeaders id
                pollingInterval startTime s1) as [o2 s2] eqn:Hloop.
    apply part003_loop_frame in Hloop.
    destruct Hloop as (Hw2 & _ & _ & cs2 & Hc2 & Hall2).
    assert (Hall2' : forallb (fun c => negb (is_fetch c)) cs2 = true).
    { rewrite forallb_forall in *. intros c Hc. apply Hall2 in Hc.
      destruct c; try discriminate; reflexivity. }
    destruct o2 as [[]| |].
    + intros Hfetch. apply part003_fetch_transcript_spec in Hfetch.
      destruct Hfetch as (_ & Hw3 & _ & _ & Hc3 & _).
      split; [congruence|].
      eexists. split.
      * rewrite Hc3, Hc2, Hc1. rewrite <- !app_assoc. reflexivity.
      * rewrite !forallb_app, Hall1', Hall2'. reflexivity.
    + intros H. inversion H; subst. split; [congruence|].
      exists (cs1 ++ cs2)%list. split.
      * rewrite Hc2, Hc1. now rewrite <- app_assoc.
      * rewrite forallb_app, Hall1', Hall2'. reflexivity.
    + intros H. inversion H; subst. split; [congruence|].
      exists (cs1 ++ cs2)%list. split.
      * rewrite Hc2, Hc1. now rewrite <- app_assoc.
      * rewrite forallb_app, Hall1', Hall2'. reflexivity.
  - intros H. inversion H; subst. split; [congruence|]. now exists cs1.
  - intros H. inversion H; subst. split; [congruence|]. now exists cs1.
Qed.

(** The shape of a whole call: once the options are parsed, the [finally]
    block runs after every completion of the [try] block and leaves that
    completion as it is. *)
Lemma part003_doGenerate_unfold (fuel : nat) (s : State W) :
  Part003.doGenerate E fuel options s =
  match Part003.prepare E options s with
  | (Ret (currentDate, sonioxOptions, requestHeaders), s0) =>
      match Part003.try_block E fuel options currentDate sonioxOptions
              requestHeaders s0 with
      | (Diverge, s1) => (Diverge, s1)
      | (o, s1) =>
          let (failures, w') :=
            deletion_failures E requestHeaders (cleanup_targets s1) (world s1) in
          (o,
           {| world := w';
              calls := calls s1
                       ++ List.map (delete_call E requestHeaders)
                            (cleanup_targets s1);
              warnings := warnings s1 ++ failure_warnings failures;
              var_fileId := var_fileId s1;
              var_transcriptionId := var_transcriptionId s1;
              var_statusResponse := var_statusResponse s1 |})
      end
  | (Throw e, s0) => (Throw e, s0)
  | (Diverge, s0) => (Diverge, s0)
  end.
Proof.
  unfold Part003.doGenerate. unfold bind at 1.
  destruct (Part003.prepare E options s) as [[[[cd so] rh]| |] s0];
    try reflexivity.
  unfold try_finally.
  destruct (Part003.try_block E fuel options cd so rh s0) as [[r|e|] s1];
    try reflexivity;
    rewrite finally_block_spec;
    destruct (deletion_failures E rh (cleanup_targets s1) (world s1));
    reflexivity.
Qed.

End Part003Whole.

Lemma failure_warnings_length (failures : list (string * option JsThrown)) :
  List.length (failure_warnings failures) = failed_count failures.
Proof.
  unfold failed_count.
  induction failures as [|[d [e|]] rest IH]; simpl; auto.
Qed.

Lemma deletion_failures_length {W : Type} (E : Env W) (hdrs : Headers)
  (targets : list (string * string)) (w : W) :
  List.map fst (fst (deletion_failures E hdrs targets w))
  = List.map snd targets.
Proof.
  revert w. induction targets as [|t rest IH]; intros w; simpl.
  - reflexivity.
  - destruct (fetch E _ _ w) as [r w1].
    specialize (IH w1).
    destruct (deletion_failures E hdrs rest w1) as [fs w2].
    simpl in *. now rewrite IH.
Qed.

(** ** The poll loop of [soniox-transcription-model.ts] *)

Section ModelLoop.

Variable W : Type.
Variable E : Env W.
Variable options : CallOptions.
Variable id : string.
Variable pollingInterval : Z.

Local Abbreviation iteration :=
  (Model.poll_iteration E options id pollingInterval).
Local Abbreviation loop fuel :=
  (Model.poll_loop E fuel options id pollingInterval).
Local Abbreviation after :=
  (model_after_polls E options id pollingInterval).

Local Abbreviation options_aborted := (options_aborted E options).

(** The abort signal is looked at first. *)
Lemma model_iteration_aborted (s : State W) :
  options_aborted (world s) = true ->
  iteration s = (Throw model_aborted_error, s).
Proof.
  intros Ha. unfold Model.poll_iteration. unfold_monad. simpl.
  unfold options_aborted in Ha. rewrite Ha. reflexivity.
Qed.

(** Only then is the status requested. *)
Lemma model_iteration_query (s : State W) :
  options_aborted (world s) = false ->
  iteration s =
  match config_headers E (world s) with
  | inl e => (Throw e, s)
  | inr h =>
      let request := model_status_request E options h id in
      let (r, w') := getFromApi_status E request (world s) in
      let queried v :=
        {| world := w';
           calls := calls s ++ [CallStatus request];
           warnings := warnings s;
           var_fileId := var_fileId s;
           var_transcriptionId := var_transcriptionId s;
           var_statusResponse := v |} in
      match r with
      | inl e => (Throw e, queried (var_statusResponse s))
      | inr value =>
          if String.eqb (status value) "completed"
          then (Ret Break, queried (Some value))
          else if String.eqb (status value) "error"
          then (Throw (model_job_failed_error value), queried (Some value))
          else (Ret Continue,
                {| world := delay E pollingInterval w';
                   calls := calls s ++ [CallStatus request];
                   warnings := warnings s;
                   var_fileId := var_fileId s;
                   var_transcriptionId := var_transcriptionId s;
                   var_statusResponse := Some value |})
      end
  end.
Proof.
  intros Ha. unfold Model.poll_iteration. unfold_monad. simpl.
  unfold options_aborted in Ha. rewrite Ha.
  destruct (config_headers E (world s)) as [e|h]; simpl; [reflexivity|].
  fold (model_status_request E options h id).
  destruct (getFromApi_status E (model_status_request E options h id) (world s))
    as [[e|value] w']; simpl; [reflexivity|].
  destruct (String.eqb (status value) "completed"); [reflexivity|].
  destruct (String.eqb (status value) "error"); reflexivity.
Qed.

Lemma model_iteration_frame (s s' : State W) (o : Outcome LoopControl) :
  iteration s = (o, s') ->
  o <> Diverge /\
  warnings s' = warnings s /\
  var_fileId s' = var_fileId s /\
  (calls s' = calls s \/
   exists h, calls s' =
             (calls s ++ [CallStatus (model_status_request E options h id)])%list).
Proof.
  destruct (options_aborted (world s)) eqn:Ha.
  - rewrite (model_iteration_aborted _ Ha). intros H. inversion H; subst.
    repeat split; auto. discriminate.
  - rewrite (model_iteration_query _ Ha).
    destruct (config_headers E (world s)) as [e|h].
    + intros H. inversion H; subst. repeat split; auto. discriminate.
    + cbv zeta.
      destruct (getFromApi_status E (model_status_request E options h id)
                  (world s)) as [[e|value] w'].
      * intros H. inversion H; subst. simpl.
        repeat split; eauto. discriminate.
      * destruct (String.eqb (status value) "completed");
          [|destruct (String.eqb (status value) "error")];
          intros H; inversion H; subst; simpl; repeat split; eauto;
          discriminate.
Qed.

Lemma model_loop_unroll (k fuel : nat) (s s' : State W) :
  after k s = Some s' -> loop (k + fuel) s = loop fuel s'.
Proof.
  revert s. induction k as [|k IH]; intros s; simpl.
  - intros H. now inversion H.
  - cbn [part003_after_polls model_after_polls Part003.poll_loop
         Model.poll_loop Nat.add]. unfold bind.
    destruct (iteration s) as [[[|]| |] s1]; try discriminate.
    apply IH.
Qed.

Lemma model_after_frame (k : nat) (s s' : State W) :
  after k s = Some s' ->
  warnings s' = warnings s /\
  exists cs, calls s' = (calls s ++ cs)%list /\ forallb is_status cs = true.
Proof.
  revert s. induction k as [|k IH]; intros s; simpl.
  - intros H. inversion H; subst. split; auto.
    exists []. now rewrite app_nil_r.
  - cbn [part003_after_polls model_after_polls].
    destruct (iteration s) as [[[|]| |] s1] eqn:Hit; try discriminate.
    intros H. apply IH in H. destruct H as (Hw & cs & Hc & Hall).
    apply model_iteration_frame in Hit.
    destruct Hit as (_ & Hw1 & _ & Hc1).
    split; [congruence|].
    destruct Hc1 as [Hc1|[h Hc1]]; rewrite Hc, Hc1.
    + now exists cs.
    + exists (CallStatus (model_status_request E options h id) :: cs). split.
      * now rewrite <- app_assoc.
      * exact Hall.
Qed.

Lemma model_loop_frame (fuel : nat) (s s' : State W) (o : Outcome unit) :
  loop fuel s = (o, s') ->
  warnings s' = warnings s /\
  exists cs, calls s' = (calls s ++ cs)%list /\ forallb is_status cs = true.
Proof.
  revert s. induction fuel as [|fuel IH]; intros s; simpl.
  - intros H. inversion H; subst. split; auto.
    exists []. now rewrite app_nil_r.
  - cbn [Part003.poll_loop Model.poll_loop]. unfold bind.
    destruct (iteration s) as [o1 s1] eqn:Hit.
    apply model_iteration_frame in Hit.
    destruct Hit as (_ & Hw1 & _ & Hc1).
    assert (Hhere : warnings s1 = warnings s /\
                    exists cs, calls s1 = (calls s ++ cs)%list /\
                               forallb is_status cs = true).
    { split; auto. destruct Hc1 as [Hc1|[h Hc1]]; rewrite Hc1.
      - exists []. now rewrite app_nil_r.
      - now eexists [_]. }
    destruct o1 as [[|]| |].
    + intros H. apply IH in H. destruct H as (Hw & cs & Hc & Hall).
      destruct Hhere as (_ & cs1 & Hc1' & Hall1).
      split; [congruence|].
      exists (cs1 ++ cs)%list. split.
      * rewrite Hc, Hc1'. now rewrite <- app_assoc.
      * rewrite forallb_app, Hall1, Hall. reflexivity.
    + intros H. inversion H; subst. exact Hhere.
    + intros H. inversion H; subst. exact Hhere.
    + intros H. inversion H; subst. exact Hhere.
Qed.

End ModelLoop.

(** ** The rest of [soniox-transcription-model.ts]'s [doGenerate] *)

Section ModelCall.

Variable W : Type.
Variable E : Env W.
Variable options : CallOptions.

(** The upload branch issues at most the upload request. *)
Lemma model_upload_frame (s s' : State W) (o : Outcome unit) :
  Model.upload E options s = (o, s') ->
  o <> Diverge /\
  warnings s' = warnings s /\
  (calls s' = calls s \/ exists r, calls s' = (calls s ++ [CallUpload r])%list).
Proof.
  unfold Model.upload. unfold_monad.
  destruct (audio_blob E (audio options)) as [e|blob]; simpl.
  - intros H. inversion H; subst. repeat split; auto. discriminate.
  - destruct (config_headers E (world s)) as [e|h]; simpl.
    + intros H. inversion H; subst. repeat split; auto. discriminate.
    + destruct (postFormDataToApi E _ (world s)) as [[e|up] w1]; simpl;
        intros H; inversion H; subst; simpl; repeat split; eauto;
        discriminate.
Qed.

(** The submission issues at most the submission request, with the body it
    was given. *)
Lemma model_submit_frame (body : SonioxCreateTranscriptionRequest)
  (s s' : State W) (o : Outcome CreateResponse) :
  Model.submit E options body s = (o, s') ->
  o <> Diverge /\
  warnings s' = warnings s /\
  var_fileId s' = var_fileId s /\
  (calls s' = calls s \/
   exists r, calls s' = (calls s ++ [CallSubmit r])%list /\ req_body r = body) /\
  (forall h, config_headers E (world s) = inr h ->
             exists r, calls s' = (calls s ++ [CallSubmit r])%list /\
                       req_body r = body).
Proof.
  unfold Model.submit. unfold_monad.
  destruct (config_headers E (world s)) as [e|h]; simpl.
  - intros H. inversion H; subst. repeat split; auto; try discriminate.
  - destruct (postJsonToApi E _ (world s)) as [[e|cr] w1]; simpl;
      intros H; inversion H; subst; simpl; repeat split; eauto;
      try discriminate;
      try (intros h' Hh'; inversion Hh'; subst; eauto).
Qed.

(** Supplying both sources stops the call before anything is requested. *)
Lemma model_start_job_both (o : SonioxOptions) (s : State W) :
  providerOptions options = SonioxOptionsObject o ->
  truthy_opt (coalesce (audioUrl o)) = true ->
  truthy_opt (coalesce (fileId o)) = true ->
  Model.start_job E options s = (Throw model_configuration_error, s).
Proof.
  intros Hpo Hu Hf.
  unfold Model.start_job. unfold_monad. rewrite Hpo. simpl.
  rewrite Hu, Hf. reflexivity.
Qed.

(** What [start_job] may request: an upload (only when neither source is
    given), then the submission. *)
Lemma model_start_job_frame (s s' : State W) (o : Outcome (Z * string * Z)) :
  Model.start_job E options s = (o, s') ->
  o <> Diverge /\
  warnings s' = warnings s /\
  exists cs, calls s' = (calls s ++ cs)%list /\
             forallb (fun c => negb (is_fetch c) && negb (is_transcript c)
                               && negb (is_status c)) cs = true.
Proof.
  unfold Model.start_job.
  unfold bind at 1. unfold observe at 1.
  unfold bind at 1.
  destruct (lift (parseProviderOptions (providerOptions options)) s)
    as [o0 s0] eqn:Hparse.
  assert (Hs0 : s0 = s /\ o0 <> Diverge).
  { unfold lift, throw, ret in Hparse.
    destruct (parseProviderOptions (providerOptions options));
      inversion Hparse; split; auto; discriminate. }
  destruct Hs0 as [-> Hnd0].
  destruct o0 as [so|e|]; [| |now elim Hnd0].
  2:{ intros H. inversion H; subst. repeat split; try discriminate.
      exists []. now rewrite app_nil_r. }
  destruct (truthy_opt (option_field audioUrl so)
            && truthy_opt (option_field fileId so)).
  { intros H. inversion H; subst. repeat split; try discriminate.
    exists []. now rewrite app_nil_r. }
  unfold bind at 1. unfold set_fileId at 1.
  unfold bind at 1.
  match goal with
  | |- context [(if ?b then Model.upload E options else ret tt) ?st] =>
      destruct ((if b then Model.upload E options else ret tt) st)
        as [o1 s1] eqn:Hup
  end.
  assert (Hup' : o1 <> Diverge /\ warnings s1 = warnings s /\
                 (calls s1 = calls s \/
                  exists r, calls s1 = (calls s ++ [CallUpload r])%list)).
  { match type of Hup with
    | (if ?b then _ else _) _ = _ => destruct b
    end.
    - apply model_upload_frame in Hup. exact Hup.
    - inversion Hup; subst. simpl. repeat split; auto. discriminate. }
  destruct Hup' as (Hnd1 & Hw1 & Hc1).
  assert (Hcs1 : exists cs, calls s1 = (calls s ++ cs)%list /\
                   forallb (fun c => negb (is_fetch c) && negb (is_transcript c)
                                     && negb (is_status c)) cs = true).
  { destruct Hc1 as [Hc1|[r Hc1]]; rewrite Hc1.
    - exists []. now rewrite app_nil_r.
    - now exists [CallUpload r]. }
  destruct Hcs1 as (cs1 & Hcs1 & Hall1).
  destruct o1 as [[]|e|]; [| |now elim Hnd1].
  2:{ intros H. inversion H; subst. repeat split; try discriminate; auto.
      now exists cs1. }
  unfold bind at 1. unfold get_fileId at 1.
  unfold bind at 1.
  match goal with
  | |- context [Model.submit E options ?b s1] =>
      destruct (Model.submit E options b s1) as [o2 s2] eqn:Hsub
  end.
  apply model_submit_frame in Hsub.
  destruct Hsub as (Hnd2 & Hw2 & _ & Hc2 & _).
  assert (Hcs2 : exists cs, calls s2 = (calls s ++ cs)%list /\
                   forallb (fun c => negb (is_fetch c) && negb (is_transcript c)
                                     && negb (is_status c)) cs = true).
  { destruct Hc2 as [Hc2|[r [Hc2 _]]]; rewrite Hc2, Hcs1.
    - now exists cs1.
    - exists (cs1 ++ [CallSubmit r])%list. split.
      + now rewrite <- app_assoc.
      + rewrite forallb_app, Hall1. reflexivity. }
  destruct o2 as [cr|e|]; [| |now elim Hnd2];
    intros H; inversion H; subst;
    (split; [discriminate|]); (split; [congruence|]); exact Hcs2.
Qed.

(** The transcript request: the result is a function of the reply. *)
Lemma model_fetch_transcript_spec (id : string) (currentDate : Z)
  (s s' : State W) (o : Outcome TranscriptionResult) :
  Model.fetch_transcript E options id currentDate s = (o, s') ->
  o <> Diverge /\
  warnings s' = warnings s /\
  (calls s' = calls s \/
   exists h, calls s' =
             (calls s ++ [CallTranscript
                            (model_transcript_request E options h id)])%list) /\
  (forall r, o = Ret r ->
     exists h reply w',
       calls s' =
         (calls s ++ [CallTranscript
                        (model_transcript_request E options h id)])%list /\
       getFromApi_transcript E (model_transcript_request E options h id)
         (world s) = (inr reply, w') /\
       let tokens := coalesce_or (tokens (value reply)) [] in
       providerMetadata_soniox_tokens r = tokens /\
       segments r = buildSegments (Some tokens) /\
       result_language r = None /\
       result_warnings r = warnings_array).
Proof.
  unfold Model.fetch_transcript. unfold_monad.
  destruct (config_headers E (world s)) as [e|h]; cbv beta iota.
  - intros H. inversion H; subst. repeat split; auto; discriminate.
  - fold (model_transcript_request E options h id).
    destruct (getFromApi_transcript E
                (model_transcript_request E options h id) (world s))
      as [[e|reply] w1] eqn:Hget;
      cbv beta iota; intros H; inversion H; subst; clear H;
      (split; [discriminate|]);
      cbn [warnings calls world];
      (split; [reflexivity|]); (split; [eauto|]).
    + intros r Hr. discriminate.
    + intros r Hr. inversion Hr; subst. exists h, reply, w1.
      cbn [providerMetadata_soniox_tokens segments result_language
           result_warnings].
      split; [reflexivity|]. split; [exact Hget|]. repeat split; reflexivity.
Qed.

(** A whole call in terms of its three stages. *)
Lemma model_doGenerate_unfold (fuel : nat) (s : State W) :
  Model.doGenerate E fuel options s =
  match Model.start_job E options s with
  | (Ret (currentDate, id, pollingInterval), s1) =>
      match Model.poll_loop E fuel options id pollingInterval s1 with
      | (Ret _, s2) => Model.fetch_transcript E options id currentDate s2
      | (Throw e, s2) => (Throw e, s2)
      | (Diverge, s2) => (Diverge, s2)
      end
  | (Throw e, s1) => (Throw e, s1)
  | (Diverge, s1) => (Diverge, s1)
  end.
Proof.
  unfold Model.doGenerate. unfold bind at 1.
  destruct (Model.start_job E options s) as [[[[cd id] pi]| |] s1];
    reflexivity.
Qed.

(** No request of a call is a raw [fetch], and none touches the warnings. *)
Lemma model_doGenerate_frame (fuel : nat) (s s' : State W)
  (o : Outcome TranscriptionResult) :
  Model.doGenerate E fuel options s = (o, s') ->
  warnings s' = warnings s /\
  exists cs, calls s' = (calls s ++ cs)%list /\
             forallb (fun c => negb (is_fetch c)) cs = true.
Proof.
  rewrite model_doGenerate_unfold.
  destruct (Model.start_job E options s) as [o1 s1] eqn:Hstart.
  apply model_start_job_frame in Hstart.
  destruct Hstart as (_ & Hw1 & cs1 & Hc1 & Hall1).
  assert (Hall1' : forallb (fun c => negb (is_fetch c)) cs1 = true).
  { rewrite forallb_forall in *. intros c Hc. apply Hall1 in Hc.
    destruct (is_fetch c); [discriminate|reflexivity]. }
  destruct o1 as [[[cd id] pi]| |].
  - destruct (Model.poll_loop E fuel options id pi s1) as [o2 s2] eqn:Hloop.
    apply model_loop_frame in Hloop.
    destruct Hloop as (Hw2 & cs2 & Hc2 & Hall2).
    assert (Hall2' : forallb (fun c => negb (is_fetch c)) cs2 = true).
    { rewrite forallb_forall in *. intros c Hc. apply Hall2 in Hc.
      destruct c; try discriminate; reflexivity. }
    destruct o2 as [[]| |].
    + intros Hfetch. apply model_fetch_transcript_spec in Hfetch.
      destruct Hfetch as (_ & Hw3 & Hc3 & _).
      split; [congruence|].
      destruct Hc3 as [Hc3|[h Hc3]]; rewrite Hc3, Hc2, Hc1.
      * exists (cs1 ++ cs2)%list. split; [now rewrite <- app_assoc|].
        rewrite forallb_app, Hall1', Hall2'. reflexivity.
      * eexists. split; [rewrite <- !app_assoc; reflexivity|].
        rewrite !forallb_app, Hall1', Hall2'. reflexivity.
    + intros H. inversion H; subst. split; [congruence|].
      exists (cs1 ++ cs2)%list. split.
      * rewrite Hc2, Hc1. now rewrite <- app_assoc.
      * rewrite forallb_app, Hall1', Hall2'. reflexivity.
    + intros H. inversion H; subst. split; [congruence|].
      exists (cs1 ++ cs2)%list. split.
      * rewrite Hc2, Hc1. now rewrite <- app_assoc.
      * rewrite forallb_app, Hall1', Hall2'. reflexivity.
  - intros H. inversion H; subst. split; [congruence|]. now exists cs1.
  - intros H. inversion H; subst. split; [congruence|]. now exists cs1.
Qed.

End ModelCall.

(** ** Reaching a turn of the poll loop *)

Lemma truthy_nonempty (s : string) : s <> "" -> truthy s = true.
Proof.
  destruct s; [intros H; now elim H|reflexivity].
Qed.

(** [soniox-transcription-model.ts]: an error thrown in turn [k] is the
    completion of the call, and nothing is requested after it. *)
Lemma model_throw_in_turn {W : Type} (E : Env W) (options : CallOptions)
  (s0 s1 sk s' : State W) (currentDate pollingInterval : Z) (id : string)
  (k : nat) (e : JsThrown) :
  Model.start_job E options s0 = (Ret (currentDate, id, pollingInterval), s1) ->
  model_after_polls E options id pollingInterval k s1 = Some sk ->
  Model.poll_iteration E options id pollingInterval sk = (Throw e, s') ->
  forall fuel,
    Model.doGenerate E (k + S fuel) options s0 = (Throw e, s').
Proof.
  intros Hstart Hafter Hit fuel.
  rewrite model_doGenerate_unfold, Hstart.
  rewrite (model_loop_unroll E options id pollingInterval k (S fuel) _ Hafter).
  simpl. unfold bind at 1. rewrite Hit. reflexivity.
Qed.

(** [part_003]: an error thrown in turn [k] is the completion of the call;
    the only requests after it are the deletions of the [finally] block. *)
Lemma part003_throw_in_turn {W : Type} (E : Env W) (options : CallOptions)
  (s s0 s1 sk s' : State W) (currentDate pollingInterval startTime : Z)
  (sonioxOptions : option SonioxOptions) (requestHeaders : Headers)
  (id : string) (k : nat) (e : JsThrown) :
  Part003.prepare E options s
  = (Ret (currentDate, sonioxOptions, requestHeaders), s0) ->
  Part003.start_job E options sonioxOptions requestHeaders s0
  = (Ret (id, pollingInterval, startTime), s1) ->
  part003_after_polls E options requestHeaders id pollingInterval startTime
    k s1 = Some sk ->
  Part003.poll_iteration E options requestHeaders id pollingInterval startTime
    sk = (Throw e, s') ->
  forall fuel,
  exists s3 fileId,
    Part003.doGenerate E (k + S fuel) options s = (Throw e, s3) /\
    var_fileId s1 = Some fileId /\
    cleanup_targets s' = created_targets id fileId /\
    calls s3 = (calls s' ++ List.map (delete_call E requestHeaders)
                              (created_targets id fileId))%list /\
    world s3 = snd (deletion_failures E requestHeaders
                      (created_targets id fileId) (world s')) /\
    warnings s3 =
      (warnings s'
       ++ failure_warnings
            (fst (deletion_failures E requestHeaders
                    (created_targets id fileId) (world s'))))%list.
Proof.
  intros Hprep Hstart Hafter Hit fuel.
  rewrite part003_doGenerate_unfold, Hprep.
  unfold Part003.try_block. unfold bind at 1. rewrite Hstart.
  unfold bind at 1.
  rewrite (part003_loop_unroll E options requestHeaders id pollingInterval
             startTime k (S fuel) _ Hafter).
  simpl. unfold bind at 1. rewrite Hit.
  apply part003_start_job_spec in Hstart.
  destruct Hstart as (_ & _ & _ & Hret).
  destruct (Hret _ _ _ eq_refl) as (blob & fid & _ & Hfid & Htid & _).
  apply part003_after_frame in Hafter.
  destruct Hafter as (_ & Hf1 & Ht1 & _).
  apply part003_iteration_frame in Hit.
  destruct Hit as (_ & _ & Hf2 & Ht2 & _).
  assert (Htargets : cleanup_targets s' = created_targets id fid).
  { unfold cleanup_targets, created_targets.
    rewrite Hf2, Ht2, Hf1, Ht1, Hfid, Htid. reflexivity. }
  rewrite Htargets.
  destruct (deletion_failures E requestHeaders (created_targets id fid)
              (world s')) as [failures w'] eqn:Hdel.
  eexists. exists fid. split; [reflexivity|].
  split; [exact Hfid|]. rewrite Hdel. repeat split; reflexivity.
Qed.

(** ** From a returned result back to the transcript reply *)

Lemma model_doGenerate_result {W : Type} (E : Env W) (options : CallOptions)
  (fuel : nat) (s st : State W) (r : TranscriptionResult) :
  Model.doGenerate E fuel options s = (Ret r, st) ->
  exists request reply w0 w1,
    In (CallTranscript request) (calls st) /\
    getFromApi_transcript E request w0 = (inr reply, w1) /\
    providerMetadata_soniox_tokens r = coalesce_or (tokens (value reply)) [] /\
    segments r = buildSegments (Some (coalesce_or (tokens (value reply)) [])) /\
    result_language r = None.
Proof.
  rewrite model_doGenerate_unfold.
  destruct (Model.start_job E options s) as [[[[cd id] pi]|e|] s1];
    try discriminate.
  destruct (Model.poll_loop E fuel options id pi s1) as [[[]|e|] s2];
    try discriminate.
  intros Hfetch. apply model_fetch_transcript_spec in Hfetch.
  destruct Hfetch as (_ & _ & _ & Hret).
  destruct (Hret r eq_refl)
    as (h & reply & w' & Hc & Hget & Htok & Hseg & Hlang & _).
  exists (model_transcript_request E options h id), reply, (world s2), w'.
  repeat split; auto.
  rewrite Hc. apply in_or_app. right. now left.
Qed.

Lemma part003_doGenerate_result {W : Type} (E : Env W) (options : CallOptions)
  (fuel : nat) (s st : State W) (r : TranscriptionResult) :
  Part003.doGenerate E fuel options s = (Ret r, st) ->
  exists request reply w0 w1,
    In (CallTranscript request) (calls st) /\
    getFromApi_transcript E request w0 = (inr reply, w1) /\
    providerMetadata_soniox_tokens r = coalesce_or (tokens (value reply)) [] /\
    segments r = buildSegments (Some (coalesce_or (tokens (value reply)) [])) /\
    result_language r
    = getLanguageFromTokens (Some (coalesce_or (tokens (value reply)) [])).
Proof.
  rewrite part003_doGenerate_unfold.
  destruct (Part003.prepare E options s) as [[[[cd so] rh]|e|] s0];
    try discriminate.
  destruct (Part003.try_block E fuel options cd so rh s0) as [o1 s1] eqn:Htry.
  destruct o1 as [r1|e|]; try discriminate;
    destruct (deletion_failures E rh (cleanup_targets s1) (world s1))
      as [failures w']; try discriminate.
  intros H. inversion H; subst. clear H. simpl.
  unfold Part003.try_block in Htry. unfold bind at 1 in Htry.
  destruct (Part003.start_job E options so rh s0)
    as [[[[id pi] start]|e|] s2]; try discriminate.
  unfold bind at 1 in Htry.
  destruct (Part003.poll_loop E fuel options rh id pi start s2)
    as [[[]|e|] s3]; try discriminate.
  apply part003_fetch_transcript_spec in Htry.
  destruct Htry as (_ & _ & _ & _ & Hc & Hret).
  destruct (Hret r eq_refl) as (reply & w1 & Hget & Htok & Hseg & Hlang & _).
  exists (part003_transcript_request E options rh id), reply, (world s3), w1.
  repeat split; auto.
  rewrite Hc. apply in_or_app. left. apply in_or_app. right. now left.
Qed.

(** ** Audio source selection in [soniox-transcription-model.ts] *)

Section ModelSource.

Variable W : Type.
Variable E : Env W.
Variable options : CallOptions.

(** With a usable [audioUrl] the upload branch is not taken: [start_job]
    requests nothing but the submission, whose body carries the URL. *)
Lemma model_start_job_audioUrl (o : SonioxOptions) (audio_reference : string)
  (s s' : State W) (out : Outcome (Z * string * Z)) :
  providerOptions options = SonioxOptionsObject o ->
  audioUrl o = Val audio_reference ->
  truthy audio_reference = true ->
  Model.start_job E options s = (out, s') ->
  (calls s' = calls s \/
   exists r, calls s' = (calls s ++ [CallSubmit r])%list /\
             audio_url (req_body r) = Some audio_reference /\
             file_id (req_body r) = coalesce (fileId o)) /\
  (truthy_opt (coalesce (fileId o)) = false ->
   forall h, config_headers E (world s) = inr h ->
             exists r, calls s' = (calls s ++ [CallSubmit r])%list /\
                       audio_url (req_body r) = Some audio_reference /\
                       file_id (req_body r) = coalesce (fileId o)).
Proof.
  intros Hpo Hurl Htruthy.
  unfold Model.start_job.
  unfold bind at 1. unfold observe at 1.
  unfold bind at 1. rewrite Hpo. cbn [parseProviderOptions lift ret].
  cbn [option_field sonioxTranscriptionProviderOptionsSchema audioUrl fileId].
  rewrite Hurl. cbn [coalesce truthy_opt]. rewrite Htruthy.
  cbn [andb negb].
  destruct (truthy_opt (coalesce (fileId o))) eqn:Hfid.
  - intros H. inversion H; subst. split; [now left|]. discriminate.
  - unfold bind at 1. unfold set_fileId at 1.
    unfold bind at 1. unfold ret at 1.
    unfold bind at 1. unfold get_fileId at 1.
    cbn [var_fileId]. unfold bind at 1.
    match goal with
    | |- context [Model.submit E options ?b ?st] =>
        destruct (Model.submit E options b st) as [o2 s2] eqn:Hsub
    end.
    apply model_submit_frame in Hsub.
    destruct Hsub as (Hnd & _ & _ & Hc & Hh).
    cbn [calls world] in Hc, Hh.
    assert (Hshape :
      (calls s2 = calls s \/
       exists r, calls s2 = (calls s ++ [CallSubmit r])%list /\
                 audio_url (req_body r) = Some audio_reference /\
                 file_id (req_body r) = coalesce (fileId o)) /\
      (false = false ->
       forall h, config_headers E (world s) = inr h ->
                 exists r, calls s2 = (calls s ++ [CallSubmit r])%list /\
                           audio_url (req_body r) = Some audio_reference /\
                           file_id (req_body r) = coalesce (fileId o))).
    { split.
      - destruct Hc as [Hc|[r [Hc Hb]]]; [now left|right].
        exists r. rewrite Hb. repeat split; auto.
      - intros _ h Hcfg. destruct (Hh h Hcfg) as (r & Hc' & Hb).
        exists r. rewrite Hb. repeat split; auto. }
    destruct o2 as [cr|e|]; [| |now elim Hnd];
      intros H; inversion H; subst; exact Hshape.
Qed.

(** After [start_job] a call only queries the status and fetches the
    transcript. *)
Lemma model_doGenerate_shape (fuel : nat) (s st : State W)
  (out : Outcome TranscriptionResult) :
  Model.doGenerate E fuel options s = (out, st) ->
  exists o1 s1 cs,
    Model.start_job E options s = (o1, s1) /\
    calls st = (calls s1 ++ cs)%list /\
    forallb (fun c => is_status c || is_transcript c) cs = true.
Proof.
  rewrite model_doGenerate_unfold.
  destruct (Model.start_job E options s) as [o1 s1] eqn:Hstart.
  intros Hrun. exists o1, s1.
  destruct o1 as [[[cd id] pi]| |].
  - destruct (Model.poll_loop E fuel options id pi s1) as [o2 s2] eqn:Hloop.
    apply model_loop_frame in Hloop.
    destruct Hloop as (_ & cs2 & Hc2 & Hall2).
    assert (Hall2' : forallb (fun c => is_status c || is_transcript c) cs2
                     = true).
    { rewrite forallb_forall in *. intros c Hc. apply Hall2 in Hc.
      now rewrite Hc. }
    destruct o2 as [[]| |].
    + apply model_fetch_transcript_spec in Hrun.
      destruct Hrun as (_ & _ & Hc3 & _).
      destruct Hc3 as [Hc3|[h Hc3]]; rewrite Hc3, Hc2.
      * exists cs2. repeat split; auto.
      * eexists. split; [reflexivity|]. split.
        -- rewrite <- app_assoc. reflexivity.
        -- rewrite forallb_app, Hall2'. reflexivity.
    + inversion Hrun; subst. exists cs2. repeat split; auto.
    + inversion Hrun; subst. exists cs2. repeat split; auto.
  - inversion Hrun; subst. exists []. rewrite app_nil_r.
    repeat split; auto.
  - inversion Hrun; subst. exists []. rewrite app_nil_r.
    repeat split; auto.
Qed.

End ModelSource.

(** ** What a turn that ends in the delay has seen *)

Lemma part003_iteration_continue {W : Type} (E : Env W)
  (options : CallOptions) (requestHeaders : Headers) (id : string)
  (pollingInterval startTime : Z) (s s' : State W) :
  Part003.poll_iteration E options requestHeaders id pollingInterval startTime
    s = (Ret Continue, s') ->
  (Date_now E (world s) - startTime <= Part003.timeoutMs)%Z /\
  options_aborted E options (world s) = false /\
  exists value w',
    getFromApi_status E
      (part003_status_request E options requestHeaders id) (world s)
    = (inr value, w') /\
    var_statusResponse s' = Some value /\
    status value <> "completed" /\ status value <> "error".
Proof.
  destruct (part003_iteration_cases E options startTime s)
    as [Ht|[[Ht Ha]|[Ht Ha]]].
  - rewrite (part003_iteration_timeout E options requestHeaders id
               pollingInterval startTime _ Ht). discriminate.
  - rewrite (part003_iteration_aborted E options requestHeaders id
               pollingInterval startTime _ Ht Ha). discriminate.
  - rewrite (part003_iteration_query E options requestHeaders id
               pollingInterval startTime _ Ht Ha).
    destruct (getFromApi_status E _ (world s)) as [[e|value] w'];
      [discriminate|].
    destruct (String.eqb_spec (status value) "completed"); [discriminate|].
    destruct (String.eqb_spec (status value) "error"); [discriminate|].
    intros H. inversion H; subst. simpl.
    split; [exact Ht|]. split; [exact Ha|].
    exists value, w'. repeat split; auto.
Qed.

(** A turn that requests the status began within the deadline and with the
    signal not aborted. *)
Lemma part003_iteration_checked {W : Type} (E : Env W)
  (options : CallOptions) (requestHeaders : Headers) (id : string)
  (pollingInterval startTime : Z) (s s' : State W) (o : Outcome LoopControl) :
  Part003.poll_iteration E options requestHeaders id pollingInterval startTime
    s = (o, s') ->
  calls s' <> calls s ->
  (Date_now E (world s) - startTime <= Part003.timeoutMs)%Z /\
  options_aborted E options (world s) = false.
Proof.
  destruct (part003_iteration_cases E options startTime s)
    as [Ht|[[Ht Ha]|[Ht Ha]]].
  - rewrite (part003_iteration_timeout E options requestHeaders id
               pollingInterval startTime _ Ht).
    intros H. inversion H; subst. intros Hc. now elim Hc.
  - rewrite (part003_iteration_aborted E options requestHeaders id
               pollingInterval startTime _ Ht Ha).
    intros H. inversion H; subst. intros Hc. now elim Hc.
  - intros _ _. now split.
Qed.

Lemma model_iteration_checked {W : Type} (E : Env W)
  (options : CallOptions) (id : string) (pollingInterval : Z)
  (s s' : State W) (o : Outcome LoopControl) :
  Model.poll_iteration E options id pollingInterval s = (o, s') ->
  calls s' <> calls s ->
  options_aborted E options (world s) = false.
Proof.
  destruct (options_aborted E options (world s)) eqn:Ha; [|reflexivity].
  rewrite (model_iteration_aborted E options id pollingInterval _ Ha).
  intros H. inversion H; subst. intros Hc. now elim Hc.
Qed.



(** ** No transcript request before the loop ends *)

Lemma forallb_weaken {A : Type} (p q : A -> bool) (l : list A) :
  (forall x, p x = true -> q x = true) ->
  forallb p l = true -> forallb q l = true.
Proof.
  intros Hpq. rewrite !forallb_forall. auto.
Qed.

Lemma model_turn_no_transcript {W : Type} (E : Env W) (options : CallOptions)
  (w : W) (currentDate pollingInterval : Z) (id : string) (k : nat)
  (sk : State W) :
  model_turn_begins E options w currentDate id pollingInterval k sk ->
  forallb (fun c => negb (is_transcript c)) (calls sk) = true.
Proof.
  intros (s1 & Hstart & Hafter).
  apply model_start_job_frame in Hstart.
  destruct Hstart as (_ & _ & cs1 & Hc1 & Hall1).
  apply model_after_frame in Hafter.
  destruct Hafter as (_ & cs2 & Hc2 & Hall2).
  rewrite Hc2, Hc1. simpl. rewrite forallb_app. apply andb_true_iff. split.
  - revert Hall1. apply forallb_weaken. intros c Hc.
    destruct (is_transcript c); [|reflexivity].
    destruct (is_fetch c); discriminate.
  - revert Hall2. apply forallb_weaken. intros c Hc.
    destruct c; try discriminate; reflexivity.
Qed.

Lemma part003_turn_no_transcript {W : Type} (E : Env W)
  (options : CallOptions) (w : W) (currentDate : Z)
  (sonioxOptions : option SonioxOptions) (requestHeaders : Headers)
  (id fileId : string) (pollingInterval startTime : Z) (k : nat)
  (sk : State W) :
  part003_turn_begins E options w currentDate sonioxOptions requestHeaders
    id fileId pollingInterval startTime k sk ->
  forallb (fun c => negb (is_transcript c) && negb (is_fetch c)) (calls sk)
  = true.
Proof.
  intros (s0 & s1 & Hprep & Hstart & _ & Hafter).
  apply part003_prepare_spec in Hprep.
  destruct Hprep as (_ & Hc0 & _).
  apply part003_start_job_spec in Hstart.
  destruct Hstart as (_ & _ & (cs1 & Hc1 & Hall1) & _).
  apply part003_after_frame in Hafter.
  destruct Hafter as (_ & _ & _ & cs2 & Hc2 & Hall2).
  rewrite Hc2, Hc1, Hc0. simpl. rewrite forallb_app. apply andb_true_iff.
  split.
  - revert Hall1. apply forallb_weaken. intros c Hc.
    destruct (is_transcript c); destruct (is_fetch c);
      try discriminate; reflexivity.
  - revert Hall2. apply forallb_weaken. intros c Hc.
    destruct c; try discriminate; reflexivity.
Qed.

Lemma deletions_are_not_status_queries {W : Type} (E : Env W)
  (requestHeaders : Headers) (targets : list (string * string)) :
  filter is_status (List.map (delete_call E requestHeaders) targets) = [].
Proof.
  induction targets as [|t ts IH]; simpl; auto.
Qed.

(** Every raw [fetch] of a [part_003] call is one of the deletions. *)
Lemma part003_fetch_calls {W : Type} (E : Env W) (options : CallOptions)
  (fuel : nat) (w : W) (out : Outcome TranscriptionResult) (st : State W) :
  Part003.doGenerate E fuel options (init_state w) = (out, st) ->
  forall c, In c (calls st) -> is_fetch c = true ->
            exists requestHeaders target,
              c = delete_call E requestHeaders target.
Proof.
  rewrite part003_doGenerate_unfold.
  destruct (Part003.prepare E options (init_state w))
    as [[[[cd so] rh]|e|] s0] eqn:Hprep.
  - apply part003_prepare_spec in Hprep. destruct Hprep as (_ & Hc0 & _).
    destruct (Part003.try_block E fuel options cd so rh s0) as [o1 s1] eqn:Htry.
    apply part003_try_block_frame in Htry.
    destruct Htry as (_ & cs & Hc1 & Hall).
    assert (Htry_calls : forall c, In c (calls s1) -> is_fetch c = false).
    { intros c Hc. rewrite Hc1, Hc0 in Hc. simpl in Hc.
      rewrite forallb_forall in Hall. apply Hall in Hc.
      destruct (is_fetch c); [discriminate|reflexivity]. }
    assert (Hfinal : forall (w' : W) (ws : list SharedV3Warning),
      forall c,
        In c (calls {| world := w';
                       calls := calls s1 ++ List.map (delete_call E rh)
                                              (cleanup_targets s1);
                       warnings := ws;
                       var_fileId := var_fileId s1;
                       var_transcriptionId := var_transcriptionId s1;
                       var_statusResponse := var_statusResponse s1 |}) ->
        is_fetch c = true ->
        exists requestHeaders target, c = delete_call E requestHeaders target).
    { intros w' ws c Hc Hf. cbn [calls] in Hc. apply in_app_or in Hc.
      destruct Hc as [Hc|Hc].
      - apply Htry_calls in Hc. congruence.
      - apply in_map_iff in Hc. destruct Hc as (t & <- & _). now exists rh, t. }
    destruct o1 as [r|e|].
    + destruct (deletion_failures E rh (cleanup_targets s1) (world s1)).
      intros H. inversion H; subst. apply Hfinal.
    + destruct (deletion_failures E rh (cleanup_targets s1) (world s1)).
      intros H. inversion H; subst. apply Hfinal.
    + intros H. inversion H; subst. intros c Hc Hf.
      apply Htry_calls in Hc. congruence.
  - apply part003_prepare_spec in Hprep. destruct Hprep as (_ & Hc0 & _).
    intros H. inversion H; subst. rewrite Hc0. intros c [].
  - apply part003_prepare_spec in Hprep. destruct Hprep as (_ & Hc0 & _).
    intros H. inversion H; subst. rewrite Hc0. intros c [].
Qed.

(** ** The options [part_003] does not read *)

Section UnreadOptions.

Variable W : Type.
Variable E : Env W.
Variables (a : Audio) (m : string) (h : option Headers)
          (sig : option AbortSignal).

Local Abbreviation call_with po :=
  {| audio := a; mediaType := m; headers := h; abortSignal := sig;
     providerOptions := po |}.

(** The poll loop looks at the options only for the abort signal. *)
Lemma part003_poll_loop_options (po1 po2 : ProviderOptions) (fuel : nat)
  (requestHeaders : Headers) (id : string) (pollingInterval startTime : Z)
  (s : State W) :
  Part003.poll_loop E fuel (call_with po1) requestHeaders id pollingInterval
    startTime s
  = Part003.poll_loop E fuel (call_with po2) requestHeaders id pollingInterval
      startTime s.
Proof.
  revert s. induction fuel as [|fuel IH]; intros s; [reflexivity|].
  cbn [Part003.poll_loop]. unfold bind.
  change (Part003.poll_iteration E (call_with po1) requestHeaders id
            pollingInterval startTime s)
    with (Part003.poll_iteration E (call_with po2) requestHeaders id
            pollingInterval startTime s).
  destruct (Part003.poll_iteration E (call_with po2) requestHeaders id
              pollingInterval startTime s) as [[[|]|e|] s1];
    try reflexivity.
  apply IH.
Qed.

Lemma part003_try_block_unread (o : SonioxOptions) (url file : nullish string)
  (deleteTranscription deleteFile : nullish bool) (fuel : nat)
  (currentDate : Z) (requestHeaders : Headers) (s : State W) :
  Part003.try_block E fuel
    (call_with (SonioxOptionsObject
                  (replace_unread o url file deleteTranscription deleteFile)))
    currentDate
    (Some (sonioxTranscriptionProviderOptionsSchema
             (replace_unread o url file deleteTranscription deleteFile)))
    requestHeaders s
  = Part003.try_block E fuel (call_with (SonioxOptionsObject o)) currentDate
      (Some (sonioxTranscriptionProviderOptionsSchema o)) requestHeaders s.
Proof.
  unfold Part003.try_block. unfold bind at 1 3.
  change (Part003.start_job E
            (call_with (SonioxOptionsObject
                          (replace_unread o url file deleteTranscription
                             deleteFile)))
            (Some (sonioxTranscriptionProviderOptionsSchema
                     (replace_unread o url file deleteTranscription
                        deleteFile)))
            requestHeaders s)
    with (Part003.start_job E (call_with (SonioxOptionsObject o))
            (Some (sonioxTranscriptionProviderOptionsSchema o))
            requestHeaders s).
  destruct (Part003.start_job E (call_with (SonioxOptionsObject o))
              (Some (sonioxTranscriptionProviderOptionsSchema o))
              requestHeaders s) as [[[[id pi] start]|e|] s1];
    try reflexivity.
  unfold bind.
  rewrite (part003_poll_loop_options
             (SonioxOptionsObject
                (replace_unread o url file deleteTranscription deleteFile))
             (SonioxOptionsObject o)).
  destruct (Part003.poll_loop E fuel (call_with (SonioxOptionsObject o))
              requestHeaders id pi start s1) as [[[]|e|] s2];
    reflexivity.
Qed.

(** [part_003] behaves the same whatever [audioUrl], [fileId],
    [autoDeleteTranscription] and [autoDeleteFile] are: it always uploads
    the audio and always deletes what it recorded. *)
Lemma part003_doGenerate_unread (o : SonioxOptions) (url file : nullish string)
  (deleteTranscription deleteFile : nullish bool) (fuel : nat) (s : State W) :
  Part003.doGenerate E fuel
    (call_with (SonioxOptionsObject
                  (replace_unread o url file deleteTranscription deleteFile)))
    s
  = Part003.doGenerate E fuel (call_with (SonioxOptionsObject o)) s.
Proof.
  unfold Part003.doGenerate, Part003.prepare. unfold_monad.
  cbn [providerOptions parseProviderOptions world headers].
  destruct (config_headers E (world s)) as [e|hdrs]; [reflexivity|].
  cbv beta iota.
  rewrite part003_try_block_unread. reflexivity.
Qed.

End UnreadOptions.

(** ** What [soniox-transcription-model.ts] does not do *)

(** That revision deletes nothing, warns of nothing and reports no
    language. *)
Lemma model_no_cleanup_no_language {W : Type} (E : Env W)
  (options : CallOptions) (fuel : nat) (w : W)
  (out : Outcome TranscriptionResult) (st : State W) :
  Model.doGenerate E fuel options (init_state w) = (out, st) ->
  forallb (fun c => negb (is_fetch c)) (calls st) = true /\
  warnings st = [] /\
  (forall r, out = Ret r -> result_language r = None).
Proof.
  intros Hrun. pose proof (model_doGenerate_frame _ _ _ _ Hrun) as Hframe.
  destruct Hframe as (Hw & cs & Hc & Hall).
  split; [|split].
  - rewrite Hc. exact Hall.
  - exact Hw.
  - intros r ->. apply model_doGenerate_result in Hrun.
    destruct Hrun as (_ & _ & _ & _ & _ & _ & _ & _ & Hlang). exact Hlang.
Qed.

(** * Statements of the specification *)

(** C3.  Cleanup in [part_003] is best effort.  [tryDeleteResource] always
    completes normally, issues its one [DELETE] and pushes exactly one
    warning when the deletion failed (rejected [fetch] or response not
    [ok]) and none otherwise.  For every completion of the [try] block
    (result or thrown error, cancellation included), [doGenerate] completes
    the same way after attempting, in order and whatever the first attempt
    did, the deletion of the recorded transcription and of the recorded
    file; the warnings array then holds exactly one warning per failed
    deletion, and that is what a returned result shows. *)
Theorem cleanup_is_best_effort :
  forall (W : Type) (E : Env W) (fuel : nat) (options : CallOptions) (w : W)
         (currentDate : Z) (sonioxOptions : option SonioxOptions)
         (requestHeaders : Headers) (s0 s1 : State W)
         (o : Outcome TranscriptionResult),
    Part003.prepare E options (init_state w)
    = (Ret (currentDate, sonioxOptions, requestHeaders), s0) ->
    Part003.try_block E fuel options currentDate sonioxOptions requestHeaders s0
    = (o, s1) ->
    o <> Diverge ->
    (forall path description s,
        exists s',
          Part003.tryDeleteResource E path requestHeaders description s
          = (Ret tt, s') /\
          calls s' = (calls s ++ [delete_call E requestHeaders
                                    (path, description)])%list /\
          warnings s' =
            (warnings s
             ++ failure_warnings
                  [(description,
                    deletion_failure
                      (fst (fetch E (config_url E path (modelId E))
                              (Part003.delete_init requestHeaders)
                              (world s))))])%list) /\
    exists s2,
      Part003.doGenerate E fuel options (init_state w) = (o, s2) /\
      calls s2 = (calls s1 ++ List.map (delete_call E requestHeaders)
                                (cleanup_targets s1))%list /\
      let failures :=
        fst (deletion_failures E requestHeaders (cleanup_targets s1)
               (world s1)) in
      List.map fst failures = List.map snd (cleanup_targets s1) /\
      warnings s2 = failure_warnings failures /\
      List.length (warnings s2) = failed_count failures /\
      (forall r, o = Ret r ->
                 deref s2 (result_warnings r) = failure_warnings failures).
Proof.
  intros W E fuel options w cd so rh s0 s1 o Hprep Htry Hdiv. split.
  - intros path description s. rewrite tryDeleteResource_spec.
    unfold delete_call. simpl.
    destruct (fetch E (config_url E path (modelId E))
                (Part003.delete_init rh) (world s)) as [r w'].
    eexists. split; [reflexivity|]. split; reflexivity.
  - rewrite part003_doGenerate_unfold, Hprep, Htry.
    apply part003_prepare_spec in Hprep.
    destruct Hprep as (_ & _ & Hw0 & _).
    apply part003_try_block_frame in Htry. destruct Htry as (Hw1 & _).
    assert (Hws : warnings s1 = []) by (rewrite Hw1, Hw0; reflexivity).
    pose proof (deletion_failures_length E rh (cleanup_targets s1) (world s1))
      as Hlen.
    destruct (deletion_failures E rh (cleanup_targets s1) (world s1))
      as [failures w'].
    simpl in Hlen.
    assert (Hfinal :
      exists s2,
        (o, {| world := w';
               calls := calls s1 ++ List.map (delete_call E rh)
                                      (cleanup_targets s1);
               warnings := warnings s1 ++ failure_warnings failures;
               var_fileId := var_fileId s1;
               var_transcriptionId := var_transcriptionId s1;
               var_statusResponse := var_statusResponse s1 |}) = (o, s2) /\
        calls s2 = (calls s1 ++ List.map (delete_call E rh)
                                  (cleanup_targets s1))%list /\
        warnings s2 = failure_warnings failures).
    { eexists. split; [reflexivity|]. simpl. rewrite Hws. now split. }
    destruct Hfinal as (s2 & Heq & Hcalls & Hwarn).
    exists s2. split.
    { destruct o as [r|e|]; [exact Heq|exact Heq|now elim Hdiv]. }
    split; [exact Hcalls|]. simpl. split; [exact Hlen|].
    split; [exact Hwarn|]. split.
    + rewrite Hwarn. apply failure_warnings_length.
    + intros r _. destruct (result_warnings r). exact Hwarn.
Qed.

(** A run in which both deletions fail: the call still returns its result,
    with two warnings. *)
Lemma cleanup_is_best_effort_witness :
  exists r s2,
    Part003.doGenerate Scenario.env 5 Runs.plain_call
      (init_state Runs.failing_cleanup) = (Ret r, s2) /\
    List.length (deref s2 (result_warnings r)) = 2 /\
    List.length (filter is_fetch (calls s2)) = 2.
Proof.
  destruct (@cleanup_is_best_effort _ Scenario.env 5 Runs.plain_call
              Runs.failing_cleanup 0%Z None Runs.test_headers
              Runs.failing_cleanup_prepared
              (snd Runs.failing_cleanup_tried)
              (fst Runs.failing_cleanup_tried))
    as (_ & s2 & Hrun & Hcalls & _ & Hwarn & Hlen & Hres).
  - vm_compute. reflexivity.
  - vm_compute. reflexivity.
  - vm_compute. discriminate.
  - exists Runs.failing_cleanup_result, s2.
    split; [exact Hrun|]. split.
    + rewrite (Hres Runs.failing_cleanup_result eq_refl
               : deref s2 (result_warnings Runs.failing_cleanup_result) = _).
      vm_compute. reflexivity.
    + rewrite Hcalls. vm_compute. reflexivity.
Defined.



(** C6.  If the status request of turn [k] is answered with status
    [error], the call throws the job-failure error, whose message is
    [Transcription failed: ] followed by the provider's [error_message],
    or by [Unknown error] when the provider gave none, and no request of
    the call is a transcript request.  This holds in both revisions; in
    [part_003] the error is the [TranscriptionJobFailed] error. *)
Theorem job_error_fails_the_call :
  forall (W : Type) (E : Env W) (options : CallOptions) (w w' : W) (k : nat)
         (value : StatusResponse),
    status value = "error" ->
    (forall currentDate id pollingInterval sk h,
        model_turn_begins E options w currentDate id pollingInterval k sk ->
        options_aborted E options (world sk) = false ->
        config_headers E (world sk) = inr h ->
        getFromApi_status E (model_status_request E options h id) (world sk)
        = (inr value, w') ->
        forall fuel,
        exists st,
          Model.doGenerate E (k + S fuel) options (init_state w)
          = (Throw (model_job_failed_error value), st) /\
          forallb (fun c => negb (is_transcript c)) (calls st) = true) /\
    (forall currentDate sonioxOptions requestHeaders id fileId
            pollingInterval startTime sk,
        part003_turn_begins E options w currentDate sonioxOptions
          requestHeaders id fileId pollingInterval startTime k sk ->
        (Date_now E (world sk) - startTime <= Part003.timeoutMs)%Z ->
        options_aborted E options (world sk) = false ->
        getFromApi_status E
          (part003_status_request E options requestHeaders id) (world sk)
        = (inr value, w') ->
        forall fuel,
        exists st,
          Part003.doGenerate E (k + S fuel) options (init_state w)
          = (Throw (Part003.job_failed_error value), st) /\
          forallb (fun c => negb (is_transcript c)) (calls st) = true) /\
    thrown_message (model_job_failed_error value)
    = "Transcription failed: "
      ++ coalesce_or (error_message value) "Unknown error" /\
    thrown_message (Part003.job_failed_error value)
    = "Transcription failed: "
      ++ coalesce_or (error_message value) "Unknown error" /\
    (forall m, error_message value = Val m ->
               coalesce_or (error_message value) "Unknown error" = m) /\
    (error_message value = Null \/ error_message value = Undefined ->
     coalesce_or (error_message value) "Unknown error" = "Unknown error").
Proof.
  intros W E options w w' k value Herr.
  assert (Hnc : String.eqb (status value) "completed" = false)
    by (rewrite Herr; reflexivity).
  assert (Hie : String.eqb (status value) "error" = true)
    by (rewrite Herr; reflexivity).
  split; [|split; [|split; [|split; [|split]]]].
  - intros cd id pi sk h Hturn Hab Hcfg Hget fuel.
    pose proof (model_turn_no_transcript Hturn) as Hnone.
    destruct Hturn as (s1 & Hstart & Hafter).
    pose proof (@model_iteration_query _ E options id pi sk Hab) as Hit.
    rewrite Hcfg in Hit. cbv zeta in Hit. rewrite Hget, Hnc, Hie in Hit.
    eexists. split.
    + exact (@model_throw_in_turn _ E options (init_state w) s1 sk _ cd pi id
               k _ Hstart Hafter Hit fuel).
    + cbn [calls]. rewrite forallb_app, Hnone. reflexivity.
  - intros cd so rh id fid pi start sk Hturn Hin Hab Hget fuel.
    pose proof (part003_turn_no_transcript Hturn) as Hnone.
    destruct Hturn as (s0 & s1 & Hprep & Hstart & Hfid & Hafter).
    pose proof (@part003_iteration_query _ E options rh id pi start sk
                  Hin Hab) as Hit.
    rewrite Hget, Hnc, Hie in Hit.
    destruct (@part003_throw_in_turn _ E options (init_state w) s0 s1 sk _
                cd pi start so rh id k _ Hprep Hstart Hafter Hit fuel)
      as (s3 & fid' & Hrun & _ & _ & Hcalls & _).
    exists s3. split; [exact Hrun|].
    rewrite Hcalls. cbn [calls]. rewrite !forallb_app.
    apply andb_true_iff. split; [apply andb_true_iff; split|].
    + revert Hnone. apply forallb_weaken. intros c Hc.
      destruct (is_transcript c); [discriminate|reflexivity].
    + reflexivity.
    + apply forallb_forall. intros c Hc. apply in_map_iff in Hc.
      destruct Hc as (t & <- & _). reflexivity.
  - reflexivity.
  - reflexivity.
  - intros m Hm. rewrite Hm. reflexivity.
  - intros [Hm|Hm]; rewrite Hm; reflexivity.
Qed.

(** A job that is [queued], then fails with [Audio is too long.]. *)
Lemma job_error_fails_the_call_witness :
  status Scenario.failed = "error" /\
  (exists st,
      Model.doGenerate Scenario.env 2 Runs.plain_call
        (init_state Runs.failing_job)
      = (Throw (new_Error "Transcription failed: Audio is too long."), st) /\
      forallb (fun c => negb (is_transcript c)) (calls st) = true) /\
  (exists st,
      Part003.doGenerate Scenario.env 2 Runs.plain_call
        (init_state Runs.failing_job)
      = (Throw (new_AISDKError "Transcription failed: Audio is too long."
                  "TranscriptionJobFailed" (Some Scenario.failed)), st) /\
      forallb (fun c => negb (is_transcript c)) (calls st) = true).
Proof.
  destruct (@job_error_fails_the_call _ Scenario.env Runs.plain_call
              Runs.failing_job
              (snd (Scenario.next_status
                      (world Runs.failing_job_model_turn1)))
              1 Scenario.failed eq_refl)
    as (Hmodel & Hpart & _).
  split; [reflexivity|]. split.
  - apply (Hmodel 0%Z "transcription-123" 1000%Z
             Runs.failing_job_model_turn1 Runs.test_headers).
    + unfold model_turn_begins. eexists.
      split; lazy; reflexivity.
    + reflexivity.
    + reflexivity.
    + vm_compute. reflexivity.
  - apply (Hpart 0%Z None Runs.test_headers "transcription-123" "file-123"
             1000%Z 0%Z Runs.failing_job_part003_turn1).
    + unfold part003_turn_begins. do 2 eexists.
      split; [lazy; reflexivity|]. split; [lazy; reflexivity|].
      split; lazy; reflexivity.
    + vm_compute. discriminate.
    + reflexivity.
    + vm_compute. reflexivity.
Defined.

(** C9, as the code has it.  In both revisions a turn of the poll loop
    requests the status only after it has found the caller's signal not
    aborted.  If the signal is aborted when turn [k] begins, then in
    [soniox-transcription-model.ts] the call throws
    [Error('Transcription request was aborted')] and requests nothing
    more; in [part_003] the deadline is looked at first, so the call throws
    that same error when the deadline has not passed and the timeout error
    when it has, and in either case requests no further status (only the
    deletions of the [finally] block follow). *)
Theorem cancellation_is_checked_each_turn :
  forall (W : Type) (E : Env W) (options : CallOptions) (w wk : W) (k : nat),
    options_aborted E options wk = true ->
    (forall id pollingInterval s o s',
        Model.poll_iteration E options id pollingInterval s = (o, s') ->
        calls s' <> calls s ->
        options_aborted E options (world s) = false) /\
    (forall requestHeaders id pollingInterval startTime s o s',
        Part003.poll_iteration E options requestHeaders id pollingInterval
          startTime s = (o, s') ->
        calls s' <> calls s ->
        options_aborted E options (world s) = false) /\
    (forall currentDate id pollingInterval sk,
        world sk = wk ->
        model_turn_begins E options w currentDate id pollingInterval k sk ->
        forall fuel,
          Model.doGenerate E (k + S fuel) options (init_state w)
          = (Throw model_aborted_error, sk)) /\
    (forall currentDate sonioxOptions requestHeaders id fileId
            pollingInterval startTime sk,
        world sk = wk ->
        part003_turn_begins E options w currentDate sonioxOptions
          requestHeaders id fileId pollingInterval startTime k sk ->
        forall fuel,
        exists s3,
          Part003.doGenerate E (k + S fuel) options (init_state w)
          = (Throw (if (Part003.timeoutMs <? Date_now E wk - startTime)%Z
                    then Part003.timeout_error (var_statusResponse sk)
                    else Part003.aborted_error), s3) /\
          calls s3 = (calls sk ++ List.map (delete_call E requestHeaders)
                                    (created_targets id fileId))%list /\
          filter is_status (calls s3) = filter is_status (calls sk)).
Proof.
  intros W E options w wk k Hab.
  split; [|split; [|split]].
  - intros id pi s o s'. apply model_iteration_checked.
  - intros rh id pi start s o s' Hit Hc.
    destruct (@part003_iteration_checked _ E options rh id pi start s s' o
                Hit Hc) as [_ Hna]. exact Hna.
  - intros cd id pi sk Hw (s1 & Hstart & Hafter) fuel. subst wk.
    pose proof (@model_iteration_aborted _ E options id pi sk Hab) as Hit.
    exact (@model_throw_in_turn _ E options (init_state w) s1 sk sk cd pi id
             k _ Hstart Hafter Hit fuel).
  - intros cd so rh id fid pi start sk Hw
           (s0 & s1 & Hprep & Hstart & Hfid & Hafter) fuel. subst wk.
    assert (Hit : Part003.poll_iteration E options rh id pi start sk
                  = (Throw (if (Part003.timeoutMs
                                <? Date_now E (world sk) - start)%Z
                            then Part003.timeout_error (var_statusResponse sk)
                            else Part003.aborted_error), sk)).
    { destruct (Z.ltb_spec Part003.timeoutMs (Date_now E (world sk) - start))
        as [Hlate|Hin].
      - exact (@part003_iteration_timeout _ E options rh id pi start sk Hlate).
      - exact (@part003_iteration_aborted _ E options rh id pi start sk
                 Hin Hab). }
    destruct (@part003_throw_in_turn _ E options (init_state w) s0 s1 sk sk
                cd pi start so rh id k _ Hprep Hstart Hafter Hit fuel)
      as (s3 & fid' & Hrun & Hfid' & _ & Hcalls & _).
    assert (fid' = fid) by congruence. subst fid'.
    exists s3. split; [exact Hrun|]. split; [exact Hcalls|].
    rewrite Hcalls, filter_app, deletions_are_not_status_queries.
    apply app_nil_r.
Qed.

(** The signal fires half a second into the call: both revisions stop at
    the second turn with the cancellation error. *)
Lemma cancellation_is_checked_each_turn_witness :
  options_aborted Scenario.env Runs.abortable_call
    (world Runs.early_abort_model_turn1) = true /\
  Model.doGenerate Scenario.env 2 Runs.abortable_call
    (init_state Runs.early_abort)
  = (Throw model_aborted_error, Runs.early_abort_model_turn1) /\
  exists s3,
    Part003.doGenerate Scenario.env 2 Runs.abortable_call
      (init_state Runs.early_abort)
    = (Throw Part003.aborted_error, s3) /\
    filter is_status (calls s3)
    = filter is_status (calls Runs.early_abort_part003_turn1).
Proof.
  assert (Hab : options_aborted Scenario.env Runs.abortable_call
                  (world Runs.early_abort_model_turn1) = true)
    by reflexivity.
  destruct (@cancellation_is_checked_each_turn _ Scenario.env
              Runs.abortable_call Runs.early_abort
              (world Runs.early_abort_model_turn1) 1 Hab)
    as (_ & _ & Hmodel & Hpart).
  split; [exact Hab|]. split.
  - apply (Hmodel 0%Z "transcription-123" 1000%Z
             Runs.early_abort_model_turn1 eq_refl).
    unfold model_turn_begins. eexists. split; lazy; reflexivity.
  - destruct (Hpart 0%Z None Runs.test_headers "transcription-123" "file-123"
                1000%Z 0%Z Runs.early_abort_part003_turn1 eq_refl)
      with (fuel := 0) as (s3 & Hrun & _ & Hstatus).
    + unfold part003_turn_begins. do 2 eexists.
      split; [lazy; reflexivity|]. split; [lazy; reflexivity|].
      split; lazy; reflexivity.
    + exists s3. split; [exact Hrun|exact Hstatus].
Defined.

(** C9 as stated fails on [part_003]: the signal is aborted when the second
    turn begins, yet the call throws the timeout error, because that turn
    began past the deadline and the deadline is looked at first. *)
Lemma cancellation_is_checked_each_turn_counterexample :
  part003_turn_begins Scenario.env Runs.abortable_call Runs.late_abort 0%Z
    None Runs.test_headers "transcription-123" "file-123" 1000%Z 0%Z 1
    Runs.late_abort_turn1 /\
  options_aborted Scenario.env Runs.abortable_call
    (world Runs.late_abort_turn1) = true /\
  fst (Part003.doGenerate Scenario.env 2 Runs.abortable_call
         (init_state Runs.late_abort))
  = Throw (Part003.timeout_error (Some Scenario.queued)) /\
  fst (Part003.doGenerate Scenario.env 2 Runs.abortable_call
         (init_state Runs.late_abort))
  <> Throw Part003.aborted_error.
Proof.
  split; [|split; [|split]].
  - unfold part003_turn_begins. do 2 eexists.
    split; [lazy; reflexivity|]. split; [lazy; reflexivity|].
    split; lazy; reflexivity.
  - reflexivity.
  - vm_compute. reflexivity.
  - vm_compute. discriminate.
Qed.

(** C10.  In [part_003] the deletions do not carry the caller's abort
    signal: every raw [fetch] of a call is a [DELETE] whose options have no
    [signal].  So when the signal has fired and turn [k] of the poll loop
    (begun within the deadline) throws the cancellation error, the
    [finally] block still issues the deletion of the transcription and of
    the file, one after the other, each running to whatever outcome [fetch]
    gives it: the world after the call is the world after both deletions,
    and the warnings are those of the deletions that failed. *)
Theorem cleanup_ignores_the_abort_signal :
  forall (W : Type) (E : Env W) (options : CallOptions) (w wk : W) (k : nat),
    options_aborted E options wk = true ->
    (forall fuel out st,
        Part003.doGenerate E fuel options (init_state w) = (out, st) ->
        forall c, In c (calls st) -> is_fetch c = true ->
                  call_signal c = None /\
                  exists target init,
                    c = CallFetch target init /\ method init = "DELETE") /\
    (forall currentDate sonioxOptions requestHeaders id fileId
            pollingInterval startTime sk,
        world sk = wk ->
        part003_turn_begins E options w currentDate sonioxOptions
          requestHeaders id fileId pollingInterval startTime k sk ->
        (Date_now E wk - startTime <= Part003.timeoutMs)%Z ->
        forall fuel,
        exists s3,
          Part003.doGenerate E (k + S fuel) options (init_state w)
          = (Throw Part003.aborted_error, s3) /\
          calls s3 = (calls sk ++ List.map (delete_call E requestHeaders)
                                    (created_targets id fileId))%list /\
          (id <> "" -> fileId <> "" ->
           calls s3 =
             (calls sk
              ++ [delete_transcription_call E requestHeaders id;
                  delete_file_call E requestHeaders fileId])%list) /\
          world s3 = snd (deletion_failures E requestHeaders
                            (created_targets id fileId) wk) /\
          warnings s3 =
            failure_warnings
              (fst (deletion_failures E requestHeaders
                      (created_targets id fileId) wk))).
Proof.
  intros W E options w wk k Hab. split.
  - intros fuel out st Hrun c Hc Hf.
    destruct (part003_fetch_calls _ _ _ _ Hrun c Hc Hf) as (rh & t & ->).
    split; [reflexivity|]. unfold delete_call. eexists. eexists.
    split; reflexivity.
  - intros cd so rh id fid pi start sk Hw
           (s0 & s1 & Hprep & Hstart & Hfid & Hafter) Hin fuel. subst wk.
    pose proof (@part003_iteration_aborted _ E options rh id pi start sk
                  Hin Hab) as Hit.
    destruct (@part003_throw_in_turn _ E options (init_state w) s0 s1 sk sk
                cd pi start so rh id k _ Hprep Hstart Hafter Hit fuel)
      as (s3 & fid' & Hrun & Hfid' & _ & Hcalls & Hworld & Hwarn).
    assert (fid' = fid) by congruence. subst fid'.
    assert (Hws : warnings sk = []).
    { apply part003_prepare_spec in Hprep. destruct Hprep as (_ & _ & Hw0 & _).
      apply part003_start_job_spec in Hstart. destruct Hstart as (_ & Hw1 & _).
      apply part003_after_frame in Hafter. destruct Hafter as (Hw2 & _).
      rewrite Hw2, Hw1, Hw0. reflexivity. }
    exists s3. split; [exact Hrun|]. split; [exact Hcalls|].
    split; [|split; [exact Hworld|]].
    + intros Hne1 Hne2. rewrite Hcalls. unfold created_targets.
      rewrite (truthy_nonempty Hne1), (truthy_nonempty Hne2). reflexivity.
    + rewrite Hwarn, Hws. reflexivity.
Qed.

(** The signal fires half a second into the call; the second deletion fails
    with a 404.  Both deletions are issued and the failure is recorded. *)
Lemma cleanup_ignores_the_abort_signal_witness :
  options_aborted Scenario.env Runs.abortable_call
    (world Runs.early_abort_part003_turn1) = true /\
  exists s3,
    Part003.doGenerate Scenario.env 2 Runs.abortable_call
      (init_state Runs.early_abort)
    = (Throw Part003.aborted_error, s3) /\
    calls s3 =
      (calls Runs.early_abort_part003_turn1
       ++ [delete_transcription_call Scenario.env Runs.test_headers
             "transcription-123";
           delete_file_call Scenario.env Runs.test_headers "file-123"])%list /\
    (forall c, In c (calls s3) -> is_fetch c = true -> call_signal c = None).
Proof.
  assert (Hab : options_aborted Scenario.env Runs.abortable_call
                  (world Runs.early_abort_part003_turn1) = true)
    by reflexivity.
  destruct (@cleanup_ignores_the_abort_signal _ Scenario.env
              Runs.abortable_call Runs.early_abort
              (world Runs.early_abort_part003_turn1) 1 Hab)
    as (Hsignal & Hcancel).
  split; [exact Hab|].
  destruct (Hcancel 0%Z None Runs.test_headers "transcription-123" "file-123"
              1000%Z 0%Z Runs.early_abort_part003_turn1 eq_refl)
    with (fuel := 0) as (s3 & Hrun & _ & Hcalls & _).
  - unfold part003_turn_begins. do 2 eexists.
    split; [lazy; reflexivity|]. split; [lazy; reflexivity|].
    split; lazy; reflexivity.
  - vm_compute. discriminate.
  - exists s3. split; [exact Hrun|]. split.
    + apply Hcalls; discriminate.
    + intros c Hc Hf. exact (proj1 (Hsignal _ _ _ Hrun c Hc Hf)).
Defined.

(** C8, where the code departs from it.  [part_003]'s [doGenerate] never
    reads [autoDeleteTranscription] or [autoDeleteFile]: a call behaves the
    same whatever their values.  With both set to [false] the test-file
    scenario still issues both [DELETE] requests. *)
Theorem auto_delete_options_are_ignored :
  (forall (W : Type) (E : Env W) (fuel : nat) (a : Audio) (m : string)
          (h : option Headers) (sig : option AbortSignal) (o : SonioxOptions)
          (deleteTranscription deleteFile : nullish bool) (s : State W),
      Part003.doGenerate E fuel
        {| audio := a; mediaType := m; headers := h; abortSignal := sig;
           providerOptions :=
             SonioxOptionsObject
               (set_auto_delete o deleteTranscription deleteFile) |} s
      = Part003.doGenerate E fuel
          {| audio := a; mediaType := m; headers := h; abortSignal := sig;
             providerOptions := SonioxOptionsObject o |} s) /\
  parseProviderOptions (SonioxOptionsObject Runs.keep_everything)
  = inr (Some Runs.keep_everything) /\
  autoDeleteTranscription Runs.keep_everything = Val false /\
  autoDeleteFile Runs.keep_everything = Val false /\
  Part003.doGenerate Scenario.env 5
    (Scenario.call (SonioxOptionsObject Runs.keep_everything) None)
    (init_state Scenario.happy)
  = Runs.keep_everything_part003 /\
  filter is_fetch (calls (snd Runs.keep_everything_part003))
  = [delete_transcription_call Scenario.env Runs.test_headers
       "transcription-123";
     delete_file_call Scenario.env Runs.test_headers "file-123"].
Proof.
  split; [|repeat split; vm_compute; reflexivity].
  intros. unfold set_auto_delete. apply part003_doGenerate_unread.
Qed.

(** * Further properties of the code *)

(** ** The stages of [part_003] as equations *)

Section Part003Stages.

Variable W : Type.
Variable E : Env W.
Variable options : CallOptions.

Lemma part003_prepare_eq (s : State W) :
  Part003.prepare E options s =
  match parseProviderOptions (providerOptions options) with
  | inl e => (Throw e, s)
  | inr sonioxOptions =>
      let s0 := with_transcriptionId (with_fileId s None) None in
      match config_headers E (world s) with
      | inl e => (Throw e, s0)
      | inr h =>
          (Ret (currentDate E (world s), sonioxOptions,
                combineHeaders E h (headers options)), s0)
      end
  end.
Proof.
  unfold Part003.prepare. unfold_monad. simpl.
  destruct (parseProviderOptions (providerOptions options)) as [e|so];
    simpl; [reflexivity|].
  destruct (config_headers E (world s)) as [e|h]; reflexivity.
Qed.

Lemma part003_start_job_eq (sonioxOptions : option SonioxOptions)
  (requestHeaders : Headers) (s : State W) :
  Part003.start_job E options sonioxOptions requestHeaders s =
  match audio_blob E (audio options) with
  | inl e => (Throw e, s)
  | inr blob =>
      let upload := part003_upload_request E options requestHeaders blob in
      let (r1, w1) := postFormDataToApi E upload (world s) in
      let s1 := after_call s w1 (CallUpload upload) in
      match r1 with
      | inl e => (Throw e, s1)
      | inr uploadResponse =>
          let fileId := upload_id uploadResponse in
          let submit :=
            part003_submit_request E options sonioxOptions requestHeaders
              fileId in
          let (r2, w2) := postJsonToApi E submit w1 in
          let s2 := after_call (with_fileId s1 (Some fileId)) w2
                      (CallSubmit submit) in
          match r2 with
          | inl e => (Throw e, s2)
          | inr submitResponse =>
              (Ret (create_id submitResponse, polling_interval E,
                    Date_now E w2),
               with_statusResponse
                 (with_transcriptionId s2 (Some (create_id submitResponse)))
                 None)
          end
      end
  end.
Proof.
  unfold Part003.start_job. unfold_monad.
  destruct (audio_blob E (audio options)) as [e|blob]; simpl;
    [reflexivity|].
  fold (part003_upload_request E options requestHeaders blob).
  destruct (postFormDataToApi E _ (world s)) as [[e|up] w1]; simpl;
    [reflexivity|].
  fold (part003_submit_request E options sonioxOptions requestHeaders
          (upload_id up)).
  destruct (postJsonToApi E _ w1) as [[e|cr] w2]; reflexivity.
Qed.

Lemma part003_fetch_transcript_eq (requestHeaders : Headers) (id : string)
  (currentDate : Z) (s : State W) :
  Part003.fetch_transcript E options requestHeaders id currentDate s =
  let request := part003_transcript_request E options requestHeaders id in
  let (r, w1) := getFromApi_transcript E request (world s) in
  let s1 := after_call s w1 (CallTranscript request) in
  match r with
  | inl e => (Throw e, s1)
  | inr reply =>
      (Ret (result_from E currentDate (var_statusResponse s) reply
              (getLanguageFromTokens
                 (Some (coalesce_or (tokens (value reply)) [])))), s1)
  end.
Proof.
  unfold Part003.fetch_transcript. unfold_monad.
  fold (part003_transcript_request E options requestHeaders id).
  cbv zeta.
  destruct (getFromApi_transcript E _ (world s)) as [[e|reply] w1];
    reflexivity.
Qed.

(** The [try] block when [start_job] throws. *)
Lemma part003_try_block_start_throws (fuel : nat) (currentDate : Z)
  (sonioxOptions : option SonioxOptions) (requestHeaders : Headers)
  (s s1 : State W) (e : JsThrown) :
  Part003.start_job E options sonioxOptions requestHeaders s = (Throw e, s1) ->
  Part003.try_block E fuel options currentDate sonioxOptions requestHeaders s
  = (Throw e, s1).
Proof.
  intros H. unfold Part003.try_block. unfold bind at 1. now rewrite H.
Qed.

End Part003Stages.

(** ** What the poll loop of [part_003] leaves behind *)

Section Part003LoopTrace.

Variable W : Type.
Variable E : Env W.
Variable options : CallOptions.
Variable requestHeaders : Headers.
Variable id : string.
Variable pollingInterval startTime : Z.

Local Abbreviation iteration :=
  (Part003.poll_iteration E options requestHeaders id pollingInterval
     startTime).
Local Abbreviation status_request :=
  (part003_status_request E options requestHeaders id).

Lemma repeat_snoc {A : Type} (x : A) (n : nat) :
  (repeat x n ++ [x])%list = repeat x (S n).
Proof.
  induction n as [|n IH]; simpl; [reflexivity|]. now rewrite IH.
Qed.

(** However the loop ends, it has issued the same status request some
    number of times and nothing else; when it ends normally, the last
    reply had status [completed] and is the one kept in [statusResponse]. *)
Lemma part003_poll_loop_trace (fuel : nat) (s s' : State W)
  (o : Outcome unit) :
  Part003.poll_loop E fuel options requestHeaders id pollingInterval startTime
    s = (o, s') ->
  exists n,
    calls s' = (calls s ++ repeat (CallStatus status_request) n)%list /\
    n <= fuel /\
    warnings s' = warnings s /\
    var_fileId s' = var_fileId s /\
    var_transcriptionId s' = var_transcriptionId s /\
    (o = Ret tt ->
     1 <= n /\
     exists sr w0,
       getFromApi_status E status_request w0 = (inr sr, world s') /\
       var_statusResponse s' = Some sr /\
       status sr = "completed").
Proof.
  revert s. induction fuel as [|fuel IH]; intros s.
  - simpl. intros H. inversion H; subst. exists 0. simpl.
    rewrite app_nil_r. repeat split; auto; congruence.
  - cbn [Part003.poll_loop]. unfold bind.
    destruct (part003_iteration_cases E options startTime s)
      as [Ht|[[Ht Ha]|[Ht Ha]]].
    + rewrite (part003_iteration_timeout E options requestHeaders id
                 pollingInterval startTime _ Ht).
      intros H. inversion H; subst. exists 0. simpl. rewrite app_nil_r.
      repeat split; auto; try lia; congruence.
    + rewrite (part003_iteration_aborted E options requestHeaders id
                 pollingInterval startTime _ Ht Ha).
      intros H. inversion H; subst. exists 0. simpl. rewrite app_nil_r.
      repeat split; auto; try lia; congruence.
    + rewrite (part003_iteration_query E options requestHeaders id
                 pollingInterval startTime _ Ht Ha).
      destruct (getFromApi_status E status_request (world s))
        as [[e|value] w'] eqn:Hget.
      * intros H. inversion H; subst. exists 1. simpl.
        repeat split; auto; try lia; congruence.
      * destruct (String.eqb_spec (status value) "completed") as [Hc|Hc].
        -- intros H. inversion H; subst. exists 1. simpl.
           repeat split; auto; try lia.
           exists value, (world s). repeat split; auto.
        -- destruct (String.eqb (status value) "error").
           ++ intros H. inversion H; subst. exists 1. simpl.
              repeat split; auto; try lia; congruence.
           ++ intros H. apply IH in H.
              destruct H as (n & Hcalls & Hn & Hw & Hf & Htid & Hret).
              exists (S n). cbn [calls warnings var_fileId
                                 var_transcriptionId] in *.
              rewrite Hcalls, <- app_assoc. simpl.
              repeat split; auto; try lia.
              match goal with
              | Ho : o = Ret tt |- _ =>
                  destruct (Hret Ho) as [_ Hlast]; exact Hlast
              end.
Qed.

Lemma part003_after_calls (k : nat) (s s' : State W) :
  part003_after_polls E options requestHeaders id pollingInterval startTime
    k s = Some s' ->
  calls s' = (calls s ++ repeat (CallStatus status_request) k)%list.
Proof.
  revert s. induction k as [|k IH]; intros s.
  - simpl. intros H. inversion H; subst. now rewrite app_nil_r.
  - cbn [part003_after_polls].
    destruct (iteration s) as [[[|]|e|] s1] eqn:Hit; try discriminate.
    intros H. apply IH in H. rewrite H.
    pose proof Hit as Hcont.
    apply part003_iteration_continue in Hcont.
    destruct Hcont as (Ht & Ha & _).
    rewrite (part003_iteration_query E options requestHeaders id
               pollingInterval startTime _ Ht Ha) in Hit.
    destruct (getFromApi_status E status_request (world s))
      as [[e|value] w']; [discriminate|].
    destruct (String.eqb (status value) "completed"); [discriminate|].
    destruct (String.eqb (status value) "error"); [discriminate|].
    inversion Hit; subst. cbn [calls]. rewrite <- app_assoc. reflexivity.
Qed.

End Part003LoopTrace.

(** ** A whole call of [part_003], stage by stage *)

Section Part003Runs.

Variable W : Type.
Variable E : Env W.
Variable options : CallOptions.

(** A returned result determines the whole exchange. *)
Lemma part003_success (fuel : nat) (w : W) (r : TranscriptionResult)
  (st : State W) :
  Part003.doGenerate E fuel options (init_state w) = (Ret r, st) ->
  exists sonioxOptions h blob uploadResponse submitResponse n sr reply
         w0 w1 w2 w3 w4,
    parseProviderOptions (providerOptions options) = inr sonioxOptions /\
    config_headers E w = inr h /\
    audio_blob E (audio options) = inr blob /\
    let requestHeaders := combineHeaders E h (headers options) in
    let fileId := upload_id uploadResponse in
    let id := create_id submitResponse in
    postFormDataToApi E
      (part003_upload_request E options requestHeaders blob) w
    = (inr uploadResponse, w0) /\
    postJsonToApi E
      (part003_submit_request E options sonioxOptions requestHeaders fileId)
      w0
    = (inr submitResponse, w1) /\
    getFromApi_status E
      (part003_status_request E options requestHeaders id) w2
    = (inr sr, w3) /\
    status sr = "completed" /\
    getFromApi_transcript E
      (part003_transcript_request E options requestHeaders id) w3
    = (inr reply, w4) /\
    1 <= n <= fuel /\
    calls st =
      (CallUpload (part003_upload_request E options requestHeaders blob)
       :: CallSubmit (part003_submit_request E options sonioxOptions
                        requestHeaders fileId)
       :: repeat (CallStatus
                    (part003_status_request E options requestHeaders id)) n
       ++ CallTranscript
            (part003_transcript_request E options requestHeaders id)
       :: List.map (delete_call E requestHeaders)
            (created_targets id fileId))%list /\
    r = result_from E (currentDate E w) (Some sr) reply
          (getLanguageFromTokens
             (Some (coalesce_or (tokens (value reply)) []))).
Proof.
  rewrite part003_doGenerate_unfold, part003_prepare_eq.
  cbn [world init_state].
  destruct (parseProviderOptions (providerOptions options)) as [e|so];
    [discriminate|].
  cbv zeta.
  destruct (config_headers E w) as [e|h]; [discriminate|].
  set (rh := combineHeaders E h (headers options)).
  set (s0 := with_transcriptionId (with_fileId (init_state w) None) None).
  unfold Part003.try_block. unfold bind at 1.
  rewrite part003_start_job_eq.
  destruct (audio_blob E (audio options)) as [e|blob].
  { destruct (deletion_failures E rh (cleanup_targets s0) (world s0));
      discriminate. }
  cbv zeta. cbn [world s0 with_transcriptionId with_fileId init_state].
  destruct (postFormDataToApi E (part003_upload_request E options rh blob) w)
    as [[e|up] w0] eqn:Hup.
  { match goal with
    | |- context [deletion_failures E rh ?t ?x] =>
        destruct (deletion_failures E rh t x)
    end; discriminate. }
  destruct (postJsonToApi E
              (part003_submit_request E options so rh (upload_id up)) w0)
    as [[e|cr] w1] eqn:Hsub.
  { match goal with
    | |- context [deletion_failures E rh ?t ?x] =>
        destruct (deletion_failures E rh t x)
    end; discriminate. }
  unfold bind at 1.
  match goal with
  | |- context [Part003.poll_loop E fuel options rh ?i ?p ?t ?s] =>
      destruct (Part003.poll_loop E fuel options rh i p t s)
        as [o2 s2] eqn:Hloop
  end.
  apply part003_poll_loop_trace in Hloop.
  destruct Hloop as (n & Hcalls & Hn & Hw & Hfid & Htid & Hret).
  cbn [calls warnings var_fileId var_transcriptionId with_statusResponse
       with_transcriptionId after_call with_fileId init_state] in *.
  destruct o2 as [[]|e|].
  2:{ match goal with
      | |- context [deletion_failures E rh ?t ?x] =>
          destruct (deletion_failures E rh t x)
      end; discriminate. }
  2:{ discriminate. }
  destruct (Hret eq_refl) as (Hn1 & sr & w2 & Hget & Hsr & Hdone).
  rewrite part003_fetch_transcript_eq. cbv zeta.
  destruct (getFromApi_transcript E
              (part003_transcript_request E options rh (create_id cr))
              (world s2)) as [[e|reply] w4] eqn:Hfetch.
  { match goal with
    | |- context [deletion_failures E rh ?t ?x] =>
        destruct (deletion_failures E rh t x)
    end; discriminate. }
  assert (Htargets :
    cleanup_targets
      (after_call s2 w4
         (CallTranscript
            (part003_transcript_request E options rh (create_id cr))))
    = created_targets (create_id cr) (upload_id up)).
  { unfold cleanup_targets, created_targets. cbn [var_fileId
      var_transcriptionId after_call]. rewrite Hfid, Htid. reflexivity. }
  rewrite Htargets.
  match goal with
  | |- context [deletion_failures E rh ?t ?x] =>
      destruct (deletion_failures E rh t x) as [failures w5]
  end.
  intros H. inversion H; subst r st. clear H.
  exists so, h, blob, up, cr, n, sr, reply, w0, w1, w2, (world s2), w4.
  fold rh. cbv zeta.
  repeat (split; [assumption || reflexivity || lia|]).
  split.
  - cbn [calls after_call]. rewrite Hcalls. simpl.
    rewrite <- !app_assoc. reflexivity.
  - rewrite Hsr. reflexivity.
Qed.

End Part003Runs.

(** ** The stages of [soniox-transcription-model.ts] as equations *)

Section ModelStages.

Variable W : Type.
Variable E : Env W.
Variable options : CallOptions.

Lemma model_start_job_eq (s : State W) :
  Model.start_job E options s =
  match parseProviderOptions (providerOptions options) with
  | inl e => (Throw e, s)
  | inr sonioxOptions =>
      let audioUrl := option_field audioUrl sonioxOptions in
      let fileIdOverride := option_field fileId sonioxOptions in
      if truthy_opt audioUrl && truthy_opt fileIdOverride
      then (Throw model_configuration_error, s)
      else
        let s0 := with_fileId s fileIdOverride in
        if negb (truthy_opt audioUrl) && negb (truthy_opt fileIdOverride)
        then
          match audio_blob E (audio options) with
          | inl e => (Throw e, s0)
          | inr blob =>
              match config_headers E (world s) with
              | inl e => (Throw e, s0)
              | inr h =>
                  let upload := model_upload_request E options h blob in
                  let (r, w1) := postFormDataToApi E upload (world s) in
                  let s1 := after_call s0 w1 (CallUpload upload) in
                  match r with
                  | inl e => (Throw e, s1)
                  | inr uploadResponse =>
                      model_submit_stage E options (currentDate E (world s))
                        sonioxOptions audioUrl
                        (Some (upload_id uploadResponse))
                        (with_fileId s1 (Some (upload_id uploadResponse)))
                  end
              end
          end
        else
          model_submit_stage E options (currentDate E (world s))
            sonioxOptions audioUrl fileIdOverride s0
  end.
Proof.
  unfold Model.start_job, Model.upload, Model.submit, model_submit_stage,
    model_upload_request, model_submit_request, after_call, with_fileId.
  unfold_monad. simpl.
  destruct (parseProviderOptions (providerOptions options)) as [e|so];
    [reflexivity|].
  simpl.
  destruct (truthy_opt (option_field audioUrl so)
            && truthy_opt (option_field fileId so)); [reflexivity|].
  destruct (negb (truthy_opt (option_field audioUrl so))
            && negb (truthy_opt (option_field fileId so))); simpl.
  - destruct (audio_blob E (audio options)) as [e|blob]; [reflexivity|].
    simpl.
    destruct (config_headers E (world s)) as [e|h]; [reflexivity|].
    simpl.
    match goal with
    | |- context [postFormDataToApi E ?r (world s)] =>
        destruct (postFormDataToApi E r (world s)) as [[e|up] w1]
    end; [reflexivity|].
    simpl.
    destruct (config_headers E w1) as [e|h1]; [reflexivity|].
    simpl.
    match goal with
    | |- context [postJsonToApi E ?r w1] =>
        destruct (postJsonToApi E r w1) as [[e|cr] w2]
    end; reflexivity.
  - destruct (config_headers E (world s)) as [e|h]; [reflexivity|].
    simpl.
    match goal with
    | |- context [postJsonToApi E ?r (world s)] =>
        destruct (postJsonToApi E r (world s)) as [[e|cr] w2]
    end; reflexivity.
Qed.

Lemma model_fetch_transcript_eq (id : string) (currentDate : Z)
  (s : State W) :
  Model.fetch_transcript E options id currentDate s =
  match config_headers E (world s) with
  | inl e => (Throw e, s)
  | inr h =>
      let request := model_transcript_request E options h id in
      let (r, w1) := getFromApi_transcript E request (world s) in
      let s1 := after_call s w1 (CallTranscript request) in
      match r with
      | inl e => (Throw e, s1)
      | inr reply =>
          (Ret (result_from E currentDate (var_statusResponse s) reply None),
           s1)
      end
  end.
Proof.
  unfold Model.fetch_transcript. unfold_monad.
  destruct (config_headers E (world s)) as [e|h]; [reflexivity|].
  fold (model_transcript_request E options h id). cbv zeta.
  destruct (getFromApi_transcript E (model_transcript_request E options h id)
              (world s)) as [[e|reply] w1]; reflexivity.
Qed.

End ModelStages.

(** ** What the poll loop of [soniox-transcription-model.ts] leaves behind *)

Section ModelLoopTrace.

Variable W : Type.
Variable E : Env W.
Variable options : CallOptions.
Variable id : string.
Variable pollingInterval : Z.

Lemma model_poll_loop_trace (fuel : nat) (s s' : State W) (o : Outcome unit) :
  Model.poll_loop E fuel options id pollingInterval s = (o, s') ->
  exists cs,
    calls s' = (calls s ++ cs)%list /\
    List.length cs <= fuel /\
    Forall (fun c => exists h,
                c = CallStatus (model_status_request E options h id)) cs /\
    warnings s' = warnings s /\
    var_fileId s' = var_fileId s /\
    (o = Ret tt ->
     cs <> [] /\
     exists sr h w0,
       In (CallStatus (model_status_request E options h id)) cs /\
       getFromApi_status E (model_status_request E options h id) w0
       = (inr sr, world s') /\
       var_statusResponse s' = Some sr /\
       status sr = "completed").
Proof.
  revert s. induction fuel as [|fuel IH]; intros s.
  - simpl. intros H. inversion H; subst. exists []. simpl.
    rewrite app_nil_r. repeat split; auto; congruence.
  - cbn [Model.poll_loop]. unfold bind.
    destruct (options_aborted E options (world s)) eqn:Ha.
    + rewrite (model_iteration_aborted E options id pollingInterval _ Ha).
      intros H. inversion H; subst. exists []. simpl. rewrite app_nil_r.
      repeat split; auto; try lia; congruence.
    + rewrite (model_iteration_query E options id pollingInterval _ Ha).
      destruct (config_headers E (world s)) as [e|h].
      { intros H. inversion H; subst. exists []. simpl. rewrite app_nil_r.
        repeat split; auto; try lia; congruence. }
      cbv zeta.
      destruct (getFromApi_status E (model_status_request E options h id)
                  (world s)) as [[e|value] w'] eqn:Hget.
      * intros H. inversion H; subst. eexists [_]. simpl.
        repeat split; eauto; try lia; congruence.
      * destruct (String.eqb_spec (status value) "completed") as [Hc|Hc].
        -- intros H. inversion H; subst. eexists [_]. simpl.
           repeat split; eauto; try lia; try congruence.
           exists value, h, (world s). repeat split; auto.
        -- destruct (String.eqb (status value) "error").
           ++ intros H. inversion H; subst. eexists [_]. simpl.
              repeat split; eauto; try lia; congruence.
           ++ intros H. apply IH in H.
              destruct H as (cs & Hcalls & Hn & Hall & Hw & Hf & Hret).
              exists (CallStatus (model_status_request E options h id) :: cs).
              cbn [calls warnings var_fileId] in *.
              rewrite Hcalls, <- app_assoc. simpl.
              repeat split; eauto; try lia; try congruence.
              match goal with
              | Ho : o = Ret tt |- _ =>
                  destruct (Hret Ho)
                    as [_ (sr & h0 & w0 & Hin & Hlast)];
                  exists sr, h0, w0; split; [now right|exact Hlast]
              end.
Qed.

End ModelLoopTrace.

Section ModelRuns.

Variable W : Type.
Variable E : Env W.
Variable options : CallOptions.

(** A returned result of [soniox-transcription-model.ts]: what was
    requested and what the result was built from. *)
Lemma model_success (fuel : nat) (w : W) (r : TranscriptionResult)
  (st : State W) :
  Model.doGenerate E fuel options (init_state w) = (Ret r, st) ->
  exists id pollingInterval s1 cs sr h h' reply w0 w1 w2,
    Model.start_job E options (init_state w)
    = (Ret (currentDate E w, id, pollingInterval), s1) /\
    cs <> [] /\
    List.length cs <= fuel /\
    Forall (fun c => exists h,
                c = CallStatus (model_status_request E options h id)) cs /\
    In (CallStatus (model_status_request E options h id)) cs /\
    getFromApi_status E (model_status_request E options h id) w0
    = (inr sr, w1) /\
    status sr = "completed" /\
    getFromApi_transcript E (model_transcript_request E options h' id) w1
    = (inr reply, w2) /\
    calls st =
      (calls s1 ++ cs
       ++ [CallTranscript (model_transcript_request E options h' id)])%list /\
    warnings st = [] /\
    r = result_from E (currentDate E w) (Some sr) reply None.
Proof.
  rewrite model_doGenerate_unfold.
  destruct (Model.start_job E options (init_state w))
    as [[[[cd id] pi]|e|] s1] eqn:Hstart; try discriminate.
  assert (Hcd : cd = currentDate E w).
  { rewrite model_start_job_eq in Hstart. cbn [world init_state] in Hstart.
    destruct (parseProviderOptions (providerOptions options)) as [e|so];
      [discriminate|].
    cbv zeta in Hstart.
    destruct (truthy_opt (option_field audioUrl so)
              && truthy_opt (option_field fileId so)); [discriminate|].
    unfold model_submit_stage in Hstart.
    destruct (negb (truthy_opt (option_field audioUrl so))
              && negb (truthy_opt (option_field fileId so))).
    - destruct (audio_blob E (audio options)); [discriminate|].
      destruct (config_headers E w); [discriminate|].
      destruct (postFormDataToApi E _ w) as [[e|up] w1]; [discriminate|].
      cbn [world with_fileId after_call] in Hstart.
      destruct (config_headers E w1); [discriminate|].
      cbv zeta in Hstart.
      destruct (postJsonToApi E _ w1) as [[e|cr] w2]; [discriminate|].
      now inversion Hstart.
    - cbn [world with_fileId init_state] in Hstart.
      destruct (config_headers E w); [discriminate|].
      cbv zeta in Hstart.
      destruct (postJsonToApi E _ w) as [[e|cr] w2]; [discriminate|].
      now inversion Hstart. }
  subst cd.
  pose proof Hstart as Hframe. apply model_start_job_frame in Hframe.
  destruct Hframe as (_ & Hw1 & _).
  destruct (Model.poll_loop E fuel options id pi s1) as [[[]|e|] s2] eqn:Hloop;
    try discriminate.
  apply model_poll_loop_trace in Hloop.
  destruct Hloop as (cs & Hcalls & Hlen & Hall & Hw2 & _ & Hret).
  destruct (Hret eq_refl) as (Hne & sr & h & w0 & Hin & Hget & Hsr & Hdone).
  rewrite model_fetch_transcript_eq.
  destruct (config_headers E (world s2)) as [e|h']; [discriminate|].
  cbv zeta.
  destruct (getFromApi_transcript E (model_transcript_request E options h' id)
              (world s2)) as [[e|reply] w2] eqn:Hfetch; [discriminate|].
  intros H. inversion H; subst r st. clear H.
  exists id, pi, s1, cs, sr, h, h', reply, w0, (world s2), w2.
  repeat (split; [assumption || reflexivity|]).
  split; [|split].
  - cbn [calls after_call]. rewrite Hcalls, <- app_assoc. reflexivity.
  - cbn [warnings after_call]. rewrite Hw2, Hw1. reflexivity.
  - rewrite Hsr. reflexivity.
Qed.

End ModelRuns.

(** ** The request sequence of any [part_003] call *)

Section Part003Trace.

Variable W : Type.
Variable E : Env W.
Variable options : CallOptions.

(** Polling and fetching, once the job is submitted. *)
Lemma part003_poll_and_fetch_trace (fuel : nat) (currentDate : Z)
  (requestHeaders : Headers) (id : string) (pollingInterval startTime : Z)
  (s s1 : State W) (o : Outcome TranscriptionResult) :
  bind (Part003.poll_loop E fuel options requestHeaders id pollingInterval
          startTime)
    (fun _ => Part003.fetch_transcript E options requestHeaders id
                currentDate) s = (o, s1) ->
  warnings s1 = warnings s /\
  var_fileId s1 = var_fileId s /\
  var_transcriptionId s1 = var_transcriptionId s /\
  exists n tail,
    n <= fuel /\
    calls s1 =
      (calls s
       ++ repeat (CallStatus
                    (part003_status_request E options requestHeaders id)) n
       ++ tail)%list /\
    (tail = [] \/
     tail = [CallTranscript
               (part003_transcript_request E options requestHeaders id)]).
Proof.
  unfold bind.
  destruct (Part003.poll_loop E fuel options requestHeaders id pollingInterval
              startTime s) as [o2 s2] eqn:Hloop.
  apply part003_poll_loop_trace in Hloop.
  destruct Hloop as (n & Hcalls & Hn & Hw & Hfid & Htid & _).
  destruct o2 as [[]|e|].
  - rewrite part003_fetch_transcript_eq. cbv zeta.
    destruct (getFromApi_transcript E _ (world s2)) as [[e|reply] w3];
      intros H; inversion H; subst;
      cbn [warnings var_fileId var_transcriptionId calls after_call];
      (repeat (split; [assumption|]));
      exists n; eexists; (split; [exact Hn|]);
      (split; [rewrite Hcalls, <- app_assoc; reflexivity|now right]).
  - intros H. inversion H; subst. repeat (split; [assumption|]).
    exists n, []. rewrite app_nil_r. repeat split; auto.
  - intros H. inversion H; subst. repeat (split; [assumption|]).
    exists n, []. rewrite app_nil_r. repeat split; auto.
Qed.

(** What the [try] block has requested when it stops, however it stops. *)
Lemma part003_try_block_trace (fuel : nat) (currentDate : Z)
  (sonioxOptions : option SonioxOptions) (requestHeaders : Headers)
  (s0 s1 : State W) (o : Outcome TranscriptionResult) :
  Part003.try_block E fuel options currentDate sonioxOptions requestHeaders s0
  = (o, s1) ->
  warnings s1 = warnings s0 /\
  ((calls s1 = calls s0 /\ var_fileId s1 = var_fileId s0 /\
    var_transcriptionId s1 = var_transcriptionId s0) \/
   exists blob mid,
     audio_blob E (audio options) = inr blob /\
     calls s1 =
       (calls s0
        ++ CallUpload (part003_upload_request E options requestHeaders blob)
           :: mid)%list /\
     ((mid = [] /\ var_fileId s1 = var_fileId s0 /\
       var_transcriptionId s1 = var_transcriptionId s0) \/
      exists uploadResponse w0 rest,
        postFormDataToApi E
          (part003_upload_request E options requestHeaders blob) (world s0)
        = (inr uploadResponse, w0) /\
        var_fileId s1 = Some (upload_id uploadResponse) /\
        mid = CallSubmit
                (part003_submit_request E options sonioxOptions requestHeaders
                   (upload_id uploadResponse)) :: rest /\
        ((rest = [] /\ var_transcriptionId s1 = var_transcriptionId s0) \/
         exists submitResponse w1 n tail,
           postJsonToApi E
             (part003_submit_request E options sonioxOptions requestHeaders
                (upload_id uploadResponse)) w0
           = (inr submitResponse, w1) /\
           var_transcriptionId s1 = Some (create_id submitResponse) /\
           n <= fuel /\
           rest =
             (repeat (CallStatus
                        (part003_status_request E options requestHeaders
                           (create_id submitResponse))) n ++ tail)%list /\
           (tail = [] \/
            tail = [CallTranscript
                      (part003_transcript_request E options requestHeaders
                         (create_id submitResponse))])))).
Proof.
  unfold Part003.try_block. unfold bind at 1.
  rewrite part003_start_job_eq.
  destruct (audio_blob E (audio options)) as [e|blob].
  { intros H. inversion H; subst. split; [reflexivity|]. left.
    repeat split. }
  cbv zeta.
  destruct (postFormDataToApi E
              (part003_upload_request E options requestHeaders blob)
              (world s0)) as [[e|up] w0] eqn:Hup.
  { intros H. inversion H; subst. split; [reflexivity|]. right.
    exists blob, []. split; [reflexivity|]. split; [reflexivity|].
    left. repeat split. }
  destruct (postJsonToApi E
              (part003_submit_request E options sonioxOptions requestHeaders
                 (upload_id up)) w0) as [[e|cr] w1] eqn:Hsub.
  { intros H. inversion H; subst. split; [reflexivity|]. right.
    exists blob. eexists. split; [reflexivity|].
    split; [cbn [calls after_call with_fileId];
            rewrite <- app_assoc; reflexivity|].
    right. exists up, w0, []. split; [exact Hup|].
    split; [reflexivity|]. split; [reflexivity|].
    left. split; reflexivity. }
  intros H. apply part003_poll_and_fetch_trace in H.
  destruct H as (Hw & Hfid & Htid & n & tail & Hn & Hcalls & Htail).
  cbn [calls warnings var_fileId var_transcriptionId with_statusResponse
       with_transcriptionId after_call with_fileId] in *.
  split; [exact Hw|]. right. exists blob. eexists.
  split; [reflexivity|]. split.
  - rewrite Hcalls. rewrite <- !app_assoc. cbn [List.app]. reflexivity.
  - right. exists up, w0. eexists. split; [exact Hup|].
    split; [exact Hfid|]. split; [reflexivity|].
    right. exists cr, w1, n, tail. repeat split; auto.
Qed.

(** A call either stops before the [try] block, having requested nothing,
    or is the [try] block followed (unless the loop was cut off) by the
    deletions. *)
Lemma part003_run_split (fuel : nat) (w : W)
  (out : Outcome TranscriptionResult) (st : State W) :
  Part003.doGenerate E fuel options (init_state w) = (out, st) ->
  ((exists e, out = Throw e) /\ calls st = [] /\ warnings st = [] /\
   world st = w /\
   (parseProviderOptions (providerOptions options) = inl
      match out with Throw e => e | _ => NonError "" end \/
    config_headers E w = inl
      match out with Throw e => e | _ => NonError "" end)) \/
  exists sonioxOptions h o1 s1,
    parseProviderOptions (providerOptions options) = inr sonioxOptions /\
    config_headers E w = inr h /\
    let requestHeaders := combineHeaders E h (headers options) in
    Part003.try_block E fuel options (currentDate E w) sonioxOptions
      requestHeaders
      (with_transcriptionId (with_fileId (init_state w) None) None)
    = (o1, s1) /\
    out = o1 /\
    ((o1 = Diverge /\ st = s1) \/
     (o1 <> Diverge /\
      calls st = (calls s1 ++ List.map (delete_call E requestHeaders)
                                (cleanup_targets s1))%list /\
      warnings st =
        (warnings s1
         ++ failure_warnings
              (fst (deletion_failures E requestHeaders (cleanup_targets s1)
                      (world s1))))%list /\
      world st = snd (deletion_failures E requestHeaders (cleanup_targets s1)
                        (world s1)))).
Proof.
  rewrite part003_doGenerate_unfold, part003_prepare_eq.
  cbn [world init_state].
  destruct (parseProviderOptions (providerOptions options)) as [e|so].
  { intros H. inversion H; subst. left. split; [now exists e|].
    repeat split. now left. }
  cbv zeta.
  destruct (config_headers E w) as [e|h].
  { intros H. inversion H; subst. left. split; [now exists e|].
    repeat split. now right. }
  set (rh := combineHeaders E h (headers options)).
  match goal with
  | |- context [Part003.try_block E fuel options ?cd so rh ?s] =>
      destruct (Part003.try_block E fuel options cd so rh s)
        as [o1 s1] eqn:Htry
  end.
  intros H. right. exists so, h, o1, s1.
  split; [reflexivity|]. split; [reflexivity|]. cbv zeta. fold rh.
  split; [exact Htry|].
  destruct (deletion_failures E rh (cleanup_targets s1) (world s1))
    as [failures w'].
  destruct o1 as [r|e|]; inversion H; subst; (split; [reflexivity|]).
  - right. split; [discriminate|]. repeat split.
  - right. split; [discriminate|]. repeat split.
  - left. now split.
Qed.

End Part003Trace.

(** ** Leaving the poll loop in turn [k] *)

(** [part_003]: the loop is left by [break] in turn [k]; the call completes
    as the transcript stage does, followed by the deletions. *)
Lemma part003_break_in_turn {W : Type} (E : Env W) (options : CallOptions)
  (w : W) (currentDate pollingInterval startTime : Z)
  (sonioxOptions : option SonioxOptions) (requestHeaders : Headers)
  (id fileId : string) (k : nat) (sk s' s'' : State W)
  (o : Outcome TranscriptionResult) :
  part003_turn_begins E options w currentDate sonioxOptions requestHeaders
    id fileId pollingInterval startTime k sk ->
  Part003.poll_iteration E options requestHeaders id pollingInterval startTime
    sk = (Ret Break, s') ->
  Part003.fetch_transcript E options requestHeaders id currentDate s'
  = (o, s'') ->
  forall fuel,
  exists s3,
    Part003.doGenerate E (k + S fuel) options (init_state w) = (o, s3) /\
    calls s3 = (calls s'' ++ List.map (delete_call E requestHeaders)
                               (created_targets id fileId))%list /\
    warnings s3 =
      failure_warnings
        (fst (deletion_failures E requestHeaders (created_targets id fileId)
                (world s''))) /\
    world s3 = snd (deletion_failures E requestHeaders
                      (created_targets id fileId) (world s'')).
Proof.
  intros (s0 & s1 & Hprep & Hstart & Hfid & Hafter) Hit Hfetch fuel.
  rewrite part003_doGenerate_unfold, Hprep.
  unfold Part003.try_block. unfold bind at 1. rewrite Hstart.
  unfold bind at 1.
  rewrite (part003_loop_unroll E options requestHeaders id pollingInterval
             startTime k (S fuel) _ Hafter).
  cbn [Part003.poll_loop]. unfold bind at 1. rewrite Hit.
  unfold ret. rewrite Hfetch.
  assert (Hws : warnings s'' = []).
  { apply part003_fetch_transcript_spec in Hfetch.
    destruct Hfetch as (_ & Hw3 & _).
    apply part003_iteration_frame in Hit. destruct Hit as (_ & Hw2 & _).
    apply part003_after_frame in Hafter. destruct Hafter as (Hw1 & _).
    apply part003_start_job_spec in Hstart. destruct Hstart as (_ & Hw0 & _).
    apply part003_prepare_spec in Hprep. destruct Hprep as (_ & _ & Hwp & _).
    rewrite Hw3, Hw2, Hw1, Hw0, Hwp. reflexivity. }
  assert (Htargets : cleanup_targets s'' = created_targets id fileId).
  { pose proof Hfetch as Hf. apply part003_fetch_transcript_spec in Hf.
    destruct Hf as (_ & _ & Hf3 & Ht3 & _).
    pose proof Hit as Hi. apply part003_iteration_frame in Hi.
    destruct Hi as (_ & _ & Hf2 & Ht2 & _).
    pose proof Hafter as Ha. apply part003_after_frame in Ha.
    destruct Ha as (_ & Hf1 & Ht1 & _).
    pose proof Hstart as Hs. apply part003_start_job_spec in Hs.
    destruct Hs as (_ & _ & _ & Hret).
    destruct (Hret _ _ _ eq_refl) as (_ & fid' & _ & Hfid' & Htid & _).
    unfold cleanup_targets, created_targets.
    rewrite Hf3, Ht3, Hf2, Ht2, Hf1, Ht1, Hfid, Htid. reflexivity. }
  assert (Hnd : o <> Diverge).
  { apply part003_fetch_transcript_spec in Hfetch. tauto. }
  rewrite Htargets.
  destruct (deletion_failures E requestHeaders (created_targets id fileId)
              (world s'')) as [failures w5].
  destruct o as [r|e|]; [| |now elim Hnd];
    (eexists; split; [reflexivity|]);
    cbn [calls warnings world fst snd]; rewrite Hws; repeat split.
Qed.

(** [soniox-transcription-model.ts]: the same, without deletions. *)
Lemma model_break_in_turn {W : Type} (E : Env W) (options : CallOptions)
  (w : W) (currentDate pollingInterval : Z) (id : string) (k : nat)
  (sk s' : State W) :
  model_turn_begins E options w currentDate id pollingInterval k sk ->
  Model.poll_iteration E options id pollingInterval sk = (Ret Break, s') ->
  forall fuel,
    Model.doGenerate E (k + S fuel) options (init_state w)
    = Model.fetch_transcript E options id currentDate s'.
Proof.
  intros (s1 & Hstart & Hafter) Hit fuel.
  rewrite model_doGenerate_unfold, Hstart.
  rewrite (model_loop_unroll E options id pollingInterval k (S fuel) _ Hafter).
  cbn [Model.poll_loop]. unfold bind at 1. rewrite Hit. reflexivity.
Qed.

(** The requests sent before turn [k] of [part_003]'s poll loop begins. *)
Lemma part003_turn_calls {W : Type} (E : Env W) (options : CallOptions)
  (w : W) (currentDate pollingInterval startTime : Z)
  (sonioxOptions : option SonioxOptions) (requestHeaders : Headers)
  (id fileId : string) (k : nat) (sk : State W) :
  part003_turn_begins E options w currentDate sonioxOptions requestHeaders
    id fileId pollingInterval startTime k sk ->
  exists blob,
    audio_blob E (audio options) = inr blob /\
    calls sk =
      (CallUpload (part003_upload_request E options requestHeaders blob)
       :: CallSubmit (part003_submit_request E options sonioxOptions
                        requestHeaders fileId)
       :: repeat (CallStatus
                    (part003_status_request E options requestHeaders id)) k)
      %list /\
    warnings sk = [].
Proof.
  intros (s0 & s1 & Hprep & Hstart & Hfid & Hafter).
  pose proof (@part003_after_calls _ E options requestHeaders id
                pollingInterval startTime k s1 sk Hafter) as Hcalls.
  apply part003_after_frame in Hafter. destruct Hafter as (Hws & _).
  rewrite part003_prepare_eq in Hprep.
  destruct (parseProviderOptions (providerOptions options)) as [e|so];
    [discriminate|].
  cbv zeta in Hprep. cbn [world init_state] in Hprep.
  destruct (config_headers E w) as [e|h]; [discriminate|].
  inversion Hprep; subst; clear Hprep.
  rewrite part003_start_job_eq in Hstart.
  destruct (audio_blob E (audio options)) as [e|blob]; [discriminate|].
  exists blob. split; [reflexivity|].
  cbv zeta in Hstart.
  destruct (postFormDataToApi E _ _) as [[e|up] w1]; [discriminate|].
  destruct (postJsonToApi E _ _) as [[e|sub] w2]; [discriminate|].
  inversion Hstart; subst; clear Hstart.
  cbn in Hfid. inversion Hfid; subst.
  rewrite Hcalls, Hws. split; reflexivity.
Qed.

(** ** Rejected requests *)

(** X1.  [part_003]: when the upload request is rejected, [doGenerate]
    throws that error; the upload is the only request of the call, so
    nothing is deleted and no warning is recorded. *)
Theorem part003_rejected_upload_deletes_nothing :
  forall (W : Type) (E : Env W) (options : CallOptions) (w w1 : W)
         (sonioxOptions : option SonioxOptions) (h : Headers)
         (blob : list Byte.byte) (e : JsThrown) (fuel : nat),
    parseProviderOptions (providerOptions options) = inr sonioxOptions ->
    config_headers E w = inr h ->
    audio_blob E (audio options) = inr blob ->
    postFormDataToApi E
      (part003_upload_request E options
         (combineHeaders E h (headers options)) blob) w
    = (inl e, w1) ->
    exists st,
      Part003.doGenerate E fuel options (init_state w) = (Throw e, st) /\
      calls st =
        [CallUpload (part003_upload_request E options
                       (combineHeaders E h (headers options)) blob)] /\
      warnings st = [] /\
      world st = w1.
Proof.
  intros W E options w w1 so h blob e fuel Hparse Hh Hblob Hup.
  rewrite part003_doGenerate_unfold, part003_prepare_eq, Hparse.
  cbv zeta. cbn [world init_state]. rewrite Hh.
  rewrite (@part003_try_block_start_throws _ E options fuel (currentDate E w) so
             (combineHeaders E h (headers options)) _
             (after_call
                (with_transcriptionId (with_fileId (init_state w) None) None)
                w1 (CallUpload
                      (part003_upload_request E options
                         (combineHeaders E h (headers options)) blob))) e).
  - eexists. split; [reflexivity|]. repeat split.
  - rewrite part003_start_job_eq, Hblob. cbv zeta.
    cbn [world with_transcriptionId with_fileId init_state].
    rewrite Hup. reflexivity.
Qed.

(** The upload endpoint is down. *)
Lemma part003_rejected_upload_deletes_nothing_witness :
  exists st,
    Part003.doGenerate Faults.no_upload 5 Runs.plain_call
      (init_state Scenario.happy)
    = (Throw Faults.unavailable, st) /\
    calls st =
      [CallUpload (part003_upload_request Faults.no_upload Runs.plain_call
                     Runs.test_headers [])] /\
    warnings st = [] /\
    world st = Scenario.happy.
Proof.
  exact (@part003_rejected_upload_deletes_nothing _ Faults.no_upload
           Runs.plain_call Scenario.happy Scenario.happy None
           Runs.test_headers [] Faults.unavailable 5
           eq_refl eq_refl eq_refl eq_refl).
Defined.

(** X2.  [part_003]: when the upload succeeded and the submission is
    rejected, [doGenerate] throws that error after deleting the uploaded
    file (if its id is not empty), and only the file: no transcription was
    created, so none is deleted.  No status or transcript request is
    made. *)
Theorem part003_rejected_submission_deletes_the_file :
  forall (W : Type) (E : Env W) (options : CallOptions) (w w1 w2 : W)
         (sonioxOptions : option SonioxOptions) (h : Headers)
         (blob : list Byte.byte) (uploadResponse : UploadResponse)
         (e : JsThrown) (fuel : nat),
    parseProviderOptions (providerOptions options) = inr sonioxOptions ->
    config_headers E w = inr h ->
    audio_blob E (audio options) = inr blob ->
    let requestHeaders := combineHeaders E h (headers options) in
    let fileId := upload_id uploadResponse in
    let submit :=
      part003_submit_request E options sonioxOptions requestHeaders fileId in
    let targets :=
      if truthy fileId then [("/v1/files/" ++ fileId, "file " ++ fileId)]
      else [] in
    postFormDataToApi E
      (part003_upload_request E options requestHeaders blob) w
    = (inr uploadResponse, w1) ->
    postJsonToApi E submit w1 = (inl e, w2) ->
    exists st,
      Part003.doGenerate E fuel options (init_state w) = (Throw e, st) /\
      calls st =
        (CallUpload (part003_upload_request E options requestHeaders blob)
         :: CallSubmit submit
         :: List.map (delete_call E requestHeaders) targets)%list /\
      warnings st =
        failure_warnings (fst (deletion_failures E requestHeaders targets w2)) /\
      world st = snd (deletion_failures E requestHeaders targets w2).
Proof.
  intros W E options w w1 w2 so h blob up e fuel Hparse Hh Hblob rh fid submit
         targets Hup Hsub.
  rewrite part003_doGenerate_unfold, part003_prepare_eq, Hparse.
  cbv zeta. cbn [world init_state]. rewrite Hh. fold rh.
  rewrite (@part003_try_block_start_throws _ E options fuel (currentDate E w)
             so rh _
             (after_call
                (with_fileId
                   (after_call
                      (with_transcriptionId (with_fileId (init_state w) None)
                         None)
                      w1 (CallUpload
                            (part003_upload_request E options rh blob)))
                   (Some fid))
                w2 (CallSubmit submit)) e).
  - cbn [cleanup_targets after_call with_fileId with_transcriptionId
           init_state var_transcriptionId var_fileId world calls warnings
           List.app].
    fold targets.
    destruct (deletion_failures E rh targets w2) as [failures w3].
    eexists. split; [reflexivity|]. repeat split.
  - rewrite part003_start_job_eq, Hblob. cbv zeta.
    cbn [world with_transcriptionId with_fileId init_state].
    rewrite Hup. cbn [world with_transcriptionId with_fileId after_call].
    fold fid. fold submit. rewrite Hsub. reflexivity.
Qed.

(** The submission endpoint is down; the file [file-123] is deleted. *)
Lemma part003_rejected_submission_deletes_the_file_witness :
  exists st,
    Part003.doGenerate Faults.no_submission 5 Runs.plain_call
      (init_state Scenario.happy)
    = (Throw Faults.unavailable, st) /\
    calls st =
      [CallUpload (part003_upload_request Faults.no_submission Runs.plain_call
                     Runs.test_headers []);
       CallSubmit (part003_submit_request Faults.no_submission Runs.plain_call
                     None Runs.test_headers "file-123");
       delete_file_call Faults.no_submission Runs.test_headers "file-123"] /\
    warnings st = [] /\
    world st = Scenario.happy.
Proof.
  exact (@part003_rejected_submission_deletes_the_file _ Faults.no_submission
           Runs.plain_call Scenario.happy Scenario.happy Scenario.happy None
           Runs.test_headers [] {| upload_id := "file-123" |}
           Faults.unavailable 5 eq_refl eq_refl eq_refl eq_refl eq_refl).
Defined.

(** X3.  [part_003]: a rejected status request is not retried.  When the
    status request of turn [k] is rejected, [doGenerate] throws that error;
    the call has sent the upload, the submission and [k + 1] status
    requests, no transcript request, and then the deletions of the
    transcription and of the file. *)
Theorem part003_rejected_status_request_is_not_retried :
  forall (W : Type) (E : Env W) (options : CallOptions) (w w' : W) (k : nat)
         (currentDate : Z) (sonioxOptions : option SonioxOptions)
         (requestHeaders : Headers) (id fileId : string)
         (pollingInterval startTime : Z) (sk : State W) (e : JsThrown),
    part003_turn_begins E options w currentDate sonioxOptions requestHeaders
      id fileId pollingInterval startTime k sk ->
    (Date_now E (world sk) - startTime <= Part003.timeoutMs)%Z ->
    options_aborted E options (world sk) = false ->
    getFromApi_status E (part003_status_request E options requestHeaders id)
      (world sk)
    = (inl e, w') ->
    forall fuel,
    exists st blob,
      Part003.doGenerate E (k + S fuel) options (init_state w)
      = (Throw e, st) /\
      audio_blob E (audio options) = inr blob /\
      calls st =
        (CallUpload (part003_upload_request E options requestHeaders blob)
         :: CallSubmit (part003_submit_request E options sonioxOptions
                          requestHeaders fileId)
         :: repeat (CallStatus
                      (part003_status_request E options requestHeaders id))
              (S k)
         ++ List.map (delete_call E requestHeaders)
              (created_targets id fileId))%list /\
      world st = snd (deletion_failures E requestHeaders
                        (created_targets id fileId) w').
Proof.
  intros W E options w w' k cd so rh id fid pi start sk e Hturn Hin Hab Hget
         fuel.
  destruct (part003_turn_calls Hturn) as (blob & Hblob & Hcalls & Hws).
  destruct Hturn as (s0 & s1 & Hprep & Hstart & Hfid & Hafter).
  pose proof (@part003_iteration_query _ E options rh id pi start sk
                Hin Hab) as Hit.
  rewrite Hget in Hit.
  destruct (@part003_throw_in_turn _ E options (init_state w) s0 s1 sk _
              cd pi start so rh id k _ Hprep Hstart Hafter Hit fuel)
    as (s3 & fid' & Hrun & Hfid' & _ & Hc3 & Hw3 & _).
  assert (fid' = fid) by congruence. subst fid'.
  exists s3, blob. split; [exact Hrun|]. split; [exact Hblob|].
  split; [|exact Hw3].
  rewrite Hc3. cbn [calls]. rewrite Hcalls.
  rewrite <- repeat_snoc. cbn [List.app]. rewrite <- !app_assoc.
  reflexivity.
Qed.

(** The first status request is answered [queued], the second is
    rejected. *)
Lemma part003_rejected_status_request_is_not_retried_witness :
  exists st blob,
    Part003.doGenerate Faults.no_status 5 Runs.plain_call
      (init_state Faults.one_answer)
    = (Throw Faults.unavailable, st) /\
    audio_blob Faults.no_status (audio Runs.plain_call) = inr blob /\
    calls st =
      (CallUpload (part003_upload_request Faults.no_status Runs.plain_call
                     Runs.test_headers blob)
       :: CallSubmit (part003_submit_request Faults.no_status Runs.plain_call
                        None Runs.test_headers "file-123")
       :: repeat (CallStatus
                    (part003_status_request Faults.no_status Runs.plain_call
                       Runs.test_headers "transcription-123")) 2
       ++ List.map (delete_call Faults.no_status Runs.test_headers)
            (created_targets "transcription-123" "file-123"))%list /\
    world st = snd (deletion_failures Faults.no_status Runs.test_headers
                      (created_targets "transcription-123" "file-123")
                      (world Faults.no_status_part003_turn1)).
Proof.
  apply (@part003_rejected_status_request_is_not_retried _ Faults.no_status
           Runs.plain_call Faults.one_answer
           (world Faults.no_status_part003_turn1) 1 0%Z None
           Runs.test_headers "transcription-123" "file-123" 1000%Z 0%Z
           Faults.no_status_part003_turn1 Faults.unavailable).
  - unfold part003_turn_begins. do 2 eexists.
    split; [lazy; reflexivity|]. split; [lazy; reflexivity|].
    split; lazy; reflexivity.
  - vm_compute. discriminate.
  - reflexivity.
  - reflexivity.
Defined.

(** X4.  [soniox-transcription-model.ts]: a rejected status request is not
    retried either.  When the status request of turn [k] is rejected,
    [doGenerate] throws that error and the rejected request is the last
    request of the call: no transcript request is made. *)
Theorem model_rejected_status_request_is_not_retried :
  forall (W : Type) (E : Env W) (options : CallOptions) (w w' : W) (k : nat)
         (currentDate : Z) (id : string) (pollingInterval : Z) (sk : State W)
         (h : Headers) (e : JsThrown),
    model_turn_begins E options w currentDate id pollingInterval k sk ->
    options_aborted E options (world sk) = false ->
    config_headers E (world sk) = inr h ->
    getFromApi_status E (model_status_request E options h id) (world sk)
    = (inl e, w') ->
    forall fuel,
    exists st,
      Model.doGenerate E (k + S fuel) options (init_state w) = (Throw e, st) /\
      calls st =
        (calls sk ++ [CallStatus (model_status_request E options h id)])%list /\
      world st = w' /\
      forallb (fun c => negb (is_transcript c)) (calls st) = true.
Proof.
  intros W E options w w' k cd id pi sk h e Hturn Hab Hcfg Hget fuel.
  pose proof (model_turn_no_transcript Hturn) as Hnone.
  destruct Hturn as (s1 & Hstart & Hafter).
  pose proof (@model_iteration_query _ E options id pi sk Hab) as Hit.
  rewrite Hcfg in Hit. cbv zeta in Hit. rewrite Hget in Hit.
  eexists. split.
  - exact (@model_throw_in_turn _ E options (init_state w) s1 sk _ cd pi id
             k _ Hstart Hafter Hit fuel).
  - cbn [calls world]. repeat split.
    rewrite forallb_app, Hnone. reflexivity.
Qed.

(** The first status request is answered [queued], the second is
    rejected. *)
Lemma model_rejected_status_request_is_not_retried_witness :
  exists st,
    Model.doGenerate Faults.no_status 5 Runs.plain_call
      (init_state Faults.one_answer)
    = (Throw Faults.unavailable, st) /\
    calls st =
      (calls Faults.no_status_model_turn1
       ++ [CallStatus (model_status_request Faults.no_status Runs.plain_call
                         Runs.test_headers "transcription-123")])%list /\
    world st = world Faults.no_status_model_turn1 /\
    forallb (fun c => negb (is_transcript c)) (calls st) = true.
Proof.
  apply (@model_rejected_status_request_is_not_retried _ Faults.no_status
           Runs.plain_call Faults.one_answer
           (world Faults.no_status_model_turn1) 1 0%Z "transcription-123"
           1000%Z Faults.no_status_model_turn1 Runs.test_headers
           Faults.unavailable).
  - unfold model_turn_begins. eexists. split; lazy; reflexivity.
  - reflexivity.
  - reflexivity.
  - reflexivity.
Defined.

(** X5.  [part_003]: when the job has completed and the transcript request
    is rejected, [doGenerate] throws that error, and the transcription and
    the file are deleted all the same: the deletions follow the rejected
    transcript request. *)
Theorem part003_rejected_transcript_request_still_cleans_up :
  forall (W : Type) (E : Env W) (options : CallOptions) (w w' w'' : W)
         (k : nat) (currentDate : Z) (sonioxOptions : option SonioxOptions)
         (requestHeaders : Headers) (id fileId : string)
         (pollingInterval startTime : Z) (sk : State W)
         (value : StatusResponse) (e : JsThrown),
    part003_turn_begins E options w currentDate sonioxOptions requestHeaders
      id fileId pollingInterval startTime k sk ->
    (Date_now E (world sk) - startTime <= Part003.timeoutMs)%Z ->
    options_aborted E options (world sk) = false ->
    getFromApi_status E (part003_status_request E options requestHeaders id)
      (world sk)
    = (inr value, w') ->
    status value = "completed" ->
    getFromApi_transcript E
      (part003_transcript_request E options requestHeaders id) w'
    = (inl e, w'') ->
    forall fuel,
    exists st,
      Part003.doGenerate E (k + S fuel) options (init_state w)
      = (Throw e, st) /\
      calls st =
        (calls sk
         ++ CallStatus (part003_status_request E options requestHeaders id)
         :: CallTranscript
              (part003_transcript_request E options requestHeaders id)
         :: List.map (delete_call E requestHeaders)
              (created_targets id fileId))%list /\
      warnings st =
        failure_warnings
          (fst (deletion_failures E requestHeaders (created_targets id fileId)
                  w'')) /\
      world st = snd (deletion_failures E requestHeaders
                        (created_targets id fileId) w'').
Proof.
  intros W E options w w' w'' k cd so rh id fid pi start sk value e Hturn Hin
         Hab Hget Hdone Htr fuel.
  pose proof (@part003_iteration_query _ E options rh id pi start sk
                Hin Hab) as Hit.
  assert (Hc : String.eqb (status value) "completed" = true)
    by (rewrite Hdone; reflexivity).
  rewrite Hget, Hc in Hit. cbv zeta in Hit.
  pose proof (part003_fetch_transcript_eq E options rh id cd
                (after_call (with_statusResponse sk (Some value)) w'
                   (CallStatus (part003_status_request E options rh id))))
    as Hfetch.
  cbv zeta in Hfetch. cbn [world after_call] in Hfetch.
  rewrite Htr in Hfetch.
  destruct (@part003_break_in_turn _ E options w cd pi start so rh id fid k sk
              _ _ _ Hturn Hit Hfetch fuel)
    as (s3 & Hrun & Hc3 & Hw3 & Hwd3).
  exists s3. split; [exact Hrun|]. split; [|split; assumption].
  rewrite Hc3. cbn [calls after_call with_statusResponse].
  rewrite <- !app_assoc. reflexivity.
Qed.

(** The job completes in the third turn; the transcript endpoint is
    down. *)
Lemma part003_rejected_transcript_request_still_cleans_up_witness :
  exists st,
    Part003.doGenerate Faults.no_transcript 5 Runs.plain_call
      (init_state Scenario.happy)
    = (Throw Faults.unavailable, st) /\
    calls st =
      (calls Faults.no_transcript_turn2
       ++ CallStatus (part003_status_request Faults.no_transcript
                        Runs.plain_call Runs.test_headers "transcription-123")
       :: CallTranscript
            (part003_transcript_request Faults.no_transcript Runs.plain_call
               Runs.test_headers "transcription-123")
       :: List.map (delete_call Faults.no_transcript Runs.test_headers)
            (created_targets "transcription-123" "file-123"))%list /\
    warnings st = [] /\
    world st = snd (Scenario.next_status (world Faults.no_transcript_turn2)).
Proof.
  apply (@part003_rejected_transcript_request_still_cleans_up _
           Faults.no_transcript Runs.plain_call Scenario.happy
           (snd (Scenario.next_status (world Faults.no_transcript_turn2)))
           (snd (Scenario.next_status (world Faults.no_transcript_turn2)))
           2 0%Z None Runs.test_headers "transcription-123" "file-123"
           1000%Z 0%Z Faults.no_transcript_turn2 Scenario.completed
           Faults.unavailable).
  - unfold part003_turn_begins. do 2 eexists.
    split; [lazy; reflexivity|]. split; [lazy; reflexivity|].
    split; lazy; reflexivity.
  - vm_compute. discriminate.
  - reflexivity.
  - reflexivity.
  - reflexivity.
  - reflexivity.
Defined.

(** ** Completed jobs *)

(** X6.  [part_003] returns the result of a completed job.  When the status
    request of turn [k] is answered [completed] and the transcript request
    that follows succeeds, [doGenerate] returns (with [k + 1] turns of the
    loop or more) the result built from the transcript reply, the
    [completed] status reply and the date taken when the call began; the
    deletions come after the transcript request. *)
Theorem part003_completed_job_returns_the_result :
  forall (W : Type) (E : Env W) (options : CallOptions) (w w' w'' : W)
         (k : nat) (date : Z) (sonioxOptions : option SonioxOptions)
         (requestHeaders : Headers) (id fileId : string)
         (pollingInterval startTime : Z) (sk : State W)
         (sr : StatusResponse) (reply : TranscriptReply),
    part003_turn_begins E options w date sonioxOptions requestHeaders
      id fileId pollingInterval startTime k sk ->
    (Date_now E (world sk) - startTime <= Part003.timeoutMs)%Z ->
    options_aborted E options (world sk) = false ->
    getFromApi_status E (part003_status_request E options requestHeaders id)
      (world sk)
    = (inr sr, w') ->
    status sr = "completed" ->
    getFromApi_transcript E
      (part003_transcript_request E options requestHeaders id) w'
    = (inr reply, w'') ->
    forall fuel,
    exists st,
      Part003.doGenerate E (k + S fuel) options (init_state w)
      = (Ret (result_from E date (Some sr) reply
                (getLanguageFromTokens
                   (Some (coalesce_or (tokens (value reply)) [])))), st) /\
      date = currentDate E w /\
      calls st =
        (calls sk
         ++ CallStatus (part003_status_request E options requestHeaders id)
         :: CallTranscript
              (part003_transcript_request E options requestHeaders id)
         :: List.map (delete_call E requestHeaders)
              (created_targets id fileId))%list /\
      world st = snd (deletion_failures E requestHeaders
                        (created_targets id fileId) w'').
Proof.
  intros W E options w w' w'' k cd so rh id fid pi start sk sr reply Hturn Hin
         Hab Hget Hdone Htr fuel.
  pose proof (@part003_iteration_query _ E options rh id pi start sk
                Hin Hab) as Hit.
  assert (Hc : String.eqb (status sr) "completed" = true)
    by (rewrite Hdone; reflexivity).
  rewrite Hget, Hc in Hit. cbv zeta in Hit.
  pose proof (part003_fetch_transcript_eq E options rh id cd
                (after_call (with_statusResponse sk (Some sr)) w'
                   (CallStatus (part003_status_request E options rh id))))
    as Hfetch.
  cbv zeta in Hfetch. cbn [world after_call] in Hfetch.
  rewrite Htr in Hfetch.
  destruct (@part003_break_in_turn _ E options w cd pi start so rh id fid k sk
              _ _ _ Hturn Hit Hfetch fuel)
    as (s3 & Hrun & Hc3 & Hw3 & Hwd3).
  exists s3. split; [exact Hrun|]. split; [|split; [|exact Hwd3]].
  - destruct Hturn as (s0 & _ & Hprep & _).
    rewrite part003_prepare_eq in Hprep.
    destruct (parseProviderOptions (providerOptions options));
      [discriminate|].
    cbv zeta in Hprep. cbn [world init_state] in Hprep.
    destruct (config_headers E w); [discriminate|].
    now inversion Hprep.
  - rewrite Hc3. cbn [calls after_call with_statusResponse].
    rewrite <- !app_assoc. reflexivity.
Qed.

(** The test scenario: [queued], [processing], [completed]. *)
Lemma part003_completed_job_returns_the_result_witness :
  exists st,
    Part003.doGenerate Scenario.env 5 Runs.plain_call
      (init_state Scenario.happy)
    = (Ret (result_from Scenario.env 0%Z (Some Scenario.completed)
              Scenario.transcript (Some "en")), st) /\
    0%Z = currentDate Scenario.env Scenario.happy /\
    calls st =
      (calls Faults.happy_part003_turn2
       ++ CallStatus (part003_status_request Scenario.env Runs.plain_call
                        Runs.test_headers "transcription-123")
       :: CallTranscript
            (part003_transcript_request Scenario.env Runs.plain_call
               Runs.test_headers "transcription-123")
       :: List.map (delete_call Scenario.env Runs.test_headers)
            (created_targets "transcription-123" "file-123"))%list /\
    world st = snd (Scenario.next_status (world Faults.happy_part003_turn2)).
Proof.
  apply (@part003_completed_job_returns_the_result _ Scenario.env
           Runs.plain_call Scenario.happy
           (snd (Scenario.next_status (world Faults.happy_part003_turn2)))
           (snd (Scenario.next_status (world Faults.happy_part003_turn2)))
           2 0%Z None Runs.test_headers "transcription-123" "file-123"
           1000%Z 0%Z Faults.happy_part003_turn2 Scenario.completed
           Scenario.transcript).
  - unfold part003_turn_begins. do 2 eexists.
    split; [lazy; reflexivity|]. split; [lazy; reflexivity|].
    split; lazy; reflexivity.
  - vm_compute. discriminate.
  - reflexivity.
  - reflexivity.
  - reflexivity.
  - reflexivity.
Defined.

(** X7.  [soniox-transcription-model.ts] returns the result of a completed
    job.  When the status request of turn [k] is answered [completed], the
    request headers can be built once more and the transcript request
    succeeds, [doGenerate] returns the result built from the transcript
    reply and the [completed] status reply, with no language and no
    warning; the transcript request is the last request of the call. *)
Theorem model_completed_job_returns_the_result :
  forall (W : Type) (E : Env W) (options : CallOptions) (w w' w'' : W)
         (k : nat) (currentDate : Z) (id : string) (pollingInterval : Z)
         (sk : State W) (h h' : Headers) (sr : StatusResponse)
         (reply : TranscriptReply),
    model_turn_begins E options w currentDate id pollingInterval k sk ->
    options_aborted E options (world sk) = false ->
    config_headers E (world sk) = inr h ->
    getFromApi_status E (model_status_request E options h id) (world sk)
    = (inr sr, w') ->
    status sr = "completed" ->
    config_headers E w' = inr h' ->
    getFromApi_transcript E (model_transcript_request E options h' id) w'
    = (inr reply, w'') ->
    forall fuel,
    exists st,
      Model.doGenerate E (k + S fuel) options (init_state w)
      = (Ret (result_from E currentDate (Some sr) reply None), st) /\
      calls st =
        (calls sk
         ++ [CallStatus (model_status_request E options h id);
             CallTranscript (model_transcript_request E options h' id)])%list /\
      warnings st = [] /\
      world st = w''.
Proof.
  intros W E options w w' w'' k cd id pi sk h h' sr reply Hturn Hab Hcfg Hget
         Hdone Hcfg' Htr fuel.
  pose proof (@model_iteration_query _ E options id pi sk Hab) as Hit.
  assert (Hc : String.eqb (status sr) "completed" = true)
    by (rewrite Hdone; reflexivity).
  rewrite Hcfg in Hit. cbv zeta in Hit. rewrite Hget, Hc in Hit.
  rewrite (@model_break_in_turn _ E options w cd pi id k sk _ Hturn Hit fuel).
  rewrite model_fetch_transcript_eq. cbn [world]. rewrite Hcfg'.
  cbv zeta. rewrite Htr.
  eexists. split; [reflexivity|].
  cbn [calls warnings world after_call]. rewrite <- app_assoc.
  split; [reflexivity|]. split; [|reflexivity].
  destruct Hturn as (s1 & Hstart & Hafter).
  apply model_start_job_frame in Hstart. destruct Hstart as (_ & Hw1 & _).
  apply model_after_frame in Hafter. destruct Hafter as (Hwk & _).
  rewrite Hwk, Hw1. reflexivity.
Qed.

(** The test scenario: [queued], [processing], [completed]. *)
Lemma model_completed_job_returns_the_result_witness :
  exists st,
    Model.doGenerate Scenario.env 5 Runs.plain_call (init_state Scenario.happy)
    = (Ret (result_from Scenario.env 0%Z (Some Scenario.completed)
              Scenario.transcript None), st) /\
    calls st =
      (calls Faults.happy_model_turn2
       ++ [CallStatus (model_status_request Scenario.env Runs.plain_call
                         Runs.test_headers "transcription-123");
           CallTranscript
             (model_transcript_request Scenario.env Runs.plain_call
                Runs.test_headers "transcription-123")])%list /\
    warnings st = [] /\
    world st = snd (Scenario.next_status (world Faults.happy_model_turn2)).
Proof.
  apply (@model_completed_job_returns_the_result _ Scenario.env
           Runs.plain_call Scenario.happy
           (snd (Scenario.next_status (world Faults.happy_model_turn2)))
           (snd (Scenario.next_status (world Faults.happy_model_turn2)))
           2 0%Z "transcription-123" 1000%Z Faults.happy_model_turn2
           Runs.test_headers Runs.test_headers Scenario.completed
           Scenario.transcript).
  - unfold model_turn_begins. eexists. split; lazy; reflexivity.
  - reflexivity.
  - reflexivity.
  - reflexivity.
  - reflexivity.
  - reflexivity.
  - reflexivity.
Defined.

(** ** The requests of a call, whatever its outcome *)

(** [part_003]: a call that sends anything starts with the upload; what
    follows is the submission of the uploaded file, status and transcript
    requests, and deletions, all with the request headers built before the
    [try]. *)
Lemma part003_run_requests {W : Type} (E : Env W) (options : CallOptions)
  (fuel : nat) (w : W) (out : Outcome TranscriptionResult) (st : State W) :
  Part003.doGenerate E fuel options (init_state w) = (out, st) ->
  calls st = [] \/
  exists sonioxOptions h blob rest,
    parseProviderOptions (providerOptions options) = inr sonioxOptions /\
    config_headers E w = inr h /\
    audio_blob E (audio options) = inr blob /\
    let requestHeaders := combineHeaders E h (headers options) in
    calls st =
      CallUpload (part003_upload_request E options requestHeaders blob)
      :: rest /\
    Forall
      (fun c =>
         (exists uploadResponse w0,
             postFormDataToApi E
               (part003_upload_request E options requestHeaders blob) w
             = (inr uploadResponse, w0) /\
             c = CallSubmit
                   (part003_submit_request E options sonioxOptions
                      requestHeaders (upload_id uploadResponse))) \/
         (exists id,
             c = CallStatus
                   (part003_status_request E options requestHeaders id)) \/
         (exists id,
             c = CallTranscript
                   (part003_transcript_request E options requestHeaders id)) \/
         (exists target, c = delete_call E requestHeaders target))
      rest.
Proof.
  intros Hrun.
  destruct (part003_run_split E options fuel w Hrun)
    as [(_ & Hc & _)|(so & h & o1 & s1 & Hparse & Hh & Hrest)];
    [left; exact Hc|].
  cbv zeta in Hrest. destruct Hrest as (Htry & _ & Hfin).
  set (rh := combineHeaders E h (headers options)) in *.
  assert (Hdel : exists targets,
             calls st = (calls s1 ++ List.map (delete_call E rh) targets)%list
             /\ (cleanup_targets s1 = [] -> targets = [])).
  { destruct Hfin as [(_ & ->)|(_ & Hc & _)].
    - exists []. rewrite app_nil_r. split; auto.
    - exists (cleanup_targets s1). split; auto. }
  destruct Hdel as (targets & Hcalls & Hnone).
  apply part003_try_block_trace in Htry.
  destruct Htry as (_ & [(Hc1 & Hf1 & Ht1)|(blob & mid & Hblob & Hc1 & Hmid)]).
  - left. rewrite Hcalls, Hc1, Hnone; [reflexivity|].
    unfold cleanup_targets. rewrite Hf1, Ht1. reflexivity.
  - right. exists so, h, blob, (mid ++ List.map (delete_call E rh) targets)%list.
    split; [exact Hparse|]. split; [exact Hh|]. split; [exact Hblob|].
    cbv zeta. fold rh. split.
    + rewrite Hcalls, Hc1. reflexivity.
    + apply Forall_app. split.
      * destruct Hmid as [(-> & _)|(up & w0 & rest & Hup & _ & -> & Hrest)];
          [constructor|].
        constructor; [left; exists up, w0; split; [exact Hup|reflexivity]|].
        destruct Hrest
          as [(-> & _)|(sub & w1 & n & tail & _ & _ & _ & -> & Htail)];
          [constructor|].
        apply Forall_app. split.
        -- apply Forall_forall. intros c Hc. apply repeat_spec in Hc.
           right; left. exists (create_id sub). exact Hc.
        -- destruct Htail as [->| ->]; [constructor|].
           constructor; [|constructor].
           right; right; left. exists (create_id sub). reflexivity.
      * apply Forall_forall. intros c Hc. apply in_map_iff in Hc.
        destruct Hc as (t & <- & _). right; right; right. now exists t.
Qed.

(** [soniox-transcription-model.ts]: every request of a call is one of the
    four API requests, built with the headers [config.headers()] gave when
    the request was made. *)
Lemma model_run_requests {W : Type} (E : Env W) (options : CallOptions)
  (fuel : nat) (w : W) (out : Outcome TranscriptionResult) (st : State W) :
  Model.doGenerate E fuel options (init_state w) = (out, st) ->
  Forall
    (fun c =>
       exists h,
         (exists blob, c = CallUpload (model_upload_request E options h blob))
         \/ (exists body,
                c = CallSubmit (model_submit_request E options h body))
         \/ (exists id, c = CallStatus (model_status_request E options h id))
         \/ (exists id,
                c = CallTranscript (model_transcript_request E options h id)))
    (calls st).
Proof.
  intros Hrun.
  assert (Hstage : forall cd so url fid (s s' : State W) o,
             model_submit_stage E options cd so url fid s = (o, s') ->
             calls s' = calls s \/
             exists h body,
               calls s' =
                 (calls s
                  ++ [CallSubmit (model_submit_request E options h body)])
                 %list).
  { intros cd so url fid s s' o. unfold model_submit_stage.
    destruct (config_headers E (world s)) as [e|h].
    - intros H; inversion H; subst. now left.
    - cbv zeta. destruct (postJsonToApi E _ _) as [[e|sub] w1];
        intros H; inversion H; subst; right; do 2 eexists; reflexivity. }
  rewrite model_doGenerate_unfold in Hrun.
  destruct (Model.start_job E options (init_state w)) as [o1 s1] eqn:Hstart.
  assert (H1 : Forall
                 (fun c =>
                    exists h,
                      (exists blob,
                          c = CallUpload (model_upload_request E options h blob))
                      \/ (exists body,
                             c = CallSubmit
                                   (model_submit_request E options h body))
                      \/ (exists id,
                             c = CallStatus
                                   (model_status_request E options h id))
                      \/ (exists id,
                             c = CallTranscript
                                   (model_transcript_request E options h id)))
                 (calls s1)).
  { rewrite model_start_job_eq in Hstart.
    destruct (parseProviderOptions (providerOptions options)) as [e|so];
      [inversion Hstart; subst; constructor|].
    cbv zeta in Hstart.
    destruct (truthy_opt (option_field audioUrl so)
              && truthy_opt (option_field fileId so));
      [inversion Hstart; subst; constructor|].
    destruct (negb (truthy_opt (option_field audioUrl so))
              && negb (truthy_opt (option_field fileId so))).
    - destruct (audio_blob E (audio options)) as [e|blob];
        [inversion Hstart; subst; constructor|].
      cbn [world init_state] in Hstart.
      destruct (config_headers E w) as [e|h];
        [inversion Hstart; subst; constructor|].
      destruct (postFormDataToApi E _ _) as [[e|up] w1].
      + inversion Hstart; subst. cbn.
        constructor; [|constructor]. exists h. left. now exists blob.
      + apply Hstage in Hstart. cbn in Hstart.
        destruct Hstart as [->|(h' & body & ->)].
        * constructor; [|constructor]. exists h. left. now exists blob.
        * constructor; [exists h; left; now exists blob|].
          constructor; [|constructor]. exists h'. right; left. now exists body.
    - apply Hstage in Hstart. cbn in Hstart.
      destruct Hstart as [->|(h' & body & ->)]; [constructor|].
      constructor; [|constructor]. exists h'. right; left. now exists body. }
  destruct o1 as [[[cd id] pi]|e|]; [|inversion Hrun; subst; exact H1
                                      |inversion Hrun; subst; exact H1].
  destruct (Model.poll_loop E fuel options id pi s1) as [o2 s2] eqn:Hloop.
  apply model_poll_loop_trace in Hloop.
  destruct Hloop as (cs & Hc2 & _ & Hall & _).
  assert (H2 : Forall
                 (fun c =>
                    exists h,
                      (exists blob,
                          c = CallUpload (model_upload_request E options h blob))
                      \/ (exists body,
                             c = CallSubmit
                                   (model_submit_request E options h body))
                      \/ (exists id,
                             c = CallStatus
                                   (model_status_request E options h id))
                      \/ (exists id,
                             c = CallTranscript
                                   (model_transcript_request E options h id)))
                 (calls s2)).
  { rewrite Hc2. apply Forall_app. split; [exact H1|].
    revert Hall. apply Forall_impl. intros c (h & ->).
    exists h. right; right; left. now exists id. }
  destruct o2 as [[]|e|]; [|inversion Hrun; subst; exact H2
                           |inversion Hrun; subst; exact H2].
  rewrite model_fetch_transcript_eq in Hrun.
  destruct (config_headers E (world s2)) as [e|h];
    [inversion Hrun; subst; exact H2|].
  cbv zeta in Hrun.
  destruct (getFromApi_transcript E _ _) as [[e|reply] w3];
    inversion Hrun; subst; cbn [calls after_call];
    (apply Forall_app; split; [exact H2|]);
    (constructor; [|constructor]);
    exists h; right; right; right; now exists id.
Qed.

(** X8.  [part_003] always uploads.  A call that sends any request sends
    the upload first and never a second one; a submission has no
    [audio_url] and its [file_id] is the id the upload returned, whatever
    [audioUrl] and [fileId] the provider options give. *)
Theorem part003_always_uploads_first :
  forall (W : Type) (E : Env W) (options : CallOptions) (fuel : nat) (w : W)
         (out : Outcome TranscriptionResult) (st : State W),
    Part003.doGenerate E fuel options (init_state w) = (out, st) ->
    (calls st = [] \/
     exists h blob rest,
       config_headers E w = inr h /\
       audio_blob E (audio options) = inr blob /\
       calls st =
         CallUpload
           (part003_upload_request E options
              (combineHeaders E h (headers options)) blob) :: rest /\
       forallb (fun c => negb (is_upload c)) rest = true) /\
    (forall r,
        In (CallSubmit r) (calls st) ->
        audio_url (req_body r) = None /\
        exists h blob uploadResponse w0,
          postFormDataToApi E
            (part003_upload_request E options
               (combineHeaders E h (headers options)) blob) w
          = (inr uploadResponse, w0) /\
          file_id (req_body r) = Some (upload_id uploadResponse)).
Proof.
  intros W E options fuel w out st Hrun.
  destruct (part003_run_requests E options fuel w Hrun)
    as [Hnone|(so & h & blob & rest & _ & Hh & Hblob & Hcalls & Hall)].
  - split; [left; exact Hnone|]. rewrite Hnone. intros r [].
  - cbv zeta in Hcalls, Hall. rewrite Forall_forall in Hall. split.
    + right. exists h, blob, rest. repeat split; try assumption.
      apply forallb_forall. intros c Hc.
      destruct (Hall c Hc)
        as [(up & w0 & _ & ->)|[(id & ->)|[(id & ->)|(t & ->)]]];
        reflexivity.
    + intros r Hr. rewrite Hcalls in Hr.
      destruct Hr as [Hr|Hr]; [discriminate|].
      destruct (Hall _ Hr)
        as [(up & w0 & Hup & Heq)|[(id & Heq)|[(id & Heq)|(t & Heq)]]];
        try discriminate.
      inversion Heq; subst. split; [reflexivity|].
      exists h, blob, up, w0. split; [exact Hup|reflexivity].
Qed.

(** A call that names an audio URL: [part_003] uploads all the same. *)
Lemma part003_always_uploads_first_witness :
  (calls (snd Faults.url_only_part003) = [] \/
   exists h blob rest,
     config_headers Scenario.env Scenario.happy = inr h /\
     audio_blob Scenario.env (audio Faults.url_call) = inr blob /\
     calls (snd Faults.url_only_part003) =
       CallUpload
         (part003_upload_request Scenario.env Faults.url_call
            (combineHeaders Scenario.env h (headers Faults.url_call)) blob)
       :: rest /\
     forallb (fun c => negb (is_upload c)) rest = true) /\
  (forall r,
      In (CallSubmit r) (calls (snd Faults.url_only_part003)) ->
      audio_url (req_body r) = None /\
      exists h blob uploadResponse w0,
        postFormDataToApi Scenario.env
          (part003_upload_request Scenario.env Faults.url_call
             (combineHeaders Scenario.env h (headers Faults.url_call)) blob)
          Scenario.happy
        = (inr uploadResponse, w0) /\
        file_id (req_body r) = Some (upload_id uploadResponse)).
Proof.
  exact (@part003_always_uploads_first _ Scenario.env Faults.url_call 5
           Scenario.happy (fst Faults.url_only_part003)
           (snd Faults.url_only_part003) eq_refl).
Defined.

(** X9.  In both revisions every API request of a call (upload,
    submission, status, transcript) carries the caller's abort signal. *)
Theorem requests_carry_the_callers_signal :
  forall (W : Type) (E : Env W) (options : CallOptions) (fuel : nat) (w : W)
         (out : Outcome TranscriptionResult) (st : State W),
    Model.doGenerate E fuel options (init_state w) = (out, st) \/
    Part003.doGenerate E fuel options (init_state w) = (out, st) ->
    forall c, In c (calls st) -> is_fetch c = false ->
              call_signal c = abortSignal options.
Proof.
  intros W E options fuel w out st [Hrun|Hrun] c Hc Hfetch.
  - apply model_run_requests in Hrun. rewrite Forall_forall in Hrun.
    destruct (Hrun c Hc)
      as (h & [(blob & ->)|[(body & ->)|[(id & ->)|(id & ->)]]]);
      reflexivity.
  - destruct (part003_run_requests E options fuel w Hrun)
      as [Hnone|(so & h & blob & rest & _ & _ & _ & Hcalls & Hall)].
    + rewrite Hnone in Hc. destruct Hc.
    + cbv zeta in Hcalls, Hall. rewrite Forall_forall in Hall.
      rewrite Hcalls in Hc. destruct Hc as [<-|Hc]; [reflexivity|].
      destruct (Hall c Hc)
        as [(up & w0 & _ & ->)|[(id & ->)|[(id & ->)|(t & ->)]]];
        try reflexivity.
      discriminate.
Qed.

(** The cancellable call of the scenario, which is cancelled after half a
    second. *)
Lemma requests_carry_the_callers_signal_witness :
  Forall (fun c => is_fetch c = false -> call_signal c = Some 0)
    (calls (snd Faults.early_abort_part003)).
Proof.
  apply Forall_forall.
  apply (@requests_carry_the_callers_signal _ Scenario.env Runs.abortable_call
           5 Runs.early_abort (fst Faults.early_abort_part003)
           (snd Faults.early_abort_part003)).
  right. vm_compute. reflexivity.
Defined.

(** [filteredHeaders] keeps the headers that have a value, in order. *)
Lemma filteredHeaders_spec (hdrs : Headers) (k v : string) :
  In (k, v) (Part003.filteredHeaders hdrs) <-> In (k, Some v) hdrs.
Proof.
  induction hdrs as [|[k' [v'|]] rest IH]; cbn [Part003.filteredHeaders In].
  - tauto.
  - rewrite IH. split; (intros [H|H]; [left|right; exact H]); congruence.
  - rewrite IH. split; [tauto|]. intros [H|H]; [discriminate|exact H].
Qed.

(** X10.  [part_003] builds the request headers once, from what
    [config.headers()] gives when the call begins.  Every API request of the
    call carries exactly these headers, and every deletion is a [DELETE]
    carrying those of them that have a value: the header [k: v] is sent
    with a deletion if and only if the request headers map [k] to [v]. *)
Theorem part003_requests_share_the_headers :
  forall (W : Type) (E : Env W) (options : CallOptions) (fuel : nat) (w : W)
         (out : Outcome TranscriptionResult) (st : State W) (h : Headers),
    Part003.doGenerate E fuel options (init_state w) = (out, st) ->
    config_headers E w = inr h ->
    let requestHeaders := combineHeaders E h (headers options) in
    forall c,
      In c (calls st) ->
      match c with
      | CallUpload r => req_headers r = requestHeaders
      | CallSubmit r => req_headers r = requestHeaders
      | CallStatus r => req_headers r = requestHeaders
      | CallTranscript r => req_headers r = requestHeaders
      | CallFetch _ init =>
          method init = "DELETE" /\
          init_headers init = Part003.filteredHeaders requestHeaders /\
          forall k v, In (k, v) (init_headers init)
                      <-> In (k, Some v) requestHeaders
      end.
Proof.
  intros W E options fuel w out st h Hrun Hh rh c Hc.
  destruct (part003_run_requests E options fuel w Hrun)
    as [Hnone|(so & h' & blob & rest & _ & Hh' & _ & Hcalls & Hall)].
  - rewrite Hnone in Hc. destruct Hc.
  - assert (h' = h) by congruence. subst h'.
    cbv zeta in Hcalls, Hall. fold rh in Hcalls, Hall.
    rewrite Forall_forall in Hall.
    rewrite Hcalls in Hc. destruct Hc as [<-|Hc]; [reflexivity|].
    destruct (Hall c Hc)
      as [(up & w0 & _ & ->)|[(id & ->)|[(id & ->)|(t & ->)]]];
      try reflexivity.
    cbn. split; [reflexivity|]. split; [reflexivity|].
    intros k v. apply filteredHeaders_spec.
Qed.

(** The test scenario, where the only header is the authorization. *)
Lemma part003_requests_share_the_headers_witness :
  Forall
    (fun c =>
       match c with
       | CallUpload r => req_headers r = Runs.test_headers
       | CallSubmit r => req_headers r = Runs.test_headers
       | CallStatus r => req_headers r = Runs.test_headers
       | CallTranscript r => req_headers r = Runs.test_headers
       | CallFetch _ init =>
           method init = "DELETE" /\
           init_headers init = Part003.filteredHeaders Runs.test_headers /\
           forall k v, In (k, v) (init_headers init)
                       <-> In (k, Some v) Runs.test_headers
       end)
    (calls (snd Runs.happy_part003)).
Proof.
  apply Forall_forall.
  apply (@part003_requests_share_the_headers _ Scenario.env Runs.plain_call 5
           Scenario.happy (fst Runs.happy_part003) (snd Runs.happy_part003)
           Runs.test_headers).
  - vm_compute. reflexivity.
  - reflexivity.
Defined.

(** X11.  [part_003] records at most two warnings in a call, one per failed
    deletion; each has type [other] and the message
    [Failed to auto-delete transcription <id>: <error>] or
    [Failed to auto-delete file <id>: <error>]. *)
Theorem part003_warnings_are_deletion_failures :
  forall (W : Type) (E : Env W) (options : CallOptions) (fuel : nat) (w : W)
         (out : Outcome TranscriptionResult) (st : State W),
    Part003.doGenerate E fuel options (init_state w) = (out, st) ->
    List.length (warnings st) <= 2 /\
    Forall
      (fun warning =>
         warning_type warning = "other" /\
         exists kind id e,
           (kind = "transcription " \/ kind = "file ") /\
           warning_message warning
           = "Failed to auto-delete " ++ (kind ++ id) ++ ": "
             ++ thrown_message e)
      (warnings st).
Proof.
  intros W E options fuel w out st Hrun.
  destruct (part003_run_split E options fuel w Hrun)
    as [(_ & _ & Hws & _)|(so & h & o1 & s1 & _ & _ & Hrest)].
  - rewrite Hws. split; [cbn; lia|constructor].
  - cbv zeta in Hrest. destruct Hrest as (Htry & _ & Hfin).
    apply part003_try_block_trace in Htry. destruct Htry as (Hws1 & _).
    cbn in Hws1.
    destruct Hfin as [(_ & ->)|(_ & _ & Hws & _)].
    + rewrite Hws1. split; [cbn; lia|constructor].
    + rewrite Hws, Hws1. cbn [List.app].
      set (rh := combineHeaders E h (headers options)).
      assert (Hgen : forall targets w0,
                 List.length targets <= 2 ->
                 Forall (fun t => exists kind id,
                             (kind = "transcription " \/ kind = "file ") /\
                             snd t = kind ++ id) targets ->
                 List.length
                   (failure_warnings
                      (fst (deletion_failures E rh targets w0))) <= 2 /\
                 Forall
                   (fun warning =>
                      warning_type warning = "other" /\
                      exists kind id e,
                        (kind = "transcription " \/ kind = "file ") /\
                        warning_message warning
                        = "Failed to auto-delete " ++ (kind ++ id) ++ ": "
                          ++ thrown_message e)
                   (failure_warnings
                      (fst (deletion_failures E rh targets w0)))).
      { intros targets w0 Hlen Hall. split.
        - rewrite failure_warnings_length. unfold failed_count.
          etransitivity; [apply filter_length_le|].
          rewrite <- (length_map fst), deletion_failures_length, length_map.
          exact Hlen.
        - revert w0. clear Hlen.
          induction Hall as [|t rest (kind & id & Hkind & Hdesc) _ IH];
            intros w0; cbn [deletion_failures].
          + constructor.
          + destruct (fetch E _ _ w0) as [r w1]. specialize (IH w1).
            destruct (deletion_failures E rh rest w1) as [failures w2].
            cbn [fst failure_warnings] in *.
            destruct (deletion_failure r) as [e|]; [|exact IH].
            constructor; [|exact IH].
            split; [reflexivity|]. exists kind, id, e.
            split; [exact Hkind|]. cbn. rewrite Hdesc. reflexivity. }
      apply Hgen.
      * unfold cleanup_targets. rewrite length_app.
        destruct (var_transcriptionId s1) as [id|];
          [destruct (truthy id)|];
          (destruct (var_fileId s1) as [fid|]; [destruct (truthy fid)|]);
          cbn; lia.
      * unfold cleanup_targets. apply Forall_app. split.
        -- destruct (var_transcriptionId s1) as [id|];
             [destruct (truthy id)|]; repeat constructor.
           exists "transcription ", id. split; [now left|reflexivity].
        -- destruct (var_fileId s1) as [fid|];
             [destruct (truthy fid)|]; repeat constructor.
           exists "file ", fid. split; [now right|reflexivity].
Qed.

(** Both deletions fail, the first by a network error and the second by a
    404 response: two warnings. *)
Lemma part003_warnings_are_deletion_failures_witness :
  List.length (warnings (snd Faults.failing_cleanup_part003)) <= 2 /\
  Forall
    (fun warning =>
       warning_type warning = "other" /\
       exists kind id e,
         (kind = "transcription " \/ kind = "file ") /\
         warning_message warning
         = "Failed to auto-delete " ++ (kind ++ id) ++ ": "
           ++ thrown_message e)
    (warnings (snd Faults.failing_cleanup_part003)).
Proof.
  apply (@part003_warnings_are_deletion_failures _ Scenario.env
           Runs.plain_call 5 Runs.failing_cleanup
           (fst Faults.failing_cleanup_part003)
           (snd Faults.failing_cleanup_part003)).
  vm_compute. reflexivity.
Defined.

(** ** The audio source in [soniox-transcription-model.ts] *)

(** Nothing follows a start that did not return. *)
Lemma model_failed_start {W : Type} (E : Env W) (options : CallOptions)
  (fuel : nat) (s s1 st : State W) (o1 : Outcome (Z * string * Z))
  (out : Outcome TranscriptionResult) :
  Model.start_job E options s = (o1, s1) ->
  (forall v, o1 <> Ret v) ->
  Model.doGenerate E fuel options s = (out, st) ->
  st = s1.
Proof.
  intros Hstart Hfail. rewrite model_doGenerate_unfold, Hstart.
  destruct o1 as [[[cd id] pi]|e|].
  - now elim (Hfail (cd, id, pi)).
  - intros H; now inversion H.
  - intros H; now inversion H.
Qed.

(** The submission stage sends at most the submission. *)
Lemma model_submit_stage_calls {W : Type} (E : Env W) (options : CallOptions)
  (currentDate : Z) (sonioxOptions : option SonioxOptions)
  (audioUrl fileId : option string) (s s' : State W)
  (o : Outcome (Z * string * Z)) :
  model_submit_stage E options currentDate sonioxOptions audioUrl fileId s
  = (o, s') ->
  ((exists e, config_headers E (world s) = inl e) /\
   calls s' = calls s /\ forall v, o <> Ret v) \/
  exists h,
    config_headers E (world s) = inr h /\
    calls s' =
      (calls s
       ++ [CallSubmit
             (model_submit_request E options h
                (Model.request_body E sonioxOptions audioUrl fileId))])%list.
Proof.
  unfold model_submit_stage.
  destruct (config_headers E (world s)) as [e|h].
  - intros H; inversion H; subst. left.
    split; [now exists e|]. split; [reflexivity|discriminate].
  - cbv zeta. destruct (postJsonToApi E _ _) as [[e|sub] w1];
      intros H; inversion H; subst; right; exists h; split; reflexivity.
Qed.

(** X12.  [soniox-transcription-model.ts], called with neither a usable
    [audioUrl] nor a usable [fileId] (absent, [null] or the empty string):
    a call that sends any request sends the upload first, and a submission
    refers to the uploaded file by the id the upload returned; its
    [audio_url] is the option as given, so an empty [audioUrl] is passed
    on next to the file id. *)
Theorem model_uploads_without_a_source :
  forall (W : Type) (E : Env W) (options : CallOptions) (fuel : nat) (w : W)
         (sonioxOptions : option SonioxOptions)
         (out : Outcome TranscriptionResult) (st : State W),
    parseProviderOptions (providerOptions options) = inr sonioxOptions ->
    truthy_opt (option_field audioUrl sonioxOptions) = false ->
    truthy_opt (option_field fileId sonioxOptions) = false ->
    Model.doGenerate E fuel options (init_state w) = (out, st) ->
    (calls st = [] \/
     exists h blob rest,
       config_headers E w = inr h /\
       audio_blob E (audio options) = inr blob /\
       calls st = CallUpload (model_upload_request E options h blob) :: rest /\
       forallb (fun c => negb (is_upload c)) rest = true) /\
    (forall r,
        In (CallSubmit r) (calls st) ->
        audio_url (req_body r) = option_field audioUrl sonioxOptions /\
        exists h blob uploadResponse w0,
          postFormDataToApi E (model_upload_request E options h blob) w
          = (inr uploadResponse, w0) /\
          file_id (req_body r) = Some (upload_id uploadResponse)).
Proof.
  intros W E options fuel w so out st Hparse Hurl Hfile Hrun.
  pose proof Hrun as Hshape. apply model_doGenerate_shape in Hshape.
  destruct Hshape as (o1 & s1 & cs & Hstart & Hcalls & Hall).
  pose proof (fun Hfail => @model_failed_start _ E options fuel _ _ _ _ _
                             Hstart Hfail Hrun) as Hstop.
  assert (Hcs : forall c, In c cs -> is_upload c = false /\
                                     forall r, c <> CallSubmit r).
  { intros c Hc. rewrite forallb_forall in Hall. apply Hall in Hc.
    destruct c; try discriminate; split; auto; intros r0 H0; discriminate. }
  assert (Hcs' : forallb (fun c => negb (is_upload c)) cs = true).
  { apply forallb_forall. intros c Hc. apply Hcs in Hc.
    destruct Hc as [-> _]. reflexivity. }
  assert (Hnone : calls s1 = [] -> (forall v, o1 <> Ret v) ->
                  calls st = [] /\ forall r, ~ In (CallSubmit r) (calls st)).
  { intros Hc1 Hfail. rewrite (Hstop Hfail), Hc1. split; [reflexivity|].
    intros r []. }
  rewrite model_start_job_eq, Hparse in Hstart. cbv zeta in Hstart.
  rewrite Hurl, Hfile in Hstart. cbn [andb negb] in Hstart.
  cbn [world init_state] in Hstart.
  destruct (audio_blob E (audio options)) as [e|blob] eqn:Hblob.
  { inversion Hstart; subst.
    destruct Hnone as (Hn & Hno); [reflexivity|discriminate|].
    split; [left; exact Hn|]. intros r Hr. now elim (Hno r). }
  destruct (config_headers E w) as [e|h] eqn:Hh.
  { inversion Hstart; subst.
    destruct Hnone as (Hn & Hno); [reflexivity|discriminate|].
    split; [left; exact Hn|]. intros r Hr. now elim (Hno r). }
  destruct (postFormDataToApi E (model_upload_request E options h blob) w)
    as [[e|up] w1] eqn:Hup.
  { inversion Hstart; subst. cbn [calls after_call with_fileId init_state]
      in Hcalls. cbn [List.app] in Hcalls. split.
    - right. exists h, blob, cs. repeat split; assumption.
    - intros r Hr. rewrite Hcalls in Hr.
      destruct Hr as [Hr|Hr]; [discriminate|].
      apply Hcs in Hr. destruct Hr as [_ Hr]. now elim (Hr r). }
  apply model_submit_stage_calls in Hstart.
  cbn [calls world after_call with_fileId init_state List.app] in Hstart.
  destruct Hstart as [(_ & Hc1 & _)|(h' & _ & Hc1)]; rewrite Hc1 in Hcalls;
    cbn [List.app] in Hcalls.
  - split.
    + right. exists h, blob, cs. repeat split; assumption.
    + intros r Hr. rewrite Hcalls in Hr.
      destruct Hr as [Hr|Hr]; [discriminate|].
      apply Hcs in Hr. destruct Hr as [_ Hr]. now elim (Hr r).
  - split.
    + right. exists h, blob. eexists. repeat split; eassumption.
    + intros r Hr. rewrite Hcalls in Hr.
      destruct Hr as [Hr|[Hr|Hr]]; [discriminate| |].
      * inversion Hr; subst. split; [reflexivity|].
        exists h, blob, up, w1. split; [exact Hup|reflexivity].
      * apply Hcs in Hr. destruct Hr as [_ Hr]. now elim (Hr r).
Qed.

(** The test scenario, which names no audio source. *)
Lemma model_uploads_without_a_source_witness :
  (calls (snd Runs.happy_model) = [] \/
   exists h blob rest,
     config_headers Scenario.env Scenario.happy = inr h /\
     audio_blob Scenario.env (audio Runs.plain_call) = inr blob /\
     calls (snd Runs.happy_model) =
       CallUpload (model_upload_request Scenario.env Runs.plain_call h blob)
       :: rest /\
     forallb (fun c => negb (is_upload c)) rest = true) /\
  (forall r,
      In (CallSubmit r) (calls (snd Runs.happy_model)) ->
      audio_url (req_body r) = None /\
      exists h blob uploadResponse w0,
        postFormDataToApi Scenario.env
          (model_upload_request Scenario.env Runs.plain_call h blob)
          Scenario.happy
        = (inr uploadResponse, w0) /\
        file_id (req_body r) = Some (upload_id uploadResponse)).
Proof.
  apply (@model_uploads_without_a_source _ Scenario.env Runs.plain_call 5
           Scenario.happy None (fst Runs.happy_model) (snd Runs.happy_model)).
  - reflexivity.
  - reflexivity.
  - reflexivity.
  - vm_compute. reflexivity.
Defined.

(** X13.  [soniox-transcription-model.ts], called with a non-empty
    [fileId] and no usable [audioUrl]: no request of the call is an upload,
    and every submission has that id in [file_id].  When the request
    headers can be built, the submission is the first request of the
    call. *)
Theorem model_file_id_skips_the_upload :
  forall (W : Type) (E : Env W) (options : CallOptions) (fuel : nat) (w : W)
         (sonioxOptions : option SonioxOptions) (file : string)
         (out : Outcome TranscriptionResult) (st : State W),
    parseProviderOptions (providerOptions options) = inr sonioxOptions ->
    truthy_opt (option_field audioUrl sonioxOptions) = false ->
    option_field fileId sonioxOptions = Some file ->
    file <> "" ->
    Model.doGenerate E fuel options (init_state w) = (out, st) ->
    forallb (fun c => negb (is_upload c)) (calls st) = true /\
    (forall r, In (CallSubmit r) (calls st) ->
               file_id (req_body r) = Some file /\
               audio_url (req_body r) = option_field audioUrl sonioxOptions) /\
    (forall h, config_headers E w = inr h ->
               exists rest,
                 calls st =
                   CallSubmit
                     (model_submit_request E options h
                        (Model.request_body E sonioxOptions
                           (option_field audioUrl sonioxOptions) (Some file)))
                   :: rest).
Proof.
  intros W E options fuel w so file out st Hparse Hurl Hfile Hne Hrun.
  apply model_doGenerate_shape in Hrun.
  destruct Hrun as (o1 & s1 & cs & Hstart & Hcalls & Hall).
  assert (Hcs : forall c, In c cs -> is_upload c = false /\
                                     forall r, c <> CallSubmit r).
  { intros c Hc. rewrite forallb_forall in Hall. apply Hall in Hc.
    destruct c; try discriminate; split; auto; intros r0 H0; discriminate. }
  assert (Hcs' : forallb (fun c => negb (is_upload c)) cs = true).
  { apply forallb_forall. intros c Hc. apply Hcs in Hc.
    destruct Hc as [-> _]. reflexivity. }
  rewrite model_start_job_eq, Hparse in Hstart. cbv zeta in Hstart.
  rewrite Hurl, Hfile in Hstart. cbn [truthy_opt] in Hstart.
  rewrite (truthy_nonempty Hne) in Hstart. cbn [andb negb] in Hstart.
  apply model_submit_stage_calls in Hstart.
  cbn [calls world with_fileId init_state List.app] in Hstart.
  destruct Hstart as [((e & He) & Hc1 & _)|(h' & Hh' & Hc1)];
    rewrite Hc1 in Hcalls; cbn [List.app] in Hcalls; rewrite Hcalls.
  - split; [exact Hcs'|]. split.
    + intros r Hr. apply Hcs in Hr. destruct Hr as [_ Hr]. now elim (Hr r).
    + intros h Hh. congruence.
  - split; [exact Hcs'|]. split.
    + intros r [Hr|Hr].
      * inversion Hr; subst. split; reflexivity.
      * apply Hcs in Hr. destruct Hr as [_ Hr]. now elim (Hr r).
    + intros h Hh. assert (h' = h) by congruence. subst h'.
      now exists cs.
Qed.

(** A file uploaded earlier, [file-9]. *)
Lemma model_file_id_skips_the_upload_witness :
  forallb (fun c => negb (is_upload c)) (calls (snd Faults.file_only_model))
  = true /\
  (forall r, In (CallSubmit r) (calls (snd Faults.file_only_model)) ->
             file_id (req_body r) = Some "file-9" /\
             audio_url (req_body r) = None) /\
  (forall h, config_headers Scenario.env Scenario.happy = inr h ->
             exists rest,
               calls (snd Faults.file_only_model) =
                 CallSubmit
                   (model_submit_request Scenario.env Faults.file_call h
                      (Model.request_body Scenario.env
                         (Some (sonioxTranscriptionProviderOptionsSchema
                                  Faults.file_only))
                         None (Some "file-9")))
                 :: rest).
Proof.
  apply (@model_file_id_skips_the_upload _ Scenario.env Faults.file_call 5
           Scenario.happy
           (Some (sonioxTranscriptionProviderOptionsSchema Faults.file_only))
           "file-9"
           (fst Faults.file_only_model) (snd Faults.file_only_model)).
  - reflexivity.
  - reflexivity.
  - reflexivity.
  - discriminate.
  - vm_compute. reflexivity.
Defined.

(** ** Failures before the first request *)

(** X14.  Provider options that do not match the schema are rejected
    before anything else happens: in both revisions [doGenerate] throws the
    parse error and leaves the store of the call untouched (no request, no
    warning, no variable set). *)
Theorem invalid_options_send_nothing :
  forall (W : Type) (E : Env W) (options : CallOptions) (fuel : nat) (w : W)
         (e : JsThrown),
    parseProviderOptions (providerOptions options) = inl e ->
    Model.doGenerate E fuel options (init_state w) = (Throw e, init_state w) /\
    Part003.doGenerate E fuel options (init_state w)
    = (Throw e, init_state w).
Proof.
  intros W E options fuel w e Hparse. split.
  - rewrite model_doGenerate_unfold, model_start_job_eq, Hparse. reflexivity.
  - rewrite part003_doGenerate_unfold, part003_prepare_eq, Hparse.
    reflexivity.
Qed.

Lemma invalid_options_send_nothing_witness :
  Model.doGenerate Scenario.env 5 Faults.invalid_call
    (init_state Scenario.happy)
  = (Throw Faults.invalid_options, init_state Scenario.happy) /\
  Part003.doGenerate Scenario.env 5 Faults.invalid_call
    (init_state Scenario.happy)
  = (Throw Faults.invalid_options, init_state Scenario.happy).
Proof.
  exact (@invalid_options_send_nothing _ Scenario.env Faults.invalid_call 5
           Scenario.happy Faults.invalid_options eq_refl).
Defined.

(** X15.  When [config.headers()] throws as the call begins (no API key,
    say), no request is sent.  [part_003] throws that error, deletes
    nothing and records no warning.  [soniox-transcription-model.ts] throws
    too without a request: that error, unless the options name both audio
    sources or the audio cannot be decoded, which it finds out first. *)
Theorem missing_headers_send_nothing :
  forall (W : Type) (E : Env W) (options : CallOptions) (fuel : nat) (w : W)
         (sonioxOptions : option SonioxOptions) (e : JsThrown),
    parseProviderOptions (providerOptions options) = inr sonioxOptions ->
    config_headers E w = inl e ->
    (exists st,
        Part003.doGenerate E fuel options (init_state w) = (Throw e, st) /\
        calls st = [] /\ warnings st = [] /\ world st = w) /\
    (exists e' st,
        Model.doGenerate E fuel options (init_state w) = (Throw e', st) /\
        calls st = [] /\ world st = w /\
        (e' = e \/
         (e' = model_configuration_error /\
          truthy_opt (option_field audioUrl sonioxOptions) = true /\
          truthy_opt (option_field fileId sonioxOptions) = true) \/
         audio_blob E (audio options) = inl e')).
Proof.
  intros W E options fuel w so e Hparse Hh. split.
  - rewrite part003_doGenerate_unfold, part003_prepare_eq, Hparse.
    cbv zeta. cbn [world init_state]. rewrite Hh.
    eexists. split; [reflexivity|]. repeat split.
  - rewrite model_doGenerate_unfold, model_start_job_eq, Hparse. cbv zeta.
    destruct (truthy_opt (option_field audioUrl so)) eqn:Hurl;
      destruct (truthy_opt (option_field fileId so)) eqn:Hfile;
      cbn [andb negb].
    + do 2 eexists. split; [reflexivity|]. repeat split.
      right; left. repeat split.
    + unfold model_submit_stage. cbn [world with_fileId init_state].
      rewrite Hh. do 2 eexists. split; [reflexivity|]. repeat split.
      now left.
    + unfold model_submit_stage. cbn [world with_fileId init_state].
      rewrite Hh. do 2 eexists. split; [reflexivity|]. repeat split.
      now left.
    + destruct (audio_blob E (audio options)) as [e'|blob] eqn:Hblob.
      * do 2 eexists. split; [reflexivity|]. repeat split.
        right; right. reflexivity.
      * cbn [world init_state]. rewrite Hh.
        do 2 eexists. split; [reflexivity|]. repeat split. now left.
Qed.

(** No API key is configured. *)
Lemma missing_headers_send_nothing_witness :
  (exists st,
      Part003.doGenerate Faults.no_headers 5 Runs.plain_call
        (init_state Scenario.happy)
      = (Throw Faults.missing_key, st) /\
      calls st = [] /\ warnings st = [] /\ world st = Scenario.happy) /\
  (exists e' st,
      Model.doGenerate Faults.no_headers 5 Runs.plain_call
        (init_state Scenario.happy)
      = (Throw e', st) /\
      calls st = [] /\ world st = Scenario.happy /\
      (e' = Faults.missing_key \/
       (e' = model_configuration_error /\
        truthy_opt (option_field audioUrl None) = true /\
        truthy_opt (option_field fileId None) = true) \/
       audio_blob Faults.no_headers (audio Runs.plain_call) = inl e')).
Proof.
  exact (@missing_headers_send_nothing _ Faults.no_headers Runs.plain_call 5
           Scenario.happy None Faults.missing_key eq_refl eq_refl).
Defined.

(** ** The returned result *)

(** X16.  What a returned result is made of, in both revisions.  The
    timestamp of [response] is the date taken when the call began and its
    model id the model's; headers and body are those of the transcript
    reply; [text] is the transcript's text, or the empty string when the
    reply has none; [durationInSeconds] is the [audio_duration_ms] of the
    status reply that said [completed], divided by 1000, and absent when
    that is not a number.  The transcript was requested in the state of the
    world that status reply left: nothing happens in between. *)
Theorem result_comes_from_the_last_replies :
  forall (W : Type) (E : Env W) (options : CallOptions) (fuel : nat) (w : W)
         (r : TranscriptionResult) (st : State W),
    Model.doGenerate E fuel options (init_state w) = (Ret r, st) \/
    Part003.doGenerate E fuel options (init_state w) = (Ret r, st) ->
    timestamp (response r) = currentDate E w /\
    response_modelId (response r) = modelId E /\
    exists statusRequest transcriptRequest sr reply w0 w1 w2,
      In (CallStatus statusRequest) (calls st) /\
      In (CallTranscript transcriptRequest) (calls st) /\
      getFromApi_status E statusRequest w0 = (inr sr, w1) /\
      status sr = "completed" /\
      getFromApi_transcript E transcriptRequest w1 = (inr reply, w2) /\
      response_headers (response r) = responseHeaders reply /\
      response_body (response r) = rawValue reply /\
      result_text r = coalesce_or (transcript_text (value reply)) "" /\
      (forall t, transcript_text (value reply) = Val t -> result_text r = t) /\
      (forall ms, audio_duration_ms sr = Val ms ->
                  durationInSeconds r = Some (PrimFloat.div ms 1000%float)) /\
      (is_number (audio_duration_ms sr) = false ->
       durationInSeconds r = None).
Proof.
  intros W E options fuel w r st [Hrun|Hrun].
  - apply model_success in Hrun.
    destruct Hrun as (id & pi & s1 & cs & sr & h & h' & reply & w0 & w1 & w2
                      & Hstart & Hne & Hlen & Hall & Hin & Hget & Hdone & Htr
                      & Hcalls & Hws & ->).
    split; [reflexivity|]. split; [reflexivity|].
    exists (model_status_request E options h id),
           (model_transcript_request E options h' id), sr, reply, w0, w1, w2.
    split; [rewrite Hcalls, !in_app_iff; right; left; exact Hin|].
    split; [rewrite Hcalls, !in_app_iff; right; right; now left|].
    repeat (split; [assumption || reflexivity|]).
    cbn [result_from result_text durationInSeconds]. unfold duration_seconds.
    split; [intros t ->; reflexivity|].
    split; [intros ms ->; reflexivity|].
    destruct (audio_duration_ms sr); [reflexivity|reflexivity|discriminate].
  - apply part003_success in Hrun.
    destruct Hrun as (so & h & blob & up & sub & n & sr & reply & w0 & w1 & w2
                      & w3 & w4 & Hparse & Hh & Hblob & Hrest).
    cbv zeta in Hrest.
    destruct Hrest as (Hup & Hsub & Hget & Hdone & Htr & (Hn & _) & Hcalls
                       & ->).
    split; [reflexivity|]. split; [reflexivity|].
    exists (part003_status_request E options
              (combineHeaders E h (headers options)) (create_id sub)),
           (part003_transcript_request E options
              (combineHeaders E h (headers options)) (create_id sub)),
           sr, reply, w2, w3, w4.
    split.
    { rewrite Hcalls. right; right. apply in_app_iff. left.
      destruct n as [|n]; [lia|]. now left. }
    split.
    { rewrite Hcalls. right; right. apply in_app_iff. right. now left. }
    repeat (split; [assumption || reflexivity|]).
    cbn [result_from result_text durationInSeconds]. unfold duration_seconds.
    split; [intros t ->; reflexivity|].
    split; [intros ms ->; reflexivity|].
    destruct (audio_duration_ms sr); [reflexivity|reflexivity|discriminate].
Qed.

(** The test scenario in [part_003]: 16079 ms of audio. *)
Lemma result_comes_from_the_last_replies_witness :
  timestamp (response (Runs.result_of Runs.happy_part003))
  = currentDate Scenario.env Scenario.happy /\
  response_modelId (response (Runs.result_of Runs.happy_part003))
  = modelId Scenario.env /\
  exists statusRequest transcriptRequest sr reply w0 w1 w2,
    In (CallStatus statusRequest) (calls (snd Runs.happy_part003)) /\
    In (CallTranscript transcriptRequest) (calls (snd Runs.happy_part003)) /\
    getFromApi_status Scenario.env statusRequest w0 = (inr sr, w1) /\
    status sr = "completed" /\
    getFromApi_transcript Scenario.env transcriptRequest w1 = (inr reply, w2) /\
    response_headers (response (Runs.result_of Runs.happy_part003))
    = responseHeaders reply /\
    response_body (response (Runs.result_of Runs.happy_part003))
    = rawValue reply /\
    result_text (Runs.result_of Runs.happy_part003)
    = coalesce_or (transcript_text (value reply)) "" /\
    (forall t, transcript_text (value reply) = Val t ->
               result_text (Runs.result_of Runs.happy_part003) = t) /\
    (forall ms, audio_duration_ms sr = Val ms ->
                durationInSeconds (Runs.result_of Runs.happy_part003)
                = Some (PrimFloat.div ms 1000%float)) /\
    (is_number (audio_duration_ms sr) = false ->
     durationInSeconds (Runs.result_of Runs.happy_part003) = None).
Proof.
  apply (@result_comes_from_the_last_replies _ Scenario.env Runs.plain_call 5
           Scenario.happy (Runs.result_of Runs.happy_part003)
           (snd Runs.happy_part003)).
  right. vm_compute. reflexivity.
Defined.

(** ** How long a call polls *)

Section Part003Deadline.

Variable W : Type.
Variable E : Env W.
Variable options : CallOptions.
Variable requestHeaders : Headers.
Variable id : string.
Variable pollingInterval startTime : Z.

(** The worlds the poll loop runs through: the clock does not run
    backwards during a status request, and [delay] takes at least the time
    asked for. *)
Variable good : W -> Prop.

Hypothesis status_keeps_good :
  forall w0 r w1,
    good w0 ->
    getFromApi_status E (part003_status_request E options requestHeaders id) w0
    = (r, w1) ->
    good w1 /\ (Date_now E w0 <= Date_now E w1)%Z.

Hypothesis delay_keeps_good :
  forall w0,
    good w0 ->
    good (delay E pollingInterval w0) /\
    (Date_now E w0 + pollingInterval
     <= Date_now E (delay E pollingInterval w0))%Z.

Variable n : nat.

Hypothesis deadline_within_n_turns :
  (Part003.timeoutMs < Z.of_nat n * pollingInterval)%Z.

(** After [j] waits the loop has at most [n - j] status requests left, and
    [n - j + 1] turns are enough to leave it. *)
Lemma part003_poll_loop_bounded (fuel : nat) :
  forall (s : State W) (j : nat),
    good (world s) ->
    (startTime + Z.of_nat j * pollingInterval <= Date_now E (world s))%Z ->
    1 <= fuel ->
    n < j + fuel ->
    exists o s' m,
      Part003.poll_loop E fuel options requestHeaders id pollingInterval
        startTime s = (o, s') /\
      o <> Diverge /\
      m <= n - j /\
      calls s' =
        (calls s
         ++ repeat (CallStatus
                      (part003_status_request E options requestHeaders id)) m)
        %list.
Proof.
  assert (Hpos : (0 < pollingInterval)%Z).
  { unfold Part003.timeoutMs in deadline_within_n_turns. nia. }
  induction fuel as [|fuel IH]; intros s j Hgood Hclock Hfuel Hn; [lia|].
  cbn [Part003.poll_loop]. unfold bind at 1.
  destruct (part003_iteration_cases E options startTime s) as [Hlate|Hin].
  - rewrite (part003_iteration_timeout E options requestHeaders id
               pollingInterval startTime s Hlate).
    exists (Throw (Part003.timeout_error (var_statusResponse s))), s, 0.
    split; [reflexivity|]. split; [discriminate|]. split; [lia|].
    cbn [repeat]. now rewrite app_nil_r.
  - assert (Hj : j < n).
    { assert (Hle : (Date_now E (world s) - startTime <= Part003.timeoutMs)%Z)
        by (destruct Hin as [[H _]|[H _]]; exact H).
      apply Nat.nle_gt. intros Hge.
      assert (Z.of_nat n * pollingInterval
              <= Z.of_nat j * pollingInterval)%Z by nia.
      lia. }
    destruct Hin as [(Hle & Hab)|(Hle & Hab)].
    + rewrite (part003_iteration_aborted E options requestHeaders id
                 pollingInterval startTime s Hle Hab).
      exists (Throw Part003.aborted_error), s, 0.
      split; [reflexivity|]. split; [discriminate|]. split; [lia|].
      cbn [repeat]. now rewrite app_nil_r.
    + rewrite (part003_iteration_query E options requestHeaders id
                 pollingInterval startTime s Hle Hab).
      destruct (getFromApi_status E
                  (part003_status_request E options requestHeaders id)
                  (world s)) as [[e|value] w1] eqn:Hget.
      * cbv zeta. eexists _, _, 1.
        split; [reflexivity|]. split; [discriminate|]. split; [lia|].
        reflexivity.
      * cbv zeta. destruct (String.eqb (status value) "completed").
        { eexists _, _, 1.
          split; [reflexivity|]. split; [discriminate|]. split; [lia|].
          reflexivity. }
        destruct (String.eqb (status value) "error").
        { eexists _, _, 1.
          split; [reflexivity|]. split; [discriminate|]. split; [lia|].
          reflexivity. }
        destruct (status_keeps_good Hgood Hget) as (Hgood1 & Hclock1).
        destruct (delay_keeps_good Hgood1) as (Hgood2 & Hclock2).
        match goal with
        | |- context [Part003.poll_loop E fuel options requestHeaders id
                        pollingInterval startTime ?s2] =>
            destruct (IH s2 (S j)) as (o & s' & m & Hloop & Hnd & Hm & Hcalls)
        end.
        -- exact Hgood2.
        -- cbn [world]. lia.
        -- lia.
        -- lia.
        -- rewrite Hloop. exists o, s', (S m).
           split; [reflexivity|]. split; [exact Hnd|]. split; [lia|].
           rewrite Hcalls. cbn [calls repeat]. rewrite <- app_assoc.
           reflexivity.
Qed.

End Part003Deadline.

Lemma filter_status_repeat (r : ApiRequest unit) (m : nat) :
  filter is_status (repeat (CallStatus r) m) = repeat (CallStatus r) m.
Proof.
  induction m as [|m IH]; cbn; [reflexivity|now rewrite IH].
Qed.

Lemma filter_status_deletes {W : Type} (E : Env W) (requestHeaders : Headers)
  (targets : list (string * string)) :
  filter is_status (List.map (delete_call E requestHeaders) targets) = [].
Proof.
  induction targets as [|t rest IH]; cbn; [reflexivity|exact IH].
Qed.

(** X17.  [part_003] stops polling.  Suppose that, from the world in which
    the loop begins, the clock never runs backwards during a status request
    and [delay] takes at least the polling interval, and that [n] polling
    intervals exceed the three minutes of [timeoutMs].  Then the call
    completes (with a result or an error) within [n + 1] turns of the loop,
    having sent at most [n] status requests. *)
Theorem part003_polling_terminates :
  forall (W : Type) (E : Env W) (options : CallOptions) (w : W) (date : Z)
         (sonioxOptions : option SonioxOptions) (requestHeaders : Headers)
         (id fileId : string) (pollingInterval startTime : Z) (s1 : State W)
         (good : W -> Prop) (n : nat),
    part003_turn_begins E options w date sonioxOptions requestHeaders id
      fileId pollingInterval startTime 0 s1 ->
    good (world s1) ->
    (forall w0 r w1,
        good w0 ->
        getFromApi_status E
          (part003_status_request E options requestHeaders id) w0
        = (r, w1) ->
        good w1 /\ (Date_now E w0 <= Date_now E w1)%Z) ->
    (forall w0,
        good w0 ->
        good (delay E pollingInterval w0) /\
        (Date_now E w0 + pollingInterval
         <= Date_now E (delay E pollingInterval w0))%Z) ->
    (Part003.timeoutMs < Z.of_nat n * pollingInterval)%Z ->
    forall fuel,
      n < fuel ->
      exists out st m,
        Part003.doGenerate E fuel options (init_state w) = (out, st) /\
        out <> Diverge /\
        m <= n /\
        filter is_status (calls st) =
          repeat (CallStatus
                    (part003_status_request E options requestHeaders id)) m.
Proof.
  intros W E options w date so rh id fid pi start s1 good n Hturn Hgood
         Hstatus Hdelay Hdeadline fuel Hfuel.
  destruct (part003_turn_calls Hturn) as (blob & _ & Hc1 & _).
  cbn [repeat] in Hc1.
  destruct Hturn as (s0 & s1' & Hprep & Hstart & _ & Hafter).
  cbn [part003_after_polls] in Hafter. inversion Hafter; subst s1'.
  clear Hafter.
  assert (Hclock : start = Date_now E (world s1)).
  { pose proof Hstart as Heq. rewrite part003_start_job_eq in Heq.
    destruct (audio_blob E (audio options)); [discriminate|].
    cbv zeta in Heq.
    destruct (postFormDataToApi E _ _) as [[e|up] w1]; [discriminate|].
    destruct (postJsonToApi E _ _) as [[e|sub] w2]; [discriminate|].
    inversion Heq; subst. reflexivity. }
  destruct (@part003_poll_loop_bounded _ E options rh id pi start good
              Hstatus Hdelay n Hdeadline fuel s1 0)
    as (o & s' & m & Hloop & Hnd & Hm & Hcalls); [exact Hgood|lia|lia|lia|].
  rewrite part003_doGenerate_unfold, Hprep.
  unfold Part003.try_block. unfold bind at 1. rewrite Hstart.
  unfold bind at 1. rewrite Hloop.
  destruct o as [[]|e|]; [| |now elim Hnd].
  - destruct (Part003.fetch_transcript E options rh id date s')
      as [o2 s''] eqn:Hfetch.
    apply part003_fetch_transcript_spec in Hfetch.
    destruct Hfetch as (Hnd2 & _ & _ & _ & Hc2 & _).
    destruct (deletion_failures E rh (cleanup_targets s'') (world s''))
      as [failures w5].
    destruct o2 as [r|e|]; [| |now elim Hnd2];
      (do 2 eexists; exists m; split; [reflexivity|]);
      (split; [discriminate|]); (split; [lia|]);
      cbn [calls]; rewrite Hc2, Hcalls, Hc1, !filter_app,
        filter_status_repeat, filter_status_deletes; cbn;
      now rewrite !app_nil_r.
  - destruct (deletion_failures E rh (cleanup_targets s') (world s'))
      as [failures w5].
    do 2 eexists. exists m. split; [reflexivity|].
    split; [discriminate|]. split; [lia|].
    cbn [calls]. rewrite Hcalls, Hc1, !filter_app, filter_status_repeat,
      filter_status_deletes. cbn. now rewrite !app_nil_r.
Qed.

(** A job that never leaves the queue, polled every second: 181 seconds
    exceed the deadline, so 182 turns are enough. *)
Lemma part003_polling_terminates_witness :
  exists out st m,
    Part003.doGenerate Scenario.env 182 Runs.plain_call
      (init_state Faults.stuck) = (out, st) /\
    out <> Diverge /\
    m <= 181 /\
    filter is_status (calls st) =
      repeat (CallStatus
                (part003_status_request Scenario.env Runs.plain_call
                   Runs.test_headers "transcription-123")) m.
Proof.
  refine (@part003_polling_terminates _ Scenario.env Runs.plain_call
            Faults.stuck 0%Z None Runs.test_headers "transcription-123"
            "file-123" 1000%Z 0%Z Faults.stuck_part003_turn0
            (fun w => (0 <= Scenario.poll_cost w)%Z) 181 _ _ _ _ _ 182 _).
  - unfold part003_turn_begins. do 2 eexists.
    split; [lazy; reflexivity|]. split; [lazy; reflexivity|].
    split; lazy; reflexivity.
  - vm_compute. discriminate.
  - intros w0 r w1 Hgood Hget. cbn in Hget. unfold Scenario.next_status in Hget.
    destruct (Scenario.statuses w0); inversion Hget; subst; cbn; split; lia.
  - intros w0 Hgood. cbn. split; lia.
  - vm_compute. reflexivity.
  - lia.
Defined.

Section ModelForever.

Variable W : Type.
Variable E : Env W.
Variable options : CallOptions.
Variable id : string.
Variable pollingInterval : Z.

(** Worlds in which nobody cancels and the job is neither completed nor
    failed. *)
Variable stays : W -> Prop.

Hypothesis job_stays :
  forall w0,
    stays w0 ->
    options_aborted E options w0 = false /\
    exists h sr w1,
      config_headers E w0 = inr h /\
      getFromApi_status E (model_status_request E options h id) w0
      = (inr sr, w1) /\
      status sr <> "completed" /\
      status sr <> "error" /\
      stays (delay E pollingInterval w1).

Lemma model_poll_loop_forever (fuel : nat) :
  forall s : State W,
    stays (world s) ->
    exists s' cs,
      Model.poll_loop E fuel options id pollingInterval s = (Diverge, s') /\
      calls s' = (calls s ++ cs)%list /\
      List.length cs = fuel /\
      forallb is_status cs = true.
Proof.
  induction fuel as [|fuel IH]; intros s Hstays.
  - exists s, []. cbn. rewrite app_nil_r. repeat split.
  - destruct (job_stays Hstays)
      as (Hab & h & sr & w1 & Hh & Hget & Hnc & Hne & Hnext).
    cbn [Model.poll_loop]. unfold bind at 1.
    rewrite (model_iteration_query E options id pollingInterval s Hab), Hh.
    cbv zeta. rewrite Hget.
    apply String.eqb_neq in Hnc, Hne. rewrite Hnc, Hne.
    match goal with
    | |- context [Model.poll_loop E fuel options id pollingInterval ?s2] =>
        destruct (IH s2 Hnext) as (s' & cs & Hloop & Hcalls & Hlen & Hall)
    end.
    rewrite Hloop.
    exists s', (CallStatus (model_status_request E options h id) :: cs).
    split; [reflexivity|]. split; [|split].
    + rewrite Hcalls. cbn [calls]. rewrite <- app_assoc. reflexivity.
    + cbn. now rewrite Hlen.
    + cbn. exact Hall.
Qed.

End ModelForever.

(** X18.  [soniox-transcription-model.ts] has no deadline.  As long as
    nobody cancels and the job is reported neither [completed] nor [error],
    the call keeps polling: whatever the number of turns, it is still in
    the loop after that many turns, with as many status requests sent. *)
Theorem model_polls_without_deadline :
  forall (W : Type) (E : Env W) (options : CallOptions) (w : W) (date : Z)
         (id : string) (pollingInterval : Z) (s1 : State W)
         (stays : W -> Prop),
    model_turn_begins E options w date id pollingInterval 0 s1 ->
    stays (world s1) ->
    (forall w0,
        stays w0 ->
        options_aborted E options w0 = false /\
        exists h sr w1,
          config_headers E w0 = inr h /\
          getFromApi_status E (model_status_request E options h id) w0
          = (inr sr, w1) /\
          status sr <> "completed" /\
          status sr <> "error" /\
          stays (delay E pollingInterval w1)) ->
    forall fuel,
    exists st,
      Model.doGenerate E fuel options (init_state w) = (Diverge, st) /\
      List.length (filter is_status (calls st)) = fuel.
Proof.
  intros W E options w date id pi s1 stays (s1' & Hstart & Hafter) Hstays
         Hjob fuel.
  cbn [model_after_polls] in Hafter. inversion Hafter; subst s1'.
  destruct (@model_poll_loop_forever _ E options id pi stays Hjob fuel s1
              Hstays) as (s' & cs & Hloop & Hcalls & Hlen & Hall).
  rewrite model_doGenerate_unfold, Hstart, Hloop.
  exists s'. split; [reflexivity|].
  apply model_start_job_frame in Hstart.
  destruct Hstart as (_ & _ & cs1 & Hc1 & Hall1).
  rewrite Hcalls, Hc1. cbn [calls init_state List.app].
  rewrite filter_app, length_app.
  assert (H1 : filter is_status cs1 = []).
  { clear Hc1. induction cs1 as [|c cs1 IH]; [reflexivity|].
    cbn [forallb] in Hall1. apply andb_true_iff in Hall1.
    destruct Hall1 as (Hc & Hrest). cbn [filter].
    destruct (is_status c); [|exact (IH Hrest)].
    rewrite andb_false_r in Hc. discriminate. }
  assert (H2 : filter is_status cs = cs).
  { clear Hcalls Hlen. induction cs as [|c cs IH]; [reflexivity|].
    cbn [forallb] in Hall. apply andb_true_iff in Hall.
    destruct Hall as (Hc & Hrest). cbn [filter]. rewrite Hc.
    now rewrite (IH Hrest). }
  rewrite H1, H2. cbn. exact Hlen.
Qed.

(** The job never leaves the queue and the call has no abort signal: still
    polling after a thousand turns. *)
Lemma model_polls_without_deadline_witness :
  exists st,
    Model.doGenerate Scenario.env 1000 Runs.plain_call
      (init_state Faults.stuck) = (Diverge, st) /\
    List.length (filter is_status (calls st)) = 1000.
Proof.
  refine (@model_polls_without_deadline _ Scenario.env Runs.plain_call
            Faults.stuck 0%Z "transcription-123" 1000%Z
            Faults.stuck_model_turn0
            (fun w => Scenario.statuses w = []) _ _ _ 1000).
  - unfold model_turn_begins. eexists. split; lazy; reflexivity.
  - reflexivity.
  - intros w0 Hstuck. split; [reflexivity|].
    exists Runs.test_headers, Scenario.queued.
    eexists. split; [reflexivity|]. cbn.
    unfold Scenario.next_status. rewrite Hstuck.
    split; [reflexivity|]. split; [discriminate|]. split; [discriminate|].
    reflexivity.
Defined.

(** ** Request headers and audio on the way *)

(** X19.  [soniox-transcription-model.ts] builds the request headers anew
    for every request.  When [config.headers()] throws as turn [k] of the
    poll loop is about to query the status, [doGenerate] throws that error
    and sends nothing more: the status request of that turn is not made. *)
Theorem model_rebuilds_the_headers_each_turn :
  forall (W : Type) (E : Env W) (options : CallOptions) (w : W) (k : nat)
         (date : Z) (id : string) (pollingInterval : Z) (sk : State W)
         (e : JsThrown),
    model_turn_begins E options w date id pollingInterval k sk ->
    options_aborted E options (world sk) = false ->
    config_headers E (world sk) = inl e ->
    forall fuel,
      Model.doGenerate E (k + S fuel) options (init_state w) = (Throw e, sk).
Proof.
  intros W E options w k date id pi sk e (s1 & Hstart & Hafter) Hab Hcfg fuel.
  pose proof (@model_iteration_query _ E options id pi sk Hab) as Hit.
  rewrite Hcfg in Hit.
  exact (@model_throw_in_turn _ E options (init_state w) s1 sk sk date pi id
           k e Hstart Hafter Hit fuel).
Qed.

(** The key is lost after the first status reply. *)
Lemma model_rebuilds_the_headers_each_turn_witness :
  Model.doGenerate Faults.key_lost 5 Runs.plain_call
    (init_state Faults.one_answer)
  = (Throw Faults.missing_key, Faults.key_lost_model_turn1).
Proof.
  apply (@model_rebuilds_the_headers_each_turn _ Faults.key_lost
           Runs.plain_call Faults.one_answer 1 0%Z "transcription-123"
           1000%Z Faults.key_lost_model_turn1 Faults.missing_key).
  - unfold model_turn_begins. eexists. split; lazy; reflexivity.
  - reflexivity.
  - reflexivity.
Defined.

(** X20.  Audio that cannot be decoded.  When the audio is a base64 string
    and [convertBase64ToUint8Array] throws, [part_003] throws that error
    from inside the [try] with nothing to clean up: no request at all, no
    warning.  [soniox-transcription-model.ts] does the same when it has to
    upload; with a usable [audioUrl] or [fileId] it never decodes the
    audio. *)
Theorem undecodable_audio_sends_nothing :
  forall (W : Type) (E : Env W) (options : CallOptions) (fuel : nat) (w : W)
         (sonioxOptions : option SonioxOptions) (h : Headers) (e : JsThrown),
    parseProviderOptions (providerOptions options) = inr sonioxOptions ->
    config_headers E w = inr h ->
    audio_blob E (audio options) = inl e ->
    (exists st,
        Part003.doGenerate E fuel options (init_state w) = (Throw e, st) /\
        calls st = [] /\ warnings st = [] /\ world st = w) /\
    (truthy_opt (option_field audioUrl sonioxOptions) = false ->
     truthy_opt (option_field fileId sonioxOptions) = false ->
     exists st,
       Model.doGenerate E fuel options (init_state w) = (Throw e, st) /\
       calls st = [] /\ world st = w) /\
    (truthy_opt (option_field audioUrl sonioxOptions)
     <> truthy_opt (option_field fileId sonioxOptions) ->
     forall out st,
       Model.doGenerate E fuel options (init_state w) = (out, st) ->
       exists r rest, calls st = CallSubmit r :: rest).
Proof.
  intros W E options fuel w so h e Hparse Hh Hblob. split; [|split].
  - rewrite part003_doGenerate_unfold, part003_prepare_eq, Hparse.
    cbv zeta. cbn [world init_state]. rewrite Hh.
    rewrite (@part003_try_block_start_throws _ E options fuel (currentDate E w)
               so (combineHeaders E h (headers options)) _
               (with_transcriptionId (with_fileId (init_state w) None) None)
               e).
    + eexists. split; [reflexivity|]. repeat split.
    + rewrite part003_start_job_eq, Hblob. reflexivity.
  - intros Hurl Hfile.
    rewrite model_doGenerate_unfold, model_start_job_eq, Hparse. cbv zeta.
    rewrite Hurl, Hfile. cbn [andb negb]. rewrite Hblob.
    eexists. split; [reflexivity|]. repeat split.
  - intros Hone out st Hrun.
    apply model_doGenerate_shape in Hrun.
    destruct Hrun as (o1 & s1 & cs & Hstart & Hcalls & _).
    rewrite model_start_job_eq, Hparse in Hstart. cbv zeta in Hstart.
    destruct (truthy_opt (option_field audioUrl so));
      destruct (truthy_opt (option_field fileId so));
      try (now elim Hone); cbn [andb negb] in Hstart;
      apply model_submit_stage_calls in Hstart;
      cbn [calls world with_fileId init_state List.app] in Hstart;
      (destruct Hstart as [((e' & He') & _)|(h' & _ & Hc1)];
       [congruence|]);
      rewrite Hc1 in Hcalls; cbn [List.app] in Hcalls;
      do 2 eexists; exact Hcalls.
Qed.

Lemma undecodable_audio_sends_nothing_witness :
  (exists st,
      Part003.doGenerate Faults.no_decoder 5 Faults.base64_call
        (init_state Scenario.happy)
      = (Throw Faults.bad_base64, st) /\
      calls st = [] /\ warnings st = [] /\ world st = Scenario.happy) /\
  (truthy_opt (option_field audioUrl None) = false ->
   truthy_opt (option_field fileId None) = false ->
   exists st,
     Model.doGenerate Faults.no_decoder 5 Faults.base64_call
       (init_state Scenario.happy)
     = (Throw Faults.bad_base64, st) /\
     calls st = [] /\ world st = Scenario.happy) /\
  (truthy_opt (option_field audioUrl None)
   <> truthy_opt (option_field fileId None) ->
   forall out st,
     Model.doGenerate Faults.no_decoder 5 Faults.base64_call
       (init_state Scenario.happy) = (out, st) ->
     exists r rest, calls st = CallSubmit r :: rest).
Proof.
  exact (@undecodable_audio_sends_nothing _ Faults.no_decoder
           Faults.base64_call 5 Scenario.happy None Runs.test_headers
           Faults.bad_base64 eq_refl eq_refl eq_refl).
Defined.

(** ** The request body *)


(** ** Between two turns of the poll loop *)

(** One more turn that ends in [continue]. *)
Lemma part003_after_step {W : Type} (E : Env W) (options : CallOptions)
  (requestHeaders : Headers) (id : string) (pollingInterval startTime : Z)
  (k : nat) (s sk s' : State W) :
  part003_after_polls E options requestHeaders id pollingInterval startTime
    k s = Some sk ->
  Part003.poll_iteration E options requestHeaders id pollingInterval startTime
    sk = (Ret Continue, s') ->
  part003_after_polls E options requestHeaders id pollingInterval startTime
    (S k) s = Some s'.
Proof.
  revert s. induction k as [|k IH]; intros s Hafter Hit.
  - cbn [part003_after_polls] in *. inversion Hafter; subst.
    now rewrite Hit.
  - cbn [part003_after_polls] in Hafter.
    destruct (Part003.poll_iteration E options requestHeaders id
                pollingInterval startTime s) as [[[|]| |] s1] eqn:H1;
      try discriminate.
    change (match Part003.poll_iteration E options requestHeaders id
                    pollingInterval startTime s with
            | (Ret Continue, s2) =>
                part003_after_polls E options requestHeaders id
                  pollingInterval startTime (S k) s2
            | _ => None
            end = Some s').
    rewrite H1. exact (IH s1 Hafter Hit).
Qed.

Lemma model_after_step {W : Type} (E : Env W) (options : CallOptions)
  (id : string) (pollingInterval : Z) (k : nat) (s sk s' : State W) :
  model_after_polls E options id pollingInterval k s = Some sk ->
  Model.poll_iteration E options id pollingInterval sk = (Ret Continue, s') ->
  model_after_polls E options id pollingInterval (S k) s = Some s'.
Proof.
  revert s. induction k as [|k IH]; intros s Hafter Hit.
  - cbn [model_after_polls] in *. inversion Hafter; subst.
    now rewrite Hit.
  - cbn [model_after_polls] in Hafter.
    destruct (Model.poll_iteration E options id pollingInterval s)
      as [[[|]| |] s1] eqn:H1; try discriminate.
    change (match Model.poll_iteration E options id pollingInterval s with
            | (Ret Continue, s2) =>
                model_after_polls E options id pollingInterval (S k) s2
            | _ => None
            end = Some s').
    rewrite H1. exact (IH s1 Hafter Hit).
Qed.

(** The interval a call polls with is [config.pollingIntervalMs], or one
    second. *)
Lemma model_start_job_interval {W : Type} (E : Env W) (options : CallOptions)
  (s s1 : State W) (date : Z) (id : string) (pollingInterval : Z) :
  Model.start_job E options s = (Ret (date, id, pollingInterval), s1) ->
  pollingInterval = polling_interval E.
Proof.
  rewrite model_start_job_eq.
  destruct (parseProviderOptions (providerOptions options)) as [e|so];
    [discriminate|].
  cbv zeta.
  destruct (truthy_opt (option_field audioUrl so)
            && truthy_opt (option_field fileId so)); [discriminate|].
  unfold model_submit_stage.
  destruct (negb (truthy_opt (option_field audioUrl so))
            && negb (truthy_opt (option_field fileId so))).
  - destruct (audio_blob E (audio options)); [discriminate|].
    destruct (config_headers E (world s)); [discriminate|].
    destruct (postFormDataToApi E _ _) as [[e|up] w1]; [discriminate|].
    cbn [world with_fileId after_call].
    destruct (config_headers E w1); [discriminate|].
    cbv zeta.
    destruct (postJsonToApi E _ w1) as [[e|cr] w2]; [discriminate|].
    intros H. now inversion H.
  - cbn [world with_fileId].
    destruct (config_headers E (world s)); [discriminate|].
    cbv zeta.
    destruct (postJsonToApi E _ _) as [[e|cr] w2]; [discriminate|].
    intros H. now inversion H.
Qed.

Lemma part003_start_job_interval {W : Type} (E : Env W)
  (options : CallOptions) (sonioxOptions : option SonioxOptions)
  (requestHeaders : Headers) (s s1 : State W) (id : string)
  (pollingInterval startTime : Z) :
  Part003.start_job E options sonioxOptions requestHeaders s
  = (Ret (id, pollingInterval, startTime), s1) ->
  pollingInterval = polling_interval E /\ startTime = Date_now E (world s1).
Proof.
  rewrite part003_start_job_eq.
  destruct (audio_blob E (audio options)); [discriminate|].
  cbv zeta.
  destruct (postFormDataToApi E _ _) as [[e|up] w1]; [discriminate|].
  destruct (postJsonToApi E _ _) as [[e|sub] w2]; [discriminate|].
  intros H. inversion H; subst. split; reflexivity.
Qed.

(** X22.  Any status other than [completed] and [error] means "not yet",
    in both revisions: after such a reply to the status request of turn
    [k], the call waits one polling interval
    ([config.pollingIntervalMs], or 1000 ms when that is not set) and
    begins turn [k + 1], with that reply as the last status seen and
    nothing else changed. *)
Theorem pending_status_waits_one_interval :
  forall (W : Type) (E : Env W) (options : CallOptions) (w w' : W) (k : nat)
         (value : StatusResponse),
    status value <> "completed" ->
    status value <> "error" ->
    (forall date id pollingInterval sk h,
        model_turn_begins E options w date id pollingInterval k sk ->
        options_aborted E options (world sk) = false ->
        config_headers E (world sk) = inr h ->
        getFromApi_status E (model_status_request E options h id) (world sk)
        = (inr value, w') ->
        pollingInterval = polling_interval E /\
        model_turn_begins E options w date id pollingInterval (S k)
          (after_call (with_statusResponse sk (Some value))
             (delay E (polling_interval E) w')
             (CallStatus (model_status_request E options h id)))) /\
    (forall date sonioxOptions requestHeaders id fileId pollingInterval
            startTime sk,
        part003_turn_begins E options w date sonioxOptions requestHeaders id
          fileId pollingInterval startTime k sk ->
        (Date_now E (world sk) - startTime <= Part003.timeoutMs)%Z ->
        options_aborted E options (world sk) = false ->
        getFromApi_status E
          (part003_status_request E options requestHeaders id) (world sk)
        = (inr value, w') ->
        pollingInterval = polling_interval E /\
        part003_turn_begins E options w date sonioxOptions requestHeaders id
          fileId pollingInterval startTime (S k)
          (after_call (with_statusResponse sk (Some value))
             (delay E (polling_interval E) w')
             (CallStatus
                (part003_status_request E options requestHeaders id)))).
Proof.
  intros W E options w w' k value Hnc Hne.
  apply String.eqb_neq in Hnc, Hne. split.
  - intros date id pi sk h (s1 & Hstart & Hafter) Hab Hcfg Hget.
    pose proof (model_start_job_interval E options _ Hstart) as Hpi.
    split; [exact Hpi|].
    exists s1. split; [exact Hstart|].
    apply (model_after_step E options id pi k _ Hafter).
    rewrite (model_iteration_query E options id pi sk Hab), Hcfg.
    cbv zeta. rewrite Hget, Hnc, Hne, Hpi. reflexivity.
  - intros date so rh id fid pi start sk
           (s0 & s1 & Hprep & Hstart & Hfid & Hafter) Hin Hab Hget.
    destruct (part003_start_job_interval E options so rh _ Hstart)
      as (Hpi & _).
    split; [exact Hpi|].
    exists s0, s1. split; [exact Hprep|]. split; [exact Hstart|].
    split; [exact Hfid|].
    apply (part003_after_step E options rh id pi start k _ Hafter).
    rewrite (part003_iteration_query E options rh id pi start sk Hin Hab).
    rewrite Hget, Hnc, Hne, Hpi. reflexivity.
Qed.

(** The provider answers [transcribing], a status the code does not
    name. *)
Lemma pending_status_waits_one_interval_witness :
  model_turn_begins Scenario.env Runs.plain_call Faults.unknown_status 0%Z
    "transcription-123" 1000%Z 1
    (after_call
       (with_statusResponse Faults.unknown_status_model_turn0
          (Some Faults.transcribing))
       (delay Scenario.env 1000%Z
          (snd (Scenario.next_status
                  (world Faults.unknown_status_model_turn0))))
       (CallStatus (model_status_request Scenario.env Runs.plain_call
                      Runs.test_headers "transcription-123"))) /\
  part003_turn_begins Scenario.env Runs.plain_call Faults.unknown_status 0%Z
    None Runs.test_headers "transcription-123" "file-123" 1000%Z 0%Z 1
    (after_call
       (with_statusResponse Faults.unknown_status_part003_turn0
          (Some Faults.transcribing))
       (delay Scenario.env 1000%Z
          (snd (Scenario.next_status
                  (world Faults.unknown_status_part003_turn0))))
       (CallStatus (part003_status_request Scenario.env Runs.plain_call
                      Runs.test_headers "transcription-123"))).
Proof.
  destruct (@pending_status_waits_one_interval _ Scenario.env Runs.plain_call
              Faults.unknown_status
              (snd (Scenario.next_status
                      (world Faults.unknown_status_model_turn0)))
              0 Faults.transcribing)
    as (Hmodel & Hpart); [discriminate|discriminate|].
  split.
  - apply (Hmodel 0%Z "transcription-123" 1000%Z
             Faults.unknown_status_model_turn0 Runs.test_headers).
    + unfold model_turn_begins. eexists. split; lazy; reflexivity.
    + reflexivity.
    + reflexivity.
    + reflexivity.
  - apply (Hpart 0%Z None Runs.test_headers "transcription-123" "file-123"
             1000%Z 0%Z Faults.unknown_status_part003_turn0).
    + unfold part003_turn_begins. do 2 eexists.
      split; [lazy; reflexivity|]. split; [lazy; reflexivity|].
      split; lazy; reflexivity.
    + vm_compute. discriminate.
    + reflexivity.
    + reflexivity.
Defined.

(** X23.  In [part_003] the deadline clock starts once the submission has
    returned: [startTime] is the time in the world the submission reply
    left, so neither the upload nor the submission counts against the three
    minutes, and the first turn is always within the deadline.  Unless the
    call is already cancelled, the first turn therefore sends a status
    request. *)
Theorem part003_deadline_starts_after_submission :
  forall (W : Type) (E : Env W) (options : CallOptions) (w w1 w2 : W)
         (sonioxOptions : option SonioxOptions) (h : Headers)
         (blob : list Byte.byte) (uploadResponse : UploadResponse)
         (submitResponse : CreateResponse),
    parseProviderOptions (providerOptions options) = inr sonioxOptions ->
    config_headers E w = inr h ->
    audio_blob E (audio options) = inr blob ->
    let requestHeaders := combineHeaders E h (headers options) in
    let fileId := upload_id uploadResponse in
    let id := create_id submitResponse in
    postFormDataToApi E
      (part003_upload_request E options requestHeaders blob) w
    = (inr uploadResponse, w1) ->
    postJsonToApi E
      (part003_submit_request E options sonioxOptions requestHeaders fileId) w1
    = (inr submitResponse, w2) ->
    exists s1,
      part003_turn_begins E options w (currentDate E w) sonioxOptions
        requestHeaders id fileId (polling_interval E) (Date_now E w2) 0 s1 /\
      world s1 = w2 /\
      calls s1 =
        [CallUpload (part003_upload_request E options requestHeaders blob);
         CallSubmit (part003_submit_request E options sonioxOptions
                       requestHeaders fileId)] /\
      (options_aborted E options w2 = false ->
       exists o s',
         Part003.poll_iteration E options requestHeaders id
           (polling_interval E) (Date_now E w2) s1 = (o, s') /\
         calls s' =
           (calls s1
            ++ [CallStatus
                  (part003_status_request E options requestHeaders id)])%list).
Proof.
  intros W E options w w1 w2 so h blob up sub Hparse Hh Hblob rh fid id Hup
         Hsub.
  eexists. split; [|split; [|split]].
  - unfold part003_turn_begins. do 2 eexists.
    split.
    { rewrite part003_prepare_eq, Hparse. cbv zeta.
      cbn [world init_state]. rewrite Hh. reflexivity. }
    split.
    { rewrite part003_start_job_eq, Hblob. cbv zeta.
      cbn [world with_transcriptionId with_fileId init_state].
      fold rh. rewrite Hup. fold fid. rewrite Hsub. reflexivity. }
    split; reflexivity.
  - reflexivity.
  - reflexivity.
  - intros Hab.
    rewrite part003_iteration_query.
    + cbn [world with_statusResponse with_transcriptionId after_call].
      destruct (getFromApi_status E (part003_status_request E options rh id) w2)
        as [[e|value] w3].
      * do 2 eexists. split; reflexivity.
      * cbv zeta.
        destruct (String.eqb (status value) "completed");
          [do 2 eexists; split; reflexivity|].
        destruct (String.eqb (status value) "error");
          do 2 eexists; split; reflexivity.
    + cbn [world with_statusResponse with_transcriptionId after_call].
      rewrite Z.sub_diag. unfold Part003.timeoutMs. lia.
    + exact Hab.
Qed.

(** The test scenario: upload and submission each answered at once. *)
Lemma part003_deadline_starts_after_submission_witness :
  exists s1,
    part003_turn_begins Scenario.env Runs.plain_call Scenario.happy
      (currentDate Scenario.env Scenario.happy) None Runs.test_headers
      "transcription-123" "file-123" (polling_interval Scenario.env)
      (Date_now Scenario.env Scenario.happy) 0 s1 /\
    world s1 = Scenario.happy /\
    calls s1 =
      [CallUpload (part003_upload_request Scenario.env Runs.plain_call
                     Runs.test_headers []);
       CallSubmit (part003_submit_request Scenario.env Runs.plain_call None
                     Runs.test_headers "file-123")] /\
    (options_aborted Scenario.env Runs.plain_call Scenario.happy = false ->
     exists o s',
       Part003.poll_iteration Scenario.env Runs.plain_call Runs.test_headers
         "transcription-123" (polling_interval Scenario.env)
         (Date_now Scenario.env Scenario.happy) s1 = (o, s') /\
       calls s' =
         (calls s1
          ++ [CallStatus
                (part003_status_request Scenario.env Runs.plain_call
                   Runs.test_headers "transcription-123")])%list).
Proof.
  exact (@part003_deadline_starts_after_submission _ Scenario.env
           Runs.plain_call Scenario.happy Scenario.happy Scenario.happy None
           Runs.test_headers [] {| upload_id := "file-123" |}
           {| create_id := "transcription-123";
              create_status := Val "queued" |}
           eq_refl eq_refl eq_refl eq_refl eq_refl).
Defined.

(** * Statements on which the two revisions differ *)

(** [part_003] uploads whenever it gets as far as the [try] with audio it
    can read. *)
Lemma part003_try_block_uploads {W : Type} (E : Env W) (options : CallOptions)
  (fuel : nat) (currentDate : Z) (sonioxOptions : option SonioxOptions)
  (requestHeaders : Headers) (blob : list Byte.byte) (s0 s1 : State W)
  (o : Outcome TranscriptionResult) :
  audio_blob E (audio options) = inr blob ->
  Part003.try_block E fuel options currentDate sonioxOptions requestHeaders s0
  = (o, s1) ->
  exists rest,
    calls s1 =
      (calls s0
       ++ CallUpload (part003_upload_request E options requestHeaders blob)
          :: rest)%list.
Proof.
  intros Hblob. unfold Part003.try_block. unfold bind at 1.
  rewrite part003_start_job_eq, Hblob. cbv zeta.
  destruct (postFormDataToApi E _ _) as [[e|up] w1].
  - intros H. inversion H; subst. exists []. reflexivity.
  - destruct (postJsonToApi E _ _) as [[e|sub] w2].
    + intros H. inversion H; subst. eexists. cbn [calls after_call with_fileId].
      rewrite <- app_assoc. reflexivity.
    + intros H. apply part003_poll_and_fetch_trace in H.
      destruct H as (_ & _ & _ & n & tail & _ & Hc & _).
      eexists. rewrite Hc.
      cbn [calls after_call with_fileId with_transcriptionId
             with_statusResponse].
      rewrite <- !app_assoc. reflexivity.
Qed.

Lemma part003_uploads_when_it_can {W : Type} (E : Env W)
  (options : CallOptions) (fuel : nat) (w : W)
  (sonioxOptions : option SonioxOptions) (h : Headers)
  (blob : list Byte.byte) (out : Outcome TranscriptionResult) (st : State W) :
  parseProviderOptions (providerOptions options) = inr sonioxOptions ->
  config_headers E w = inr h ->
  audio_blob E (audio options) = inr blob ->
  Part003.doGenerate E fuel options (init_state w) = (out, st) ->
  exists rest,
    calls st =
      CallUpload
        (part003_upload_request E options
           (combineHeaders E h (headers options)) blob) :: rest.
Proof.
  intros Hparse Hh Hblob Hrun.
  destruct (part003_run_split E options fuel w Hrun)
    as [(_ & _ & _ & _ & [Hp|Hc])|(so & h' & o1 & s1 & _ & Hh' & Hrest)];
    [congruence|congruence|].
  assert (h' = h) by congruence. subst h'.
  cbv zeta in Hrest. destruct Hrest as (Htry & _ & Hfin).
  destruct (@part003_try_block_uploads _ E options fuel _ _ _ blob _ _ _
              Hblob Htry) as (rest & Hc1).
  cbn [calls with_transcriptionId with_fileId init_state List.app] in Hc1.
  destruct Hfin as [(_ & ->)|(_ & Hc & _)].
  - now exists rest.
  - eexists. rewrite Hc, Hc1. reflexivity.
Qed.

(** C2, where one revision departs from it.  In [part_003] the [language]
    of a returned result is chosen from the fetched tokens as the claim
    says: it is [undefined] exactly when no token carries a non-empty tag,
    and otherwise it is the non-empty tag [l] such that every tag occurring
    before the first [l] is carried by strictly fewer tokens than [l] and no
    tag is carried by more tokens than [l] (the most frequent tag, the
    earliest one among equals), which fits no other tag.
    [soniox-transcription-model.ts] returns [language: undefined] whatever
    the fetched tokens carry.  In the test scenario of the repository the
    fetched tokens are tagged [en], [en], [fr]: [part_003] reports [en], as
    the test expects, and [soniox-transcription-model.ts] returns the same
    tokens with no language. *)
Theorem language_is_chosen_in_one_revision_only :
  (forall (W : Type) (E : Env W) (fuel : nat) (options : CallOptions) (w : W)
          (r : TranscriptionResult) (st : State W),
      Part003.doGenerate E fuel options (init_state w) = (Ret r, st) ->
      exists request reply w0 w1,
        In (CallTranscript request) (calls st) /\
        getFromApi_transcript E request w0 = (inr reply, w1) /\
        let fetched := coalesce_or (tokens (value reply)) [] in
        result_language r = getLanguageFromTokens (Some fetched) /\
        (result_language r = None <-> language_tags fetched = []) /\
        (forall l,
            result_language r = Some l <->
            exists pre post,
              language_tags fetched = (pre ++ l :: post)%list /\
              (forall l', In l' pre ->
                          occurrences l' fetched < occurrences l fetched) /\
              (forall l', In l' post ->
                          occurrences l' fetched <= occurrences l fetched)) /\
        (forall l, result_language r = Some l -> l <> "")) /\
  (forall (W : Type) (E : Env W) (fuel : nat) (options : CallOptions) (w : W)
          (r : TranscriptionResult) (st : State W),
      Model.doGenerate E fuel options (init_state w) = (Ret r, st) ->
      exists request reply w0 w1,
        In (CallTranscript request) (calls st) /\
        getFromApi_transcript E request w0 = (inr reply, w1) /\
        providerMetadata_soniox_tokens r
        = coalesce_or (tokens (value reply)) [] /\
        result_language r = None) /\
  language_tags Scenario.hello_tokens = ["en"; "en"; "fr"] /\
  getLanguageFromTokens (Some Scenario.hello_tokens) = Some "en" /\
  (exists r st,
      Part003.doGenerate Scenario.env 5 Runs.plain_call
        (init_state Scenario.happy) = (Ret r, st) /\
      providerMetadata_soniox_tokens r = Scenario.hello_tokens /\
      result_language r = Some "en") /\
  (exists r st,
      Model.doGenerate Scenario.env 5 Runs.plain_call
        (init_state Scenario.happy) = (Ret r, st) /\
      providerMetadata_soniox_tokens r = Scenario.hello_tokens /\
      result_language r = None).
Proof.
  split; [|split; [|split; [|split; [|split]]]].
  - intros W E fuel options w r st Hrun.
    apply part003_doGenerate_result in Hrun.
    destruct Hrun as (request & reply & w0 & w1 & Hin & Hget & _ & _ & Hlang).
    exists request, reply, w0, w1. cbv zeta.
    set (fetched := coalesce_or (tokens (value reply)) []) in *.
    rewrite Hlang.
    split; [exact Hin|]. split; [exact Hget|]. split; [reflexivity|].
    split; [apply getLanguageFromTokens_None|]. split.
    + intros l. split.
      * intros Hl. apply getLanguageFromTokens_Some in Hl.
        destruct Hl as (pre & post & Htags & Hpre & Hpost & _).
        now exists pre, post.
      * intros (pre & post & Htags & Hpre & Hpost).
        destruct (getLanguageFromTokens (Some fetched)) as [l2|] eqn:Hsel.
        -- apply getLanguageFromTokens_Some in Hsel.
           destruct Hsel as (pre2 & post2 & Htags2 & Hpre2 & Hpost2 & _).
           f_equal.
           apply (@earliest_most_frequent_unique (language_tags fetched)
                    (fun x => occurrences x fetched) l2 l pre2 post2 pre
                    post); assumption.
        -- apply getLanguageFromTokens_None in Hsel. rewrite Hsel in Htags.
           destruct pre; discriminate.
    + intros l Hl. apply getLanguageFromTokens_Some in Hl.
      destruct Hl as (_ & _ & _ & _ & _ & Hne). exact Hne.
  - intros W E fuel options w r st Hrun.
    apply model_doGenerate_result in Hrun.
    destruct Hrun as (request & reply & w0 & w1 & Hin & Hget & Htok & _
                      & Hlang).
    exists request, reply, w0, w1. repeat split; assumption.
  - reflexivity.
  - vm_compute. reflexivity.
  - exists (Runs.result_of Runs.happy_part003), (snd Runs.happy_part003).
    split; [vm_compute; reflexivity|]. split; reflexivity.
  - exists (Runs.result_of Runs.happy_model), (snd Runs.happy_model).
    split; [vm_compute; reflexivity|]. split; reflexivity.
Qed.

(** C4, where one revision departs from it.
    [soniox-transcription-model.ts]: a call whose provider options carry
    both a non-empty [audioUrl] and a non-empty [fileId] throws
    [Error('Provide either audioUrl or fileId, not both.')] and has issued
    no request at all.  [part_003] has no such check: it reads neither
    option, so the same call, when the request headers can be built and the
    audio read, begins with the upload.  In the test scenario it goes
    through eight requests (upload, submission, three status requests,
    transcript, two deletions) and returns a result. *)
Theorem both_sources_are_rejected_in_one_revision_only :
  (forall (W : Type) (E : Env W) (fuel : nat) (options : CallOptions) (w : W)
          (o : SonioxOptions) (audio_reference file : string),
      providerOptions options = SonioxOptionsObject o ->
      audioUrl o = Val audio_reference ->
      fileId o = Val file ->
      audio_reference <> "" ->
      file <> "" ->
      exists st,
        Model.doGenerate E fuel options (init_state w)
        = (Throw (ErrorObject "Error"
                    "Provide either audioUrl or fileId, not both." None),
           st) /\
        calls st = [] /\
        world st = w) /\
  (forall (W : Type) (E : Env W) (fuel : nat) (options : CallOptions) (w : W)
          (o : SonioxOptions) (audio_reference file : string) (h : Headers)
          (blob : list Byte.byte) (out : Outcome TranscriptionResult)
          (st : State W),
      providerOptions options = SonioxOptionsObject o ->
      audioUrl o = Val audio_reference ->
      fileId o = Val file ->
      audio_reference <> "" ->
      file <> "" ->
      config_headers E w = inr h ->
      audio_blob E (audio options) = inr blob ->
      Part003.doGenerate E fuel options (init_state w) = (out, st) ->
      exists rest,
        calls st =
          CallUpload
            (part003_upload_request E options
               (combineHeaders E h (headers options)) blob) :: rest) /\
  audioUrl Runs.url_and_file = Val Runs.coffee_shop /\
  fileId Runs.url_and_file = Val "file-9" /\
  (exists st,
      Model.doGenerate Scenario.env 5 Faults.both_call
        (init_state Scenario.happy)
      = (Throw (ErrorObject "Error"
                  "Provide either audioUrl or fileId, not both." None), st) /\
      calls st = []) /\
  (exists r st,
      Part003.doGenerate Scenario.env 5 Faults.both_call
        (init_state Scenario.happy) = (Ret r, st) /\
      List.map call_url (calls st) =
        ["https://api.soniox.com/v1/files";
         "https://api.soniox.com/v1/transcriptions";
         "https://api.soniox.com/v1/transcriptions/transcription-123";
         "https://api.soniox.com/v1/transcriptions/transcription-123";
         "https://api.soniox.com/v1/transcriptions/transcription-123";
         "https://api.soniox.com/v1/transcriptions/transcription-123/transcript";
         "https://api.soniox.com/v1/transcriptions/transcription-123";
         "https://api.soniox.com/v1/files/file-123"] /\
      List.map is_fetch (calls st) =
        [false; false; false; false; false; false; true; true]).
Proof.
  split; [|split; [|split; [|split; [|split]]]].
  - intros W E fuel options w o url file Hpo Hurl Hfile Hne1 Hne2.
    exists (init_state w).
    rewrite model_doGenerate_unfold.
    rewrite (@model_start_job_both _ E options o).
    + repeat split.
    + exact Hpo.
    + rewrite Hurl. simpl. now apply truthy_nonempty.
    + rewrite Hfile. simpl. now apply truthy_nonempty.
  - intros W E fuel options w o url file h blob out st Hpo _ _ _ _ Hh Hblob
           Hrun.
    apply (@part003_uploads_when_it_can _ E options fuel w
             (Some (sonioxTranscriptionProviderOptionsSchema o)) h blob out
             st); try assumption.
    rewrite Hpo. reflexivity.
  - reflexivity.
  - reflexivity.
  - exists (snd Faults.both_model). split; vm_compute; reflexivity.
  - exists (Runs.result_of Faults.both_part003), (snd Faults.both_part003).
    split; [vm_compute; reflexivity|]. split; vm_compute; reflexivity.
Qed.

(** C7, where one revision departs from it.
    [soniox-transcription-model.ts]: when the provider options carry a
    non-empty [audioUrl], no request of the call is an upload, and every
    submission has that URL in [audio_url]; when moreover no usable
    [fileId] is given and the request headers can be built, the submission
    is the first request of the call.  [part_003] does not read [audioUrl]:
    the same call, when the request headers can be built and the audio read,
    begins with the upload, and every submission it makes has no
    [audio_url] and refers to the uploaded file.  In the repository's test
    [should use audioUrl when provided], [part_003] sends the upload first
    and submits [file_id: file-123] without [audio_url]. *)
Theorem audio_url_is_used_in_one_revision_only :
  (forall (W : Type) (E : Env W) (fuel : nat) (options : CallOptions) (w : W)
          (o : SonioxOptions) (audio_reference : string)
          (out : Outcome TranscriptionResult) (st : State W),
      providerOptions options = SonioxOptionsObject o ->
      audioUrl o = Val audio_reference ->
      audio_reference <> "" ->
      Model.doGenerate E fuel options (init_state w) = (out, st) ->
      forallb (fun c => negb (is_upload c)) (calls st) = true /\
      (forall r, In (CallSubmit r) (calls st) ->
                 audio_url (req_body r) = Some audio_reference) /\
      (truthy_opt (coalesce (fileId o)) = false ->
       forall h, config_headers E w = inr h ->
                 exists r rest,
                   calls st = CallSubmit r :: rest /\
                   audio_url (req_body r) = Some audio_reference /\
                   file_id (req_body r) = coalesce (fileId o))) /\
  (forall (W : Type) (E : Env W) (fuel : nat) (options : CallOptions) (w : W)
          (o : SonioxOptions) (audio_reference : string)
          (out : Outcome TranscriptionResult) (st : State W),
      providerOptions options = SonioxOptionsObject o ->
      audioUrl o = Val audio_reference ->
      audio_reference <> "" ->
      Part003.doGenerate E fuel options (init_state w) = (out, st) ->
      (forall h blob,
          config_headers E w = inr h ->
          audio_blob E (audio options) = inr blob ->
          exists rest,
            calls st =
              CallUpload
                (part003_upload_request E options
                   (combineHeaders E h (headers options)) blob) :: rest) /\
      (forall r, In (CallSubmit r) (calls st) ->
                 audio_url (req_body r) = None /\
                 exists h blob uploadResponse w0,
                   postFormDataToApi E
                     (part003_upload_request E options
                        (combineHeaders E h (headers options)) blob) w
                   = (inr uploadResponse, w0) /\
                   file_id (req_body r) = Some (upload_id uploadResponse))) /\
  audioUrl Runs.url_only = Val Runs.coffee_shop /\
  (exists out st r rest,
      Model.doGenerate Scenario.env 5 Faults.url_call
        (init_state Scenario.happy) = (out, st) /\
      calls st = CallSubmit r :: rest /\
      url r = "https://api.soniox.com/v1/transcriptions" /\
      audio_url (req_body r) = Some Runs.coffee_shop /\
      file_id (req_body r) = None /\
      forallb (fun c => negb (is_upload c)) rest = true) /\
  (exists out st upload r rest,
      Part003.doGenerate Scenario.env 5 Faults.url_call
        (init_state Scenario.happy) = (out, st) /\
      calls st = CallUpload upload :: CallSubmit r :: rest /\
      url upload = "https://api.soniox.com/v1/files" /\
      audio_url (req_body r) = None /\
      file_id (req_body r) = Some "file-123").
Proof.
  split; [|split; [|split; [|split]]].
  - intros W E fuel options w o url out st Hpo Hurl Hne Hrun.
    apply model_doGenerate_shape in Hrun.
    destruct Hrun as (o1 & s1 & cs & Hstart & Hcalls & Hall).
    apply (@model_start_job_audioUrl _ E options o url _ _ _ Hpo Hurl
             (truthy_nonempty Hne)) in Hstart.
    destruct Hstart as (Hshape & Hfirst). cbn [calls init_state world] in *.
    assert (Hcs : forall c, In c cs -> is_upload c = false /\
                                       forall r, c <> CallSubmit r).
    { intros c Hc. rewrite forallb_forall in Hall. apply Hall in Hc.
      destruct c; try discriminate; split; auto; intros r0 H0; discriminate. }
    split; [|split].
    + rewrite Hcalls. rewrite forallb_app. apply andb_true_iff. split.
      * destruct Hshape as [->|(r & -> & _)]; reflexivity.
      * apply forallb_forall. intros c Hc. apply Hcs in Hc.
        destruct Hc as [-> _]. reflexivity.
    + intros r Hin. rewrite Hcalls in Hin. apply in_app_or in Hin.
      destruct Hin as [Hin|Hin].
      * destruct Hshape as [Hs|(r0 & Hs & Hurl0 & _)]; rewrite Hs in Hin.
        -- destruct Hin.
        -- destruct Hin as [Heq|[]]. inversion Heq; subst. exact Hurl0.
      * apply Hcs in Hin. destruct Hin as [_ Hin]. now elim (Hin r).
    + intros Hnofile h Hh.
      destruct (Hfirst Hnofile h Hh) as (r & Hs & Hu & Hf).
      exists r, cs. rewrite Hcalls, Hs. repeat split; auto.
  - intros W E fuel options w o url out st Hpo _ _ Hrun. split.
    + intros h blob Hh Hblob.
      apply (@part003_uploads_when_it_can _ E options fuel w
               (Some (sonioxTranscriptionProviderOptionsSchema o)) h blob out
               st); try assumption.
      rewrite Hpo. reflexivity.
    + destruct (part003_run_requests E options fuel w Hrun)
        as [Hnone|(so & h & blob & rest & _ & Hh & Hblob & Hcalls & Hall)].
      * rewrite Hnone. intros r [].
      * cbv zeta in Hcalls, Hall. rewrite Forall_forall in Hall.
        intros r Hr. rewrite Hcalls in Hr.
        destruct Hr as [Hr|Hr]; [discriminate|].
        destruct (Hall _ Hr)
          as [(up & w0 & Hup & Heq)|[(id & Heq)|[(id & Heq)|(t & Heq)]]];
          try discriminate.
        inversion Heq; subst. split; [reflexivity|].
        exists h, blob, up, w0. split; [exact Hup|reflexivity].
  - reflexivity.
  - exists (fst Runs.url_only_model), (snd Runs.url_only_model).
    do 2 eexists. split; [vm_compute; reflexivity|].
    split; [vm_compute; reflexivity|]. repeat split.
  - exists (fst Faults.url_only_part003), (snd Faults.url_only_part003).
    do 3 eexists. split; [vm_compute; reflexivity|].
    split; [vm_compute; reflexivity|]. repeat split.
Qed.



